(** * Octopus Deploy MCP server: name resolution and orchestration layer

    A shallow embedding of [octopus_deploy_mcp/tools/*.py] and of the
    configuration in [octopus_deploy_mcp/settings.py].  The tools are
    Python methods that talk to a remote REST API and shuffle decoded JSON
    around; the embedding keeps

    - the values as Python has them after [json.loads] ([json] below),
      together with the dynamic behaviour of the handful of operations the
      code applies to them ([.get], [x[k]], [in], truthiness, [==], ...);
    - the exceptions those operations raise on values of the wrong shape;
    - every HTTP exchange as an explicit event of a small free monad, so
      that "which requests were sent, in which order, with which body" is a
      property of the program and not of a particular remote system;
    - the methods of [str] that follow Unicode ([lower], [upper], [strip])
      as a parameter, known on ASCII strings: what is proved holds for
      every such choice, the interpreter's included.

    The file has four parts: the embedding of the source, function by
    function; the vocabulary the properties are stated with; the data of
    the examples; the properties, those of the specification first and
    further ones of the code after them. *)

From Stdlib Require Import List String Ascii ZArith NArith Bool Lia.
From Stdlib Require Import DecimalString.
From Stdlib Require Import Floats.SpecFloat.
Import ListNotations.
Open Scope list_scope.
Open Scope string_scope.

(** ** Python strings *)

Module PyStr.

(** [str] is modelled by [string].  Case mapping and whitespace follow
    the Unicode character database in Python: what is defined here for
    them is what [str.lower], [str.upper] and [str.strip] do on strings
    of ASCII characters, and the methods themselves are a parameter of
    the embedding ([str_methods] below). *)

(** A string of ASCII characters. *)
Definition is_ascii_char (c : ascii) : bool := (N_of_ascii c <? 128)%N.

Fixpoint is_ascii (s : string) : bool :=
  match s with
  | EmptyString => true
  | String c r => is_ascii_char c && is_ascii r
  end.

Definition lower_ascii (c : ascii) : ascii :=
  let n := N_of_ascii c in
  if (65 <=? n)%N && (n <=? 90)%N then ascii_of_N (n + 32) else c.

Definition upper_ascii (c : ascii) : ascii :=
  let n := N_of_ascii c in
  if (97 <=? n)%N && (n <=? 122)%N then ascii_of_N (n - 32) else c.

Fixpoint map_string (f : ascii -> ascii) (s : string) : string :=
  match s with
  | EmptyString => EmptyString
  | String c r => String (f c) (map_string f r)
  end.

(** [s.lower()], [s.upper()] for an ASCII [s] *)
Definition ascii_lower : string -> string := map_string lower_ascii.
Definition ascii_upper : string -> string := map_string upper_ascii.

(** The ASCII characters removed by [s.strip()] with no argument. *)
Definition is_space (c : ascii) : bool :=
  let n := N_of_ascii c in
  ((9 <=? n)%N && (n <=? 13)%N) || ((28 <=? n)%N && (n <=? 32)%N).

Fixpoint lstrip_while (p : ascii -> bool) (s : string) : string :=
  match s with
  | EmptyString => EmptyString
  | String c r => if p c then lstrip_while p r else s
  end.

Definition rev (s : string) : string :=
  string_of_list_ascii (List.rev (list_ascii_of_string s)).

Definition rstrip_while (p : ascii -> bool) (s : string) : string :=
  rev (lstrip_while p (rev s)).

(** [s.strip()] for an ASCII [s]; [s.lstrip('/')], [s.rstrip('/')] *)
Definition ascii_strip (s : string) : string :=
  rstrip_while is_space (lstrip_while is_space s).
Definition lstrip_slash : string -> string := lstrip_while (Ascii.eqb "/").
Definition rstrip_slash : string -> string := rstrip_while (Ascii.eqb "/").

(** [needle in s] on two strings. *)
Fixpoint contains (needle s : string) : bool :=
  String.prefix needle s ||
  match s with
  | EmptyString => false
  | String _ r => contains needle r
  end.

(** [bool(s)] *)
Definition nonempty (s : string) : bool :=
  match s with EmptyString => false | _ => true end.

(** [str(n)] for an [int]. *)
Definition of_Z (n : Z) : string := NilZero.string_of_int (Z.to_int n).

(** The one-character strings a [for] loop over a [str] yields. *)
Fixpoint chars (s : string) : list string :=
  match s with
  | EmptyString => []
  | String c r => String c EmptyString :: chars r
  end.

(** [s.endswith(suffix)] *)
Definition endswith (suffix s : string) : bool :=
  String.prefix (rev suffix) (rev s).

(** The line feed, and [sep.join(lines)] for it. *)
Definition nl : string := String "010" EmptyString.

Fixpoint join_lines (lines : list string) : string :=
  match lines with
  | [] => EmptyString
  | [l] => l
  | l :: rest => l ++ nl ++ join_lines rest
  end.

End PyStr.

(** ** The methods of [str] that follow Unicode

    [str.lower], [str.upper] and [str.strip] are built into Python and
    depend on its Unicode tables.  The embedding takes them as they are:
    any three functions that do on ASCII strings what Python does there.
    Every property below is proved for all of them, so also for the
    methods of the interpreter that runs the code. *)
Class str_methods : Type := {
  str_lower : string -> string;
  str_upper : string -> string;
  str_strip : string -> string;
  str_lower_ascii :
    forall s, PyStr.is_ascii s = true -> str_lower s = PyStr.ascii_lower s;
  str_upper_ascii :
    forall s, PyStr.is_ascii s = true -> str_upper s = PyStr.ascii_upper s;
  str_strip_ascii :
    forall s, PyStr.is_ascii s = true -> str_strip s = PyStr.ascii_strip s
}.

(** ** Values *)

(** What [response.json()] can produce, which is also all the tools ever
    hold in a variable: [None], [bool], [int], [float], [str], [list] and
    [dict] with string keys.  A [dict] is its list of items in insertion
    order; [dict_get] reads the first binding of a key. *)
#[warnings="-register-all"]
Inductive json : Type :=
| JNull
| JBool (b : bool)
| JInt (n : Z)
| JFloat (f : spec_float)
| JStr (s : string)
| JList (l : list json)
| JDict (d : list (string * json)).

Definition dict_get (d : list (string * json)) (k : string) : option json :=
  option_map snd (find (fun kv => String.eqb (fst kv) k) d).

Definition dict_has (d : list (string * json)) (k : string) : bool :=
  existsb (fun kv => String.eqb (fst kv) k) d.

Definition is_nil {A} (l : list A) : bool :=
  match l with [] => true | _ => false end.

(** [bool(v)] *)
Definition truthy (v : json) : bool :=
  match v with
  | JNull => false
  | JBool b => b
  | JInt n => negb (n =? 0)%Z
  | JFloat (S754_zero _) => false
  | JFloat _ => true
  | JStr s => PyStr.nonempty s
  | JList l => negb (is_nil l)
  | JDict d => negb (is_nil d)
  end.

(** Numbers compare by value across [bool], [int] and [float]. *)
Inductive number : Type :=
| NInt (n : Z)
| NFloat (f : spec_float).

Definition number_of (v : json) : option number :=
  match v with
  | JBool b => Some (NInt (if b then 1 else 0))
  | JInt n => Some (NInt n)
  | JFloat f => Some (NFloat f)
  | _ => None
  end.

(** An [int] equals a [float] when the float is that integer exactly. *)
Definition float_eq_Z (f : spec_float) (n : Z) : bool :=
  match f with
  | S754_zero _ => (n =? 0)%Z
  | S754_finite s m e =>
      let sm := if s then Z.neg m else Z.pos m in
      if (0 <=? e)%Z then (n =? sm * 2 ^ e)%Z
      else (n * 2 ^ (- e) =? sm)%Z
  | _ => false
  end.

Definition number_eqb (x y : number) : bool :=
  match x, y with
  | NInt a, NInt b => (a =? b)%Z
  | NInt a, NFloat f | NFloat f, NInt a => float_eq_Z f a
  | NFloat f, NFloat g => SFeqb f g
  end.

(** [a == b] *)
Fixpoint py_eq (a b : json) {struct a} : bool :=
  match a with
  | JNull => match b with JNull => true | _ => false end
  | JStr s => match b with JStr t => String.eqb s t | _ => false end
  | JList xs =>
      match b with
      | JList ys =>
          (fix all2 (xs ys : list json) {struct xs} : bool :=
             match xs, ys with
             | [], [] => true
             | x :: xs', y :: ys' => py_eq x y && all2 xs' ys'
             | _, _ => false
             end) xs ys
      | _ => false
      end
  | JDict d =>
      match b with
      | JDict e =>
          Nat.eqb (List.length d) (List.length e) &&
          (fix allk (d : list (string * json)) : bool :=
             match d with
             | [] => true
             | (k, v) :: d' =>
                 match dict_get e k with
                 | Some w => py_eq v w
                 | None => false
                 end && allk d'
             end) d
      | _ => false
      end
  | JBool _ | JInt _ | JFloat _ =>
      match number_of a, number_of b with
      | Some x, Some y => number_eqb x y
      | _, _ => false
      end
  end.

(** [str(v)], as an f-string interpolates it.  [repr] of floats and of
    containers is left to the parameter [py_repr]. *)
Definition py_str (py_repr : json -> string) (v : json) : string :=
  match v with
  | JNull => "None"
  | JBool true => "True"
  | JBool false => "False"
  | JInt n => PyStr.of_Z n
  | JStr s => s
  | _ => py_repr v
  end.

(** An optional [str] argument interpolated in an f-string. *)
Definition opt_str (o : option string) : string :=
  match o with Some s => s | None => "None" end.

(** [bool(o)] for an optional [str]. *)
Definition opt_truthy (o : option string) : bool :=
  match o with Some s => PyStr.nonempty s | None => false end.

(** ** Effects: exceptions and HTTP exchanges *)

Inductive exn : Type :=
| AttributeError
| TypeError
| KeyError
| IndexError.

(** One call of [client.get] / [client.post]. *)
Record request : Type := mk_request {
  rq_method : string;
  rq_url : string;
  rq_headers : json;
  rq_json : json
}.

(** [response.json()] either decodes or raises. *)
Inductive decoded : Type :=
| Decoded (v : json)
| DecodeError (msg : string).

(** What the [with httpx.Client()] block can end in, up to the point where
    the status code is looked at. *)
Inductive http_outcome : Type :=
| Responded (status_code : Z) (text : string) (body : decoded)
| RequestError (msg : string)
| OtherException (msg : string).

(** Programs: return, raise, or send a request and continue with what
    came back. *)
Inductive io (A : Type) : Type :=
| Ret (a : A)
| Raise (e : exn)
| Http (rq : request) (k : http_outcome -> io A).

Arguments Ret {A} a.
Arguments Raise {A} e.
Arguments Http {A} rq k.

Fixpoint bind {A B} (m : io A) (f : A -> io B) : io B :=
  match m with
  | Ret a => f a
  | Raise e => Raise e
  | Http rq k => Http rq (fun o => bind (k o) f)
  end.

Declare Scope io_scope.
Delimit Scope io_scope with io.
Notation "x <- m ;; k" := (bind m (fun x => k))
  (at level 61, m at next level, right associativity) : io_scope.
Notation "m ;;; k" := (bind m (fun _ => k))
  (at level 61, right associativity) : io_scope.
Open Scope io_scope.

(** *** Running a program against a remote system

    The remote system is a state machine [h] over some state [W]: it
    answers a request and moves on.  [run] returns what the program ended
    in, the final remote state, and the requests sent, oldest first. *)

Inductive result (A : Type) : Type :=
| Ok (a : A)
| Err (e : exn).

Arguments Ok {A} a.
Arguments Err {A} e.

Fixpoint run {W A} (h : W -> request -> http_outcome * W) (m : io A) (w : W)
  : result A * W * list request :=
  match m with
  | Ret a => (Ok a, w, [])
  | Raise e => (Err e, w, [])
  | Http rq k =>
      let '(o, w1) := h w rq in
      let '(r, w2, sent) := run h (k o) w1 in
      (r, w2, rq :: sent)
  end.

(** Programs that send nothing. *)
Definition pure {A} (m : io A) : Prop :=
  match m with Http _ _ => False | _ => True end.

(** ** Operations on values that can raise *)

(** [v.get(k, dflt)] *)
Definition py_get (v : json) (k : string) (dflt : json) : io json :=
  match v with
  | JDict d => Ret (match dict_get d k with Some x => x | None => dflt end)
  | _ => Raise AttributeError
  end.

(** [v[k]] with a string key *)
Definition py_getitem (v : json) (k : string) : io json :=
  match v with
  | JDict d => match dict_get d k with Some x => Ret x | None => Raise KeyError end
  | _ => Raise TypeError
  end.

(** [v[0]] *)
Definition py_first (v : json) : io json :=
  match v with
  | JList (x :: _) => Ret x
  | JList [] => Raise IndexError
  | JStr (String c _) => Ret (JStr (String c EmptyString))
  | JStr EmptyString => Raise IndexError
  | JDict _ => Raise KeyError
  | _ => Raise TypeError
  end.

(** [needle in v] for a string [needle] *)
Definition py_contains (needle : string) (v : json) : io bool :=
  match v with
  | JDict d => Ret (dict_has d needle)
  | JList l => Ret (existsb (py_eq (JStr needle)) l)
  | JStr s => Ret (PyStr.contains needle s)
  | _ => Raise TypeError
  end.

(** [iter(v)]: the elements a [for] loop or a generator visits. *)
Definition py_iter (v : json) : io (list json) :=
  match v with
  | JList l => Ret l
  | JStr s => Ret (map JStr (PyStr.chars s))
  | JDict d => Ret (map (fun kv => JStr (fst kv)) d)
  | _ => Raise TypeError
  end.

(** [len(v)] *)
Definition py_len (v : json) : io nat :=
  match v with
  | JList l => Ret (List.length l)
  | JStr s => Ret (String.length s)
  | JDict d => Ret (List.length d)
  | _ => Raise TypeError
  end.

(** [v.lower()] *)
Definition py_lower {sm : str_methods} (v : json) : io string :=
  match v with
  | JStr s => Ret (str_lower s)
  | _ => Raise AttributeError
  end.

(** [next((x for x in l if p x), dflt)]: elements after the first match are
    never looked at. *)
Fixpoint py_next_match (p : json -> io bool) (l : list json) (dflt : json)
  : io json :=
  match l with
  | [] => Ret dflt
  | x :: r => b <- p x ;; if b then Ret x else py_next_match p r dflt
  end.

(** [hash(v)] raises on lists and dicts. *)
Definition hashable (v : json) : bool :=
  match v with
  | JList _ | JDict _ => false
  | _ => true
  end.

(** A [set] of values: its elements, pairwise different for [==]. *)
Definition py_set_contains (s : list json) (v : json) : io bool :=
  if hashable v then Ret (existsb (py_eq v) s) else Raise TypeError.

Definition py_set_add (s : list json) (v : json) : io (list json) :=
  b <- py_set_contains s v ;;
  Ret (if b then s else s ++ [v])%list.

(** A parameter left out of a call takes its default. *)
Definition default_arg {A} (d : A) (o : option A) : A :=
  match o with Some a => a | None => d end.

(** ** [base_tools.py]: [BaseOctopusTools] *)

(** The two attributes of [self] the methods read. *)
Record tools : Type := mk_tools {
  base_url : string;
  api_key : option string
}.

(** [__init__]: the base URL loses its trailing slashes. *)
Definition BaseOctopusTools_init (config_base_url : string)
  (config_api_key : option string) : tools :=
  mk_tools (PyStr.rstrip_slash config_base_url) config_api_key.

(** The string [json.dumps(data, indent=n)], kept as the arguments it is
    produced from: every tool returns such a string, and what the claims
    say about a returned payload is said about [dumps_data]. *)
Record json_text : Type := json_dumps {
  dumps_data : json;
  dumps_indent : nat
}.

Definition error_value (message : string) : json :=
  JDict [("error", JStr message)].

Definition missing_credentials : string :=
  "Missing Octopus Deploy credentials. Please configure OCTOPUS_URL and OCTOPUS_API_KEY environment variables.".

(** The methods.  Arguments a caller may leave out are [option]s, [None]
    standing for "left out".  Calls of the logger are dropped, except
    that an expression interpolated in a log message is still evaluated,
    for the exception it may raise: such steps are the ones whose result
    is thrown away with [;;;]. *)
Section OctopusTools.

(** [str.lower], [str.upper] and [str.strip]. *)
Context {sm : str_methods}.

(** [repr] for floats and containers: total on the values at hand, and
    nothing below depends on the text it produces. *)
Variable py_repr : json -> string.

Variable self : tools.

Definition str : json -> string := py_str py_repr.

(** [_get_headers], base_tools.py lines 18-23. *)
Definition _get_headers : json :=
  JDict [("X-Octopus-ApiKey",
          match api_key self with Some k => JStr k | None => JNull end);
         ("Content-Type", JStr "application/json")].

(** What [_make_request] returns once the exchange is over. *)
Definition response_value (o : http_outcome) : json :=
  match o with
  | Responded status_code text body =>
      if (status_code =? 200)%Z || (status_code =? 201)%Z then
        match body with
        | Decoded v => v
        | DecodeError msg => error_value ("Unexpected error: " ++ msg)
        end
      else if (status_code =? 401)%Z then
        error_value "Authentication failed. Please check your API key."
      else if (status_code =? 404)%Z then
        error_value "Resource not found."
      else
        error_value ("API request failed with status "
                     ++ PyStr.of_Z status_code ++ ": " ++ text)
  | RequestError msg =>
      error_value ("Failed to connect to Octopus Deploy API: " ++ msg)
  | OtherException msg =>
      error_value ("Unexpected error: " ++ msg)
  end.

(** [_make_request], base_tools.py lines 25-52.  Nothing before the
    [try] can raise, and the [try] turns every exception into an error
    value. *)
Definition _make_request (endpoint : string) (method : option string)
  (data : option json) : io json :=
  let method := default_arg "GET" method in
  let data := default_arg JNull data in
  if negb (PyStr.nonempty (base_url self)) || negb (opt_truthy (api_key self))
  then Ret (error_value missing_credentials)
  else
    let url := base_url self ++ "/" ++ PyStr.lstrip_slash endpoint in
    let headers := _get_headers in
    let rq :=
      if String.eqb (str_upper method) "POST"
      then mk_request "POST" url headers data
      else mk_request "GET" url headers JNull in
    Http rq (fun o => Ret (response_value o)).

(** [resources if isinstance(resources, list) else resources.get("Items", [])] *)
Definition list_or_items (resources : json) : io json :=
  match resources with
  | JList _ => Ret resources
  | _ => py_get resources "Items" (JList [])
  end.

(** The condition of the generator in [_get_by_name]: [x.get('Name',
    '').lower() == name.lower()]. *)
Definition name_matches (name : string) (x : json) : io bool :=
  n <- py_get x "Name" (JStr "") ;;
  l <- py_lower n ;;
  Ret (String.eqb l (str_lower name)).

(** [_get_by_name], base_tools.py lines 54-61. *)
Definition _get_by_name (uri : string) (name : string) : io json :=
  resources <- _make_request uri None None ;;
  failed <- py_contains "error" resources ;;
  if failed then Ret JNull
  else
    items <- list_or_items resources ;;
    xs <- py_iter items ;;
    py_next_match (name_matches name) xs JNull.

(** [_get_space], base_tools.py lines 63-71. *)
Definition _get_space (space_name : option string) : io json :=
  let space_name := default_arg "Default" space_name in
  space <- _get_by_name "spaces/all" space_name ;;
  if negb (truthy space) then Ret JNull
  else
    py_getitem space "Id" ;;;    (* interpolated in the log line *)
    Ret space.

(** [_get_project_by_name], base_tools.py lines 73-80. *)
Definition _get_project_by_name (project_name : string)
  (space_name : option string) : io (json * json) :=
  let space_name := default_arg "Default" space_name in
  space <- _get_space (Some space_name) ;;
  if negb (truthy space) then Ret (JNull, JNull)
  else
    space_id <- py_getitem space "Id" ;;
    project <- _get_by_name (str space_id ++ "/projects/all") project_name ;;
    Ret (space, project).

(** [_get_project_releases], base_tools.py lines 82-84. *)
Definition _get_project_releases (space_id project_id : json) : io json :=
  _make_request (str space_id ++ "/projects/" ++ str project_id ++ "/releases")
                None None.

(** The condition of the generator in [_find_release]: [x.get('Version')
    == version]. *)
Definition version_matches (version : string) (x : json) : io bool :=
  v <- py_get x "Version" JNull ;;
  Ret (py_eq v (JStr version)).

(** [_find_release], base_tools.py lines 86-93. *)
Definition _find_release (releases : json) (version : option string)
  : io json :=
  if negb (truthy releases) then Ret JNull
  else
    match version with
    | Some v =>
        if PyStr.nonempty v then
          xs <- py_iter releases ;;
          py_next_match (version_matches v) xs JNull
        else py_first releases
    | None => py_first releases
    end.

(** [_json_response], base_tools.py lines 95-97. *)
Definition _json_response (data : json) (indent : option nat) : json_text :=
  json_dumps data (default_arg 2 indent).

(** [_error_response], base_tools.py lines 99-101. *)
Definition _error_response (message : string) : json_text :=
  _json_response (error_value message) None.

(** The loop over [deployments] that fills [env_ids_with_deployments]. *)
Fixpoint collect_env_ids (deployments : list json) (ids : list json)
  : io (list json) :=
  match deployments with
  | [] => Ret ids
  | deployment :: rest =>
      env_id <- py_get deployment "EnvironmentId" JNull ;;
      if truthy env_id then
        ids' <- py_set_add ids env_id ;;
        collect_env_ids rest ids'
      else collect_env_ids rest ids
  end.

(** The loop over [all_environments] that fills [active_environments]. *)
Fixpoint filter_active (all_environments : list json) (ids : list json)
  (active : list json) : io (list json) :=
  match all_environments with
  | [] => Ret active
  | env :: rest =>
      env_id <- py_get env "Id" JNull ;;
      b <- py_set_contains ids env_id ;;
      if b then
        name <- py_get env "Name" JNull ;;
        filter_active rest ids
          (active ++ [JDict [("id", env_id); ("name", name)]])%list
      else filter_active rest ids active
  end.

(** [_get_active_environments], base_tools.py lines 103-157.  Where a
    log line interpolates an expression that can raise, the expression
    is evaluated here too. *)
Definition _get_active_environments (space_id project_id : json) : io json :=
  releases_response <-
    _make_request (str space_id ++ "/projects/" ++ str project_id ++ "/releases")
                  None None ;;
  failed <- py_contains "error" releases_response ;;
  if failed then
    py_get releases_response "error" (JStr "Unknown error") ;;;
    Ret (JList [])
  else
    releases <- py_get releases_response "Items" (JList []) ;;
    if negb (truthy releases) then Ret (JList [])
    else
      latest_release <- py_first releases ;;
      latest_id <- py_getitem latest_release "Id" ;;
      deployments_response <-
        _make_request (str space_id ++ "/releases/" ++ str latest_id
                       ++ "/deployments") None None ;;
      failed <- py_contains "error" deployments_response ;;
      if failed then
        py_get deployments_response "error" (JStr "Unknown error") ;;;
        Ret (JList [])
      else
        deployments <- py_get deployments_response "Items" (JList []) ;;
        if negb (truthy deployments) then
          py_get latest_release "Version" JNull ;;;
          Ret (JList [])
        else
          ds <- py_iter deployments ;;
          env_ids_with_deployments <- collect_env_ids ds [] ;;
          environments_response <-
            _make_request (str space_id ++ "/environments/all") None None ;;
          failed <- py_contains "error" environments_response ;;
          if failed then
            py_get environments_response "error" (JStr "Unknown error") ;;;
            Ret (JList [])
          else
            all_environments <- list_or_items environments_response ;;
            envs <- py_iter all_environments ;;
            active_environments <-
              filter_active envs env_ids_with_deployments [] ;;
            Ret (JList active_environments).

(** ** [project_tools.py]: [ProjectTools] *)

Definition no_active_environment : string :=
  "There is no active environment with a release for this project".

(** [get_project_details], project_tools.py lines 13-70. *)
Definition get_project_details (project_name : string)
  (space_name : option string) : io json_text :=
  let space_name := default_arg "Default" space_name in
  if negb (PyStr.nonempty project_name) then
    Ret (_json_response (error_value "project_name is required") None)
  else
    space <- _get_space (Some space_name) ;;
    if negb (truthy space) then
      Ret (_json_response
             (error_value ("Space '" ++ space_name ++ "' not found")) None)
    else
      space_id <- py_getitem space "Id" ;;
      project <- _get_by_name (str space_id ++ "/projects/all") project_name ;;
      if negb (truthy project) then
        Ret (_json_response
               (error_value ("Project '" ++ project_name
                             ++ "' not found in space '" ++ space_name ++ "'"))
               None)
      else
        py_getitem project "Id" ;;;    (* interpolated in the log lines *)
        space_id <- py_getitem space "Id" ;;
        project_id <- py_getitem project "Id" ;;
        environments <- _get_active_environments space_id project_id ;;
        environments <-
          (if negb (truthy environments) then Ret (JStr no_active_environment)
           else py_len environments ;;; Ret environments) ;;
        s_id <- py_get space "Id" JNull ;;
        s_name <- py_get space "Name" JNull ;;
        p_id <- py_get project "Id" JNull ;;
        p_name <- py_get project "Name" JNull ;;
        p_description <- py_get project "Description" (JStr "") ;;
        p_group <- py_get project "ProjectGroupId" JNull ;;
        p_lifecycle <- py_get project "LifecycleId" JNull ;;
        p_process <- py_get project "DeploymentProcessId" JNull ;;
        p_variables <- py_get project "VariableSetId" JNull ;;
        Ret (_json_response
               (JDict [("success", JBool true);
                       ("space", JDict [("id", s_id); ("name", s_name)]);
                       ("project",
                        JDict [("id", p_id);
                               ("name", p_name);
                               ("description", p_description);
                               ("project_group_id", p_group);
                               ("lifecycle_id", p_lifecycle);
                               ("deployment_process_id", p_process);
                               ("variable_set_id", p_variables)]);
                       ("active_environments", environments)])
               (Some 2)).

(** ** [release_tools.py]: [ReleaseTools] *)

(** [get_latest_release], release_tools.py lines 13-65. *)
Definition get_latest_release (project_name : string)
  (space_name : option string) : io json_text :=
  let space_name := default_arg "Default" space_name in
  if negb (PyStr.nonempty project_name) then
    Ret (_error_response "project_name is required")
  else
    space <- _get_space (Some space_name) ;;
    if negb (truthy space) then
      Ret (_json_response
             (error_value ("Space '" ++ space_name ++ "' not found")) None)
    else
      space_id <- py_getitem space "Id" ;;
      project <- _get_by_name (str space_id ++ "/projects/all") project_name ;;
      if negb (truthy project) then
        Ret (_error_response ("Project '" ++ project_name ++ "' not found in "
                              ++ space_name ++ " space"))
      else
        space_id <- py_getitem space "Id" ;;
        project_id <- py_getitem project "Id" ;;
        releases_response <- _get_project_releases space_id project_id ;;
        failed <- py_contains "error" releases_response ;;
        if failed then Ret (_json_response releases_response None)
        else
          releases <- py_get releases_response "Items" (JList []) ;;
          if negb (truthy releases) then
            Ret (_error_response ("No releases found for project '"
                                  ++ project_name ++ "'"))
          else
            latest_release <- py_first releases ;;
            s_id <- py_get space "Id" JNull ;;
            s_name <- py_get space "Name" JNull ;;
            p_id <- py_get project "Id" JNull ;;
            p_name <- py_get project "Name" JNull ;;
            r_id <- py_get latest_release "Id" JNull ;;
            r_version <- py_get latest_release "Version" JNull ;;
            r_notes <- py_get latest_release "ReleaseNotes" (JStr "") ;;
            r_assembled <- py_get latest_release "Assembled" JNull ;;
            r_channel <- py_get latest_release "ChannelId" JNull ;;
            r_project <- py_get latest_release "ProjectId" JNull ;;
            r_packages <- py_get latest_release "SelectedPackages" (JList []) ;;
            Ret (_json_response
                   (JDict [("success", JBool true);
                           ("space", JDict [("id", s_id); ("name", s_name)]);
                           ("project", JDict [("id", p_id); ("name", p_name)]);
                           ("latest_release",
                            JDict [("id", r_id);
                                   ("version", r_version);
                                   ("release_notes", r_notes);
                                   ("assembled", r_assembled);
                                   ("channel_id", r_channel);
                                   ("project_id", r_project);
                                   ("selected_packages", r_packages)])])
                   None).

(** The loop of [create_release] over the template's packages.  It
    leaves the function early ([inl], the text returned) when a feed
    query yields an error value, and otherwise ends with the
    [selected_packages] built ([inr]). *)
Fixpoint select_packages (space_id : json) (packages : list json)
  (selected_packages : list json) : io (json_text + list json) :=
  match packages with
  | [] => Ret (inr selected_packages)
  | package :: rest =>
      feed_id <- py_getitem package "FeedId" ;;
      package_id <- py_getitem package "PackageId" ;;
      package_response <-
        _make_request (str space_id ++ "/feeds/" ++ str feed_id
                       ++ "/packages/versions?packageId=" ++ str package_id
                       ++ "&take=1") None None ;;
      failed <- py_contains "error" package_response ;;
      if failed then Ret (inl (_json_response package_response None))
      else
        packages <- list_or_items package_response ;;
        if truthy packages then
          selected_package <- py_first packages ;;
          action_name <- py_getitem package "ActionName" ;;
          reference_name <- py_getitem package "PackageReferenceName" ;;
          version <- py_getitem selected_package "Version" ;;
          select_packages space_id rest
            (selected_packages
               ++ [JDict [("ActionName", action_name);
                          ("PackageReferenceName", reference_name);
                          ("Version", version)]])%list
        else select_packages space_id rest selected_packages
  end.

(** [create_release], release_tools.py lines 68-158. *)
Definition create_release (project_name version : string)
  (channel_name space_name : option string) : io json_text :=
  let channel_name := default_arg "Default" channel_name in
  let space_name := default_arg "Default" space_name in
  if negb (PyStr.nonempty project_name) || negb (PyStr.nonempty version) then
    Ret (_error_response "project_name and version are required")
  else
    space <- _get_space (Some space_name) ;;
    if negb (truthy space) then
      Ret (_json_response
             (error_value ("Space '" ++ space_name ++ "' not found")) None)
    else
      space_id <- py_getitem space "Id" ;;
      project <- _get_by_name (str space_id ++ "/projects/all") project_name ;;
      if negb (truthy project) then
        Ret (_error_response ("Project '" ++ project_name ++ "' not found in "
                              ++ space_name ++ " space"))
      else
        space_id <- py_getitem space "Id" ;;
        project_id <- py_getitem project "Id" ;;
        channel <-
          _get_by_name (str space_id ++ "/projects/" ++ str project_id
                        ++ "/channels") channel_name ;;
        if negb (truthy channel) then
          Ret (_error_response ("Channel '" ++ channel_name
                                ++ "' not found for project '"
                                ++ project_name ++ "'"))
        else
          channel_id <- py_getitem channel "Id" ;;
          template_response <-
            _make_request (str space_id
                           ++ "/deploymentprocesses/deploymentprocess-"
                           ++ str project_id ++ "/template?channel="
                           ++ str channel_id) None None ;;
          failed <- py_contains "error" template_response ;;
          if failed then Ret (_json_response template_response None)
          else
            packages <- py_get template_response "Packages" (JList []) ;;
            packages <- py_iter packages ;;
            selected <- select_packages space_id packages [] ;;
            match selected with
            | inl early => Ret early
            | inr selected_packages =>
                channel_id <- py_getitem channel "Id" ;;
                let release_data :=
                  JDict [("ChannelId", channel_id);
                         ("ProjectId", project_id);
                         ("Version", JStr version);
                         ("SelectedPackages", JList selected_packages)] in
                release_response <-
                  _make_request (str space_id ++ "/releases") (Some "POST")
                                (Some release_data) ;;
                failed <- py_contains "error" release_response ;;
                if failed then Ret (_json_response release_response None)
                else
                  s_id <- py_get space "Id" JNull ;;
                  s_name <- py_get space "Name" JNull ;;
                  p_id <- py_get project "Id" JNull ;;
                  p_name <- py_get project "Name" JNull ;;
                  c_id <- py_get channel "Id" JNull ;;
                  c_name <- py_get channel "Name" JNull ;;
                  r_id <- py_get release_response "Id" JNull ;;
                  r_version <- py_get release_response "Version" JNull ;;
                  r_assembled <- py_get release_response "Assembled" JNull ;;
                  r_channel <- py_get release_response "ChannelId" JNull ;;
                  r_project <- py_get release_response "ProjectId" JNull ;;
                  r_packages <-
                    py_get release_response "SelectedPackages" (JList []) ;;
                  Ret (_json_response
                         (JDict [("success", JBool true);
                                 ("message",
                                  JStr ("Release '" ++ version
                                        ++ "' created successfully for project '"
                                        ++ project_name ++ "'"));
                                 ("space", JDict [("id", s_id); ("name", s_name)]);
                                 ("project", JDict [("id", p_id); ("name", p_name)]);
                                 ("channel", JDict [("id", c_id); ("name", c_name)]);
                                 ("release",
                                  JDict [("id", r_id);
                                         ("version", r_version);
                                         ("assembled", r_assembled);
                                         ("channel_id", r_channel);
                                         ("project_id", r_project);
                                         ("selected_packages", r_packages)])])
                         None)
            end.

(** ** [deployment_tools.py]: [DeploymentTools] *)

Definition deployment_initiated : string :=
  "Deployment has been initiated successfully. This does not guarantee the deployment completed successfully.".

Definition deployment_next_step : string :=
  "Use the check_deployment_status tool to monitor the actual deployment progress and final status.".

(** [deploy_release], deployment_tools.py lines 14-103. *)
Definition deploy_release (project_name environment_name : string)
  (release_version space_name : option string) : io json_text :=
  let space_name := default_arg "Default" space_name in
  if negb (PyStr.nonempty project_name) || negb (PyStr.nonempty environment_name)
  then Ret (_error_response "project_name and environment_name are required")
  else
    space <- _get_space (Some space_name) ;;
    if negb (truthy space) then
      Ret (_json_response
             (error_value ("Space '" ++ space_name ++ "' not found")) None)
    else
      space_id <- py_getitem space "Id" ;;
      project <- _get_by_name (str space_id ++ "/projects/all") project_name ;;
      if negb (truthy project) then
        Ret (_error_response ("Project '" ++ project_name ++ "' not found in "
                              ++ space_name ++ " space"))
      else
        space_id <- py_getitem space "Id" ;;
        project_id <- py_getitem project "Id" ;;
        releases_response <- _get_project_releases space_id project_id ;;
        failed <- py_contains "error" releases_response ;;
        if failed then
          py_get releases_response "error" JNull ;;;
          Ret (_json_response releases_response None)
        else
          releases <- py_get releases_response "Items" (JList []) ;;
          if negb (truthy releases) then
            Ret (_error_response ("No releases found for project '"
                                  ++ project_name ++ "'"))
          else
            py_len releases ;;;
            release <- _find_release releases release_version ;;
            if negb (truthy release) then
              Ret (_error_response ("Release version '" ++ opt_str release_version
                                    ++ "' not found for project '"
                                    ++ project_name ++ "'"))
            else
              py_get release "Version" JNull ;;;
              py_get release "Id" JNull ;;;
              environment <-
                _get_by_name (str space_id ++ "/environments/all")
                             environment_name ;;
              if negb (truthy environment) then
                Ret (_error_response ("Environment '" ++ environment_name
                                      ++ "' not found in " ++ space_name
                                      ++ " space"))
              else
                py_get environment "Name" JNull ;;;
                py_get environment "Id" JNull ;;;
                d_release <- py_get release "Id" JNull ;;
                d_environment <- py_get environment "Id" JNull ;;
                let deployment_data :=
                  JDict [("ReleaseId", d_release);
                         ("EnvironmentId", d_environment)] in
                deployment_response <-
                  _make_request (str space_id ++ "/deployments") (Some "POST")
                                (Some deployment_data) ;;
                failed <- py_contains "error" deployment_response ;;
                (if failed then py_get deployment_response "error" JNull
                 else Ret JNull) ;;;
                s_id <- py_get space "Id" JNull ;;
                s_name <- py_get space "Name" JNull ;;
                p_id <- py_get project "Id" JNull ;;
                p_name <- py_get project "Name" JNull ;;
                r_id <- py_get release "Id" JNull ;;
                r_version <- py_get release "Version" JNull ;;
                e_id <- py_get environment "Id" JNull ;;
                e_name <- py_get environment "Name" JNull ;;
                d_id <- py_get deployment_response "Id" JNull ;;
                d_name <- py_get deployment_response "Name" JNull ;;
                d_state <- py_get deployment_response "State" JNull ;;
                d_created <- py_get deployment_response "Created" JNull ;;
                d_task <- py_get deployment_response "TaskId" JNull ;;
                Ret (_json_response
                       (JDict [("success", JBool true);
                               ("message", JStr deployment_initiated);
                               ("next_step", JStr deployment_next_step);
                               ("space", JDict [("id", s_id); ("name", s_name)]);
                               ("project", JDict [("id", p_id); ("name", p_name)]);
                               ("release",
                                JDict [("id", r_id); ("version", r_version)]);
                               ("environment",
                                JDict [("id", e_id); ("name", e_name)]);
                               ("deployment",
                                JDict [("id", d_id);
                                       ("name", d_name);
                                       ("state", d_state);
                                       ("created", d_created);
                                       ("task_id", d_task)])])
                       None).

(** [_get_environments_to_check], deployment_tools.py lines 176-187. *)
Definition _get_environments_to_check (space_id : json)
  (environment_name : option string) : io json :=
  let all_environments :=
    environments_response <-
      _make_request (str space_id ++ "/environments/all") None None ;;
    failed <- py_contains "error" environments_response ;;
    if failed then Ret (JList [])
    else list_or_items environments_response in
  match environment_name with
  | Some name =>
      if PyStr.nonempty name then
        environment <-
          _get_by_name (str space_id ++ "/environments/all") name ;;
        Ret (if truthy environment then JList [environment] else JList [])
      else all_environments
  | None => all_environments
  end.

(** [d[k] = v]: an existing key keeps its place, a new one goes last. *)
Fixpoint dict_set (d : list (string * json)) (k : string) (v : json)
  : list (string * json) :=
  match d with
  | [] => [(k, v)]
  | (k', v') :: r =>
      if String.eqb k' k then (k, v) :: r else (k', v') :: dict_set r k v
  end.

(** [d.update(e)] *)
Definition dict_update (d e : list (string * json)) : list (string * json) :=
  fold_left (fun acc kv => dict_set acc (fst kv) (snd kv)) e d.

(** [_get_deployment_status], deployment_tools.py lines 211-242. *)
Definition _get_deployment_status (deployment : json) : io json :=
  task_id <- py_get deployment "TaskId" JNull ;;
  d_id <- py_get deployment "Id" JNull ;;
  d_created <- py_get deployment "Created" JNull ;;
  d_by <- py_get deployment "DeployedBy" JNull ;;
  d_comments <- py_get deployment "Comments" (JStr "") ;;
  let deployment_status :=
    [("deployment_id", d_id);
     ("state", JNull);
     ("completed", JBool false);
     ("started", d_created);
     ("completed_time", JNull);
     ("duration", JNull);
     ("task_id", task_id);
     ("deployed_by", d_by);
     ("comments", d_comments)] in
  if truthy task_id then
    task_response <- _make_request ("tasks/" ++ str task_id) None None ;;
    failed <- py_contains "error" task_response ;;
    if negb failed then
      t_state <- py_get task_response "State" JNull ;;
      t_completed <- py_get task_response "IsCompleted" (JBool false) ;;
      t_started <- py_get task_response "StartTime" JNull ;;
      t_completed_time <- py_get task_response "CompletedTime" JNull ;;
      t_duration <- py_get task_response "Duration" JNull ;;
      let deployment_status :=
        dict_update deployment_status
          [("state", t_state);
           ("completed", t_completed);
           ("started", t_started);
           ("completed_time", t_completed_time);
           ("duration", t_duration)] in
      warned <- py_get task_response "HasWarningsOrErrors" (JBool false) ;;
      if truthy warned then
        message <- py_get task_response "ErrorMessage" (JStr "") ;;
        Ret (JDict (dict_set deployment_status "error_message" message))
      else Ret (JDict deployment_status)
    else Ret (JDict deployment_status)
  else Ret (JDict deployment_status).

(** [[d for d in deployments if d.get("EnvironmentId") == env_id]] *)
Fixpoint deployments_of (env_id : json) (deployments : list json)
  : io (list json) :=
  match deployments with
  | [] => Ret []
  | d :: rest =>
      d_env <- py_get d "EnvironmentId" JNull ;;
      ds <- deployments_of env_id rest ;;
      Ret (if py_eq d_env env_id then d :: ds else ds)
  end.

(** The loop of [_build_environment_statuses] over [environments]. *)
Fixpoint build_statuses (environments : list json) (deployments : json)
  (environment_statuses : list json) : io (list json) :=
  match environments with
  | [] => Ret environment_statuses
  | env :: rest =>
      env_id <- py_get env "Id" JNull ;;
      env_name <- py_get env "Name" JNull ;;
      ds <- py_iter deployments ;;
      env_deployments <- deployments_of env_id ds ;;
      match env_deployments with
      | latest_deployment :: _ =>
          deployment_status <- _get_deployment_status latest_deployment ;;
          build_statuses rest deployments
            (environment_statuses
               ++ [JDict [("environment",
                           JDict [("id", env_id); ("name", env_name)]);
                          ("deployment_status", deployment_status)]])%list
      | [] => build_statuses rest deployments environment_statuses
      end
  end.

(** [_build_environment_statuses], deployment_tools.py lines 189-209. *)
Definition _build_environment_statuses (environments deployments : json)
  : io json :=
  envs <- py_iter environments ;;
  environment_statuses <- build_statuses envs deployments [] ;;
  Ret (JList environment_statuses).

(** [s.strip() if s else None] *)
Definition normalize_optional (s : string) : option string :=
  if PyStr.nonempty s then Some (str_strip s) else None.

(** [check_deployment_status], deployment_tools.py lines 106-174. *)
Definition check_deployment_status (project_name : string)
  (release_version environment_name space_name : option string) : io json_text :=
  let release_version := default_arg "" release_version in
  let environment_name := default_arg "" environment_name in
  let space_name := default_arg "Default" space_name in
  if negb (PyStr.nonempty project_name) then
    Ret (_error_response "project_name is required")
  else
    let release_version := normalize_optional release_version in
    let environment_name := normalize_optional environment_name in
    space <- _get_space (Some space_name) ;;
    if negb (truthy space) then
      Ret (_json_response
             (error_value ("Space '" ++ space_name ++ "' not found")) None)
    else
      space_id <- py_getitem space "Id" ;;
      project <- _get_by_name (str space_id ++ "/projects/all") project_name ;;
      if negb (truthy project) then
        Ret (_error_response ("Project '" ++ project_name ++ "' not found in "
                              ++ space_name ++ " space"))
      else
        space_id <- py_getitem space "Id" ;;
        project_id <- py_getitem project "Id" ;;
        releases_response <- _get_project_releases space_id project_id ;;
        failed <- py_contains "error" releases_response ;;
        if failed then Ret (_json_response releases_response None)
        else
          releases <- py_get releases_response "Items" (JList []) ;;
          if negb (truthy releases) then
            Ret (_error_response ("No releases found for project '"
                                  ++ project_name ++ "'"))
          else
            release <- _find_release releases release_version ;;
            if negb (truthy release) then
              Ret (_error_response ("Release version '" ++ opt_str release_version
                                    ++ "' not found for project '"
                                    ++ project_name ++ "'"))
            else
              environments_to_check <-
                _get_environments_to_check space_id environment_name ;;
              if negb (truthy environments_to_check) then
                Ret (_error_response ("Environment '" ++ opt_str environment_name
                                      ++ "' not found in " ++ space_name
                                      ++ " space"))
              else
                release_id <- py_getitem release "Id" ;;
                deployments_response <-
                  _make_request (str space_id ++ "/releases/" ++ str release_id
                                 ++ "/deployments") None None ;;
                failed <- py_contains "error" deployments_response ;;
                if failed then Ret (_json_response deployments_response None)
                else
                  deployments <- py_get deployments_response "Items" (JList []) ;;
                  environment_statuses <-
                    _build_environment_statuses environments_to_check
                                                deployments ;;
                  s_id <- py_get space "Id" JNull ;;
                  s_name <- py_get space "Name" JNull ;;
                  p_id <- py_get project "Id" JNull ;;
                  p_name <- py_get project "Name" JNull ;;
                  r_id <- py_get release "Id" JNull ;;
                  r_version <- py_get release "Version" JNull ;;
                  checked <- py_len environments_to_check ;;
                  deployed <- py_len environment_statuses ;;
                  with_deployments <- py_len environment_statuses ;;
                  Ret (_json_response
                         (JDict [("success", JBool true);
                                 ("space", JDict [("id", s_id); ("name", s_name)]);
                                 ("project", JDict [("id", p_id); ("name", p_name)]);
                                 ("release",
                                  JDict [("id", r_id); ("version", r_version)]);
                                 ("deployment_statuses", environment_statuses);
                                 ("summary",
                                  JDict [("total_environments_checked",
                                          JInt (Z.of_nat checked));
                                         ("deployed_count",
                                          JInt (Z.of_nat deployed));
                                         ("environments_with_deployments",
                                          JInt (Z.of_nat with_deployments))])])
                         None).

End OctopusTools.

(** ** [settings.py]: [OctopusDeployConfig] *)

Record OctopusDeployConfig : Type := mk_config {
  config_base_url : option string;
  config_api_key : option string
}.

(** The process ended by [sys.exit], after these calls of [print] on the
    error stream. *)
Record exited : Type := mk_exited {
  stderr : list string;
  exit_code : Z
}.

(** [OctopusDeployConfig.from_env], settings.py lines 16-44, on an
    environment [getenv]. *)
Definition from_env (getenv : string -> option string)
  : exited + OctopusDeployConfig :=
  let base_url := getenv "OCTOPUS_URL" in
  let api_key := getenv "OCTOPUS_API_KEY" in
  if negb (opt_truthy base_url) || negb (opt_truthy api_key) then
    let missing :=
      ((if negb (opt_truthy base_url)
        then ["  OCTOPUS_URL: Octopus Deploy server URL (e.g., https://your-octopus.octopus.app)"]
        else [])
       ++ (if negb (opt_truthy api_key)
           then ["  OCTOPUS_API_KEY: Octopus Deploy API key"]
           else []))%list in
    inl (mk_exited
           (["ERROR: Missing required environment variables for Octopus Deploy server:";
             PyStr.join_lines missing;
             (PyStr.nl ++ "Please set these environment variables before starting the server.")%string;
             "Example:"]
            ++ (if negb (opt_truthy base_url)
                then ["  export OCTOPUS_URL='https://your-octopus.octopus.app'"]
                else [])
            ++ (if negb (opt_truthy api_key)
                then ["  export OCTOPUS_API_KEY='your_api_key_here'"]
                else []))%list
           1)
  else
    let base_url := PyStr.rstrip_slash (default_arg "" base_url) in
    let base_url :=
      if negb (PyStr.endswith "/api" base_url) then base_url ++ "/api"
      else base_url in
    inr (mk_config (Some base_url) api_key).

(** ** [server.py] and [coordinator.py]: the tools of a server

    [OctopusDeployServer.__init__] hands the fields of the configuration
    to the three tool classes, whose [__init__] is
    [BaseOctopusTools.__init__]: [server.config.get("base_url", "")] is
    [None] for a configuration without a base URL, and [None.rstrip]
    raises. *)
Definition BaseOctopusTools_of_config (config : OctopusDeployConfig)
  : io tools :=
  match config_base_url config with
  | Some url => Ret (BaseOctopusTools_init url (config_api_key config))
  | None => Raise AttributeError
  end.

(** * Vocabulary of the statements

    What the properties below are stated with: readings of the payloads
    and responses, and the specification's own notions written out. *)

(** ** Objects and their fields *)

(** A JSON object, which is what the remote system describes an entity
    (space, project, release, ...) with. *)
Definition is_object (v : json) : bool :=
  match v with JDict _ => true | _ => false end.

(** [v.get(k, dflt)] and [v.get(k)] on an object. *)
Definition field_or (v : json) (k : string) (dflt : json) : json :=
  match v with
  | JDict d => default_arg dflt (dict_get d k)
  | _ => dflt
  end.

Definition field (v : json) (k : string) : json := field_or v k JNull.

(** [None] for nothing found. *)
Definition optional (o : option json) : json := default_arg JNull o.

(** The entries of a collection response, in either of its two forms. *)
Definition collection_items (c : json) : option (list json) :=
  match c with
  | JList xs => Some xs
  | JDict d =>
      if dict_has d "error" then None
      else match dict_get d "Items" with
           | Some (JList xs) => Some xs
           | _ => None
           end
  | _ => None
  end.

(** ** The request primitive (C5) *)

(** "If either is absent" *)
Definition credentials_missing (self : tools) : bool :=
  negb (PyStr.nonempty (base_url self)) || negb (opt_truthy (api_key self)).

(** "Status 200 or 201" *)
Definition created_or_ok (status_code : Z) : bool :=
  (status_code =? 200)%Z || (status_code =? 201)%Z.

(** The adapter's contract, case by case as section 4.1 of the
    specification lists them. *)
Inductive adapter_result : http_outcome -> json -> Prop :=
| adapter_decoded status_code text v :
    created_or_ok status_code = true ->
    adapter_result (Responded status_code text (Decoded v)) v
| adapter_undecodable status_code text msg :
    created_or_ok status_code = true ->
    adapter_result (Responded status_code text (DecodeError msg))
                   (error_value ("Unexpected error: " ++ msg))
| adapter_unauthorized text body :
    adapter_result (Responded 401 text body)
                   (error_value "Authentication failed. Please check your API key.")
| adapter_not_found text body :
    adapter_result (Responded 404 text body)
                   (error_value "Resource not found.")
| adapter_other_status status_code text body :
    created_or_ok status_code = false ->
    status_code <> 401%Z -> status_code <> 404%Z ->
    adapter_result (Responded status_code text body)
                   (error_value ("API request failed with status "
                                 ++ PyStr.of_Z status_code ++ ": " ++ text))
| adapter_connect msg :
    adapter_result (RequestError msg)
                   (error_value ("Failed to connect to Octopus Deploy API: " ++ msg))
| adapter_unexpected msg :
    adapter_result (OtherException msg)
                   (error_value ("Unexpected error: " ++ msg)).

(** The request [_make_request] sends for a POST. *)
Definition post_request (self : tools) (endpoint : string) (data : json)
  : request :=
  mk_request "POST" (base_url self ++ "/" ++ PyStr.lstrip_slash endpoint)
             (_get_headers self) data.

(** ** The release selector (C4) *)

(** "whose version field matches it exactly" *)
Definition has_version (version : string) (x : json) : bool :=
  match field x "Version" with
  | JStr t => String.eqb t version
  | _ => false
  end.

(** The selector in the specification's words (section 4.3), with the
    empty version string counted as no version at all. *)
Definition select_release (releases : list json) (version : option string)
  : option json :=
  match releases with
  | [] => None
  | first :: _ =>
      match version with
      | Some v =>
          if PyStr.nonempty v then find (has_version v) releases else Some first
      | None => Some first
      end
  end.

(** ** Name resolution (C6, C2) *)

(** An entry that has a name, a string. *)
Definition has_name (x : json) : bool :=
  match x with
  | JDict d => match dict_get d "Name" with Some (JStr _) => true | _ => false end
  | _ => false
  end.

(** "equals the requested name case-insensitively" *)
Definition same_name {sm : str_methods} (name : string) (x : json) : bool :=
  match field x "Name" with
  | JStr n => String.eqb (str_lower n) (str_lower name)
  | _ => false
  end.

(** ** Project details (C3, C8) *)

(** An entry of [active_environments]. *)
Definition id_name (v : json) : Prop :=
  exists i n, v = JDict [("id", i); ("name", n)].

(** The success payload of [get_project_details]. *)
Definition project_details_payload (space project active : json) : json :=
  JDict [("success", JBool true);
         ("space", JDict [("id", field space "Id"); ("name", field space "Name")]);
         ("project",
          JDict [("id", field project "Id");
                 ("name", field project "Name");
                 ("description", field_or project "Description" (JStr ""));
                 ("project_group_id", field project "ProjectGroupId");
                 ("lifecycle_id", field project "LifecycleId");
                 ("deployment_process_id", field project "DeploymentProcessId");
                 ("variable_set_id", field project "VariableSetId")]);
         ("active_environments", active)].

(** ** Deployments (C1, C9) *)

(** The success payload of [deploy_release]. *)
Definition deploy_release_payload
  (space project release environment deployment_response : json) : json :=
  JDict [("success", JBool true);
         ("message", JStr deployment_initiated);
         ("next_step", JStr deployment_next_step);
         ("space", JDict [("id", field space "Id"); ("name", field space "Name")]);
         ("project",
          JDict [("id", field project "Id"); ("name", field project "Name")]);
         ("release",
          JDict [("id", field release "Id"); ("version", field release "Version")]);
         ("environment",
          JDict [("id", field environment "Id");
                 ("name", field environment "Name")]);
         ("deployment",
          JDict [("id", field deployment_response "Id");
                 ("name", field deployment_response "Name");
                 ("state", field deployment_response "State");
                 ("created", field deployment_response "Created");
                 ("task_id", field deployment_response "TaskId")])].

(** The body of the deployment-creation request. *)
Definition deployment_data (release environment : json) : json :=
  JDict [("ReleaseId", field release "Id");
         ("EnvironmentId", field environment "Id")].

(** "the fetch of all environments returns an error or an empty
    collection" *)
Definition no_environments (response : json) : bool :=
  match response with
  | JList xs => is_nil xs
  | JDict d =>
      dict_has d "error" ||
      match dict_get d "Items" with
      | Some (JList []) | None => true
      | _ => false
      end
  | _ => false
  end.

(** The environment name as the not-found message shows it. *)
Definition shown_name {sm : str_methods} (environment_name : option string)
  : string :=
  opt_str (normalize_optional (default_arg "" environment_name)).

(** ** Release creation (C10) *)

(** "the feed-version query succeeds but returns an empty version list" *)
Definition empty_versions (response : json) : bool :=
  match response with
  | JList xs => is_nil xs
  | JDict d =>
      negb (dict_has d "error") &&
      match dict_get d "Items" with
      | Some (JList []) | None => true
      | _ => false
      end
  | _ => false
  end.

(** Where the versions of a package are asked for. *)
Definition feed_endpoint (py_repr : json -> string)
  (space_id feed_id package_id : json) : string :=
  str py_repr space_id ++ "/feeds/" ++ str py_repr feed_id
  ++ "/packages/versions?packageId=" ++ str py_repr package_id ++ "&take=1".

(** The body of the release-creation request. *)
Definition release_data (channel project_id : json) (version : string)
  (selected_packages : list json) : json :=
  JDict [("ChannelId", field channel "Id");
         ("ProjectId", project_id);
         ("Version", JStr version);
         ("SelectedPackages", JList selected_packages)].

(** ** Deployment status (C7) *)

(** Some deployment of the list targets the environment. *)
Definition has_deployment (deployments : list json) (env : json) : bool :=
  existsb (fun d => py_eq (field d "EnvironmentId") (field env "Id"))
          deployments.

(** The [environment] entry of a status, as built from an environment. *)
Definition environment_summary (env : json) : json :=
  JDict [("id", field env "Id"); ("name", field env "Name")].

(** The [environment] entry of a status, as read back from it. *)
Definition status_environment (status : json) : json :=
  field status "environment".

(** A success-shaped payload: [success] is true and there is no
    [error]. *)
Definition is_success (out : json_text) : bool :=
  match dumps_data out with
  | JDict p =>
      match dict_get p "success" with
      | Some (JBool true) => negb (dict_has p "error")
      | _ => false
      end
  | _ => false
  end.

(** ** Further vocabulary *)

(** *** The configuration ([from_env]) *)

(** The two lines of the example [from_env] prints. *)
Definition export_url : string :=
  "  export OCTOPUS_URL='https://your-octopus.octopus.app'".

Definition export_api_key : string :=
  "  export OCTOPUS_API_KEY='your_api_key_here'".

(** The environment with [OCTOPUS_URL] set anew. *)
Definition with_url (url : string) (getenv : string -> option string)
  (name : string) : option string :=
  if String.eqb name "OCTOPUS_URL" then Some url else getenv name.

(** A URL without its trailing slashes, followed by ["/api"] unless that
    already ends it. *)
Definition normalized_url (url : string) : string :=
  let stripped := PyStr.rstrip_slash url in
  if PyStr.endswith "/api" stripped then stripped else stripped ++ "/api".

(** *** The requests a program can send *)

(** Every request the program can send, whatever comes back, satisfies
    [P]. *)
Fixpoint every_request {A} (P : request -> Prop) (m : io A) : Prop :=
  match m with
  | Http rq k => P rq /\ forall o, every_request P (k o)
  | _ => True
  end.

(** The request [_make_request] sends for a GET. *)
Definition get_request (self : tools) (endpoint : string) : request :=
  mk_request "GET" (base_url self ++ "/" ++ PyStr.lstrip_slash endpoint)
             (_get_headers self) JNull.

(** A GET of the configured server, with the configured key. *)
Definition reads (self : tools) (rq : request) : Prop :=
  exists endpoint, rq = get_request self endpoint.

(** Whatever comes back, the program sends reads, and then at most one
    request that satisfies [Q], after which it sends nothing. *)
Fixpoint reads_then_writes {A} (self : tools) (Q : request -> Prop)
  (m : io A) : Prop :=
  match m with
  | Http rq k =>
      (reads self rq /\ forall o, reads_then_writes self Q (k o)) \/
      (Q rq /\ forall o, pure (k o))
  | _ => True
  end.

(** A request that creates a deployment. *)
Definition creates_deployment (py_repr : json -> string) (self : tools)
  (rq : request) : Prop :=
  exists space_id release_id environment_id,
    rq = post_request self (str py_repr space_id ++ "/deployments")
           (JDict [("ReleaseId", release_id);
                   ("EnvironmentId", environment_id)]).

(** A request that creates a release of the given version. *)
Definition creates_release (py_repr : json -> string) (self : tools)
  (version : string) (rq : request) : Prop :=
  exists space_id channel_id project_id selected_packages,
    rq = post_request self (str py_repr space_id ++ "/releases")
           (JDict [("ChannelId", channel_id);
                   ("ProjectId", project_id);
                   ("Version", JStr version);
                   ("SelectedPackages", JList selected_packages)]).

(** Whatever comes back, the program sends at most [n] requests. *)
Fixpoint at_most {A} (n : nat) (m : io A) {struct m} : Prop :=
  match m with
  | Http rq k =>
      match n with
      | O => False
      | S n' => forall o, at_most n' (k o)
      end
  | _ => True
  end.

(** An exchange that [_make_request] turns into an error value: no
    answer, an answer that is not JSON, or a status other than 200 and
    201. *)
Definition failed_outcome (o : http_outcome) : bool :=
  match o with
  | Responded status_code _ (Decoded _) => negb (created_or_ok status_code)
  | _ => true
  end.

(** *** What the tools answer when something is not there *)

Definition space_not_found (space_name : option string) : json_text :=
  _json_response
    (error_value ("Space '" ++ default_arg "Default" space_name ++ "' not found"))
    None.

Definition project_not_found (project_name : string)
  (space_name : option string) : json_text :=
  _error_response ("Project '" ++ project_name ++ "' not found in "
                   ++ default_arg "Default" space_name ++ " space").

Definition no_releases_found (project_name : string) : json_text :=
  _error_response ("No releases found for project '" ++ project_name ++ "'").

Definition release_not_found (version project_name : string) : json_text :=
  _error_response ("Release version '" ++ version
                   ++ "' not found for project '" ++ project_name ++ "'").

Definition environment_not_found (environment_name : string)
  (space_name : option string) : json_text :=
  _error_response ("Environment '" ++ environment_name ++ "' not found in "
                   ++ default_arg "Default" space_name ++ " space").

Definition channel_not_found (channel_name : option string)
  (project_name : string) : json_text :=
  _error_response ("Channel '" ++ default_arg "Default" channel_name
                   ++ "' not found for project '" ++ project_name ++ "'").

(** *** Entries and payloads *)

(** The entry goes by the name, up to case; an entry without a [Name]
    goes by the empty string. *)
Definition named {sm : str_methods} (name : string) (x : json) : Prop :=
  exists n, field_or x "Name" (JStr "") = JStr n /\
            str_lower n = str_lower name.

(** The object has the key. *)
Definition has_field (v : json) (k : string) : bool :=
  match v with
  | JDict d => dict_has d k
  | _ => false
  end.

(** The [latest_release] entry of the payload of [get_latest_release]. *)
Definition latest_release_summary (release : json) : json :=
  JDict [("id", field release "Id");
         ("version", field release "Version");
         ("release_notes", field_or release "ReleaseNotes" (JStr ""));
         ("assembled", field release "Assembled");
         ("channel_id", field release "ChannelId");
         ("project_id", field release "ProjectId");
         ("selected_packages", field_or release "SelectedPackages" (JList []))].

(** The success payload of [create_release]. *)
Definition create_release_payload (project_name version : string)
  (space project channel release_response : json) : json :=
  JDict [("success", JBool true);
         ("message",
          JStr ("Release '" ++ version ++ "' created successfully for project '"
                ++ project_name ++ "'"));
         ("space", JDict [("id", field space "Id"); ("name", field space "Name")]);
         ("project",
          JDict [("id", field project "Id"); ("name", field project "Name")]);
         ("channel",
          JDict [("id", field channel "Id"); ("name", field channel "Name")]);
         ("release",
          JDict [("id", field release_response "Id");
                 ("version", field release_response "Version");
                 ("assembled", field release_response "Assembled");
                 ("channel_id", field release_response "ChannelId");
                 ("project_id", field release_response "ProjectId");
                 ("selected_packages",
                  field_or release_response "SelectedPackages" (JList []))])].

(** The request that creates a release. *)
Definition release_creation (py_repr : json -> string) (self : tools)
  (space_id channel project_id : json) (version : string)
  (selected : list json) : request :=
  post_request self (str py_repr space_id ++ "/releases")
               (release_data channel project_id version selected).

(** The status of a deployment before any task is looked at. *)
Definition base_status (deployment : json) : list (string * json) :=
  [("deployment_id", field deployment "Id");
   ("state", JNull);
   ("completed", JBool false);
   ("started", field deployment "Created");
   ("completed_time", JNull);
   ("duration", JNull);
   ("task_id", field deployment "TaskId");
   ("deployed_by", field deployment "DeployedBy");
   ("comments", field_or deployment "Comments" (JStr ""))].

(** The status of a deployment whose task was fetched. *)
Definition task_status (deployment task : json) : list (string * json) :=
  [("deployment_id", field deployment "Id");
   ("state", field task "State");
   ("completed", field_or task "IsCompleted" (JBool false));
   ("started", field task "StartTime");
   ("completed_time", field task "CompletedTime");
   ("duration", field task "Duration");
   ("task_id", field deployment "TaskId");
   ("deployed_by", field deployment "DeployedBy");
   ("comments", field_or deployment "Comments" (JStr ""))].

(** An identifier as the remote gives it: a string, or nothing. *)
Definition id_like (v : json) : bool :=
  match v with JNull | JStr _ => true | _ => false end.

(** Some deployment of the list targets the environment, by an
    identifier that is not empty. *)
Definition deployed_to (deployments : list json) (env : json) : bool :=
  truthy (field env "Id") && has_deployment deployments env.

(** * Example data

    A remote system that answers from a table, and the entities the
    examples below are run on. *)

Definition release_1_0 : json :=
  JDict [("Id", JStr "Releases-1"); ("Version", JStr "1.0")].

Definition release_2_0 : json :=
  JDict [("Id", JStr "Releases-2"); ("Version", JStr "2.0")].

Definition space_default : json :=
  JDict [("Id", JStr "Spaces-1"); ("Name", JStr "Default")].

(** The methods of [str] on ASCII strings, which is what the examples
    are made of. *)
#[global] Instance ascii_methods : str_methods | 100 := {|
  str_lower := PyStr.ascii_lower;
  str_upper := PyStr.ascii_upper;
  str_strip := PyStr.ascii_strip;
  str_lower_ascii := fun _ _ => eq_refl;
  str_upper_ascii := fun _ _ => eq_refl;
  str_strip_ascii := fun _ _ => eq_refl
|}.

Module Demo.

(** The tools, configured. *)
Definition self : tools :=
  BaseOctopusTools_init "https://octopus.example/api/" (Some "API-KEY").

(** Identifiers are strings in the examples, so [repr] is never asked. *)
Definition repr (_ : json) : string := "<repr>".

(** A 200 answer with a JSON body. *)
Definition ok (v : json) : http_outcome := Responded 200 "" (Decoded v).

(** Answers are looked up by method and endpoint; anything else is a 404.
    The remote keeps no state. *)
Definition table : Type := list (string * string * http_outcome).

Definition answer (t : table) (_ : unit) (rq : request)
  : http_outcome * unit :=
  let hit (e : string * string * http_outcome) :=
    String.eqb (fst (fst e)) (rq_method rq) &&
    String.eqb (base_url self ++ "/" ++ snd (fst e)) (rq_url rq) in
  (match find hit t with
   | Some e => snd e
   | None => Responded 404 "" (DecodeError "")
   end, tt).

(** The requests [_make_request] sends. *)
Definition get (endpoint : string) : request :=
  mk_request "GET" (base_url self ++ "/" ++ endpoint) (_get_headers self) JNull.

Definition post (endpoint : string) (data : json) : request :=
  mk_request "POST" (base_url self ++ "/" ++ endpoint) (_get_headers self) data.

Definition project_myapp : json :=
  JDict [("Id", JStr "Projects-1"); ("Name", JStr "MyApp");
         ("Description", JStr "demo")].

Definition env_production : json :=
  JDict [("Id", JStr "Environments-1"); ("Name", JStr "Production")].

Definition env_staging : json :=
  JDict [("Id", JStr "Environments-2"); ("Name", JStr "Staging")].

End Demo.

Definition space_shouting : json :=
  JDict [("Id", JStr "Spaces-2"); ("Name", JStr "DEFAULT")].

(** Two spaces called "Default", up to case. *)
Definition spaces_remote : unit -> request -> http_outcome * unit :=
  Demo.answer
    [("GET", "spaces/all", Demo.ok (JList [space_default; space_shouting]))].

(** One project, one release, never deployed. *)
Definition details_remote : unit -> request -> http_outcome * unit :=
  Demo.answer
    [("GET", "spaces/all", Demo.ok (JList [space_default]));
     ("GET", "Spaces-1/projects/all", Demo.ok (JList [Demo.project_myapp]));
     ("GET", "Spaces-1/projects/Projects-1/releases",
      Demo.ok (JDict [("Items", JList [release_1_0])]));
     ("GET", "Spaces-1/releases/Releases-1/deployments",
      Demo.ok (JDict [("Items", JList [])]));
     ("GET", "Spaces-1/environments/all",
      Demo.ok (JList [Demo.env_production; Demo.env_staging]))].

Definition releases_1_0 : json := JDict [("Items", JList [release_1_0])].

(** The creation of a deployment fails with status 500. *)
Definition refusing_remote : unit -> request -> http_outcome * unit :=
  Demo.answer
    [("GET", "spaces/all", Demo.ok (JList [space_default]));
     ("GET", "Spaces-1/projects/all", Demo.ok (JList [Demo.project_myapp]));
     ("GET", "Spaces-1/projects/Projects-1/releases", Demo.ok releases_1_0);
     ("GET", "Spaces-1/environments/all",
      Demo.ok (JList [Demo.env_production; Demo.env_staging]));
     ("POST", "Spaces-1/deployments",
      Responded 500 "boom" (DecodeError "not JSON"))].

Definition refusal : json :=
  error_value "API request failed with status 500: boom".

(** A space without environments. *)
Definition deserted_remote : unit -> request -> http_outcome * unit :=
  Demo.answer
    [("GET", "spaces/all", Demo.ok (JList [space_default]));
     ("GET", "Spaces-1/projects/all", Demo.ok (JList [Demo.project_myapp]));
     ("GET", "Spaces-1/projects/Projects-1/releases", Demo.ok releases_1_0);
     ("GET", "Spaces-1/environments/all", Demo.ok (JList []))].

Definition deserted_requests : list request :=
  ([Demo.get "spaces/all"] ++ [Demo.get "Spaces-1/projects/all"]
   ++ [Demo.get "Spaces-1/projects/Projects-1/releases"]
   ++ [Demo.get "Spaces-1/environments/all"])%list.

(** The releases of the project come as a bare list. *)
Definition bare_releases_remote : unit -> request -> http_outcome * unit :=
  Demo.answer
    [("GET", "spaces/all", Demo.ok (JList [space_default]));
     ("GET", "Spaces-1/projects/all", Demo.ok (JList [Demo.project_myapp]));
     ("GET", "Spaces-1/projects/Projects-1/releases",
      Demo.ok (JList [release_1_0]))].

Definition channel_default : json :=
  JDict [("Id", JStr "Channels-1"); ("Name", JStr "Default")].

Definition package_web : json :=
  JDict [("ActionName", JStr "Deploy web"); ("PackageReferenceName", JStr "");
         ("FeedId", JStr "Feeds-1"); ("PackageId", JStr "Web")].

Definition package_db : json :=
  JDict [("ActionName", JStr "Migrate"); ("PackageReferenceName", JStr "db");
         ("FeedId", JStr "Feeds-1"); ("PackageId", JStr "Db")].

Definition template_two_packages : json :=
  JDict [("Packages", JList [package_web; package_db])].

Definition selected_db : json :=
  JDict [("ActionName", JStr "Migrate"); ("PackageReferenceName", JStr "db");
         ("Version", JStr "2.1.0")].

(** Two package requirements; the feed has no version of the first. *)
Definition packages_remote : unit -> request -> http_outcome * unit :=
  Demo.answer
    [("GET", "spaces/all", Demo.ok (JList [space_default]));
     ("GET", "Spaces-1/projects/all", Demo.ok (JList [Demo.project_myapp]));
     ("GET", "Spaces-1/projects/Projects-1/channels",
      Demo.ok (JDict [("Items", JList [channel_default])]));
     ("GET",
      "Spaces-1/deploymentprocesses/deploymentprocess-Projects-1/template?channel=Channels-1",
      Demo.ok template_two_packages);
     ("GET", "Spaces-1/feeds/Feeds-1/packages/versions?packageId=Web&take=1",
      Demo.ok (JDict [("Items", JList [])]));
     ("GET", "Spaces-1/feeds/Feeds-1/packages/versions?packageId=Db&take=1",
      Demo.ok (JList [JDict [("Version", JStr "2.1.0")]]));
     ("POST", "Spaces-1/releases",
      Responded 201 ""
        (Decoded (JDict [("Id", JStr "Releases-9"); ("Version", JStr "3.0")])))].

Definition deployment_production : json :=
  JDict [("Id", JStr "Deployments-5");
         ("EnvironmentId", JStr "Environments-1");
         ("TaskId", JStr "ServerTasks-7");
         ("Created", JStr "2024-01-01T10:00:00Z");
         ("DeployedBy", JStr "admin")].

Definition task_7 : json :=
  JDict [("State", JStr "Success"); ("IsCompleted", JBool true);
         ("StartTime", JStr "2024-01-01T10:00:05Z");
         ("CompletedTime", JStr "2024-01-01T10:01:00Z");
         ("Duration", JStr "55 seconds")].

(** Two environments; the release is deployed to the first only. *)
Definition status_remote : unit -> request -> http_outcome * unit :=
  Demo.answer
    [("GET", "spaces/all", Demo.ok (JList [space_default]));
     ("GET", "Spaces-1/projects/all", Demo.ok (JList [Demo.project_myapp]));
     ("GET", "Spaces-1/projects/Projects-1/releases", Demo.ok releases_1_0);
     ("GET", "Spaces-1/environments/all",
      Demo.ok (JList [Demo.env_production; Demo.env_staging]));
     ("GET", "Spaces-1/releases/Releases-1/deployments",
      Demo.ok (JDict [("Items", JList [deployment_production])]));
     ("GET", "tasks/ServerTasks-7", Demo.ok task_7)].

Definition status_production : json :=
  JDict [("environment",
          JDict [("id", JStr "Environments-1"); ("name", JStr "Production")]);
         ("deployment_status",
          JDict [("deployment_id", JStr "Deployments-5");
                 ("state", JStr "Success");
                 ("completed", JBool true);
                 ("started", JStr "2024-01-01T10:00:05Z");
                 ("completed_time", JStr "2024-01-01T10:01:00Z");
                 ("duration", JStr "55 seconds");
                 ("task_id", JStr "ServerTasks-7");
                 ("deployed_by", JStr "admin");
                 ("comments", JStr "")])].

Definition status_out : json_text :=
  _json_response
    (JDict [("success", JBool true);
            ("space", JDict [("id", JStr "Spaces-1"); ("name", JStr "Default")]);
            ("project", JDict [("id", JStr "Projects-1"); ("name", JStr "MyApp")]);
            ("release", JDict [("id", JStr "Releases-1"); ("version", JStr "1.0")]);
            ("deployment_statuses", JList [status_production]);
            ("summary",
             JDict [("total_environments_checked", JInt 2);
                    ("deployed_count", JInt 1);
                    ("environments_with_deployments", JInt 1)])])
    None.

Definition status_sent : list request :=
  [Demo.get "spaces/all"; Demo.get "Spaces-1/projects/all";
   Demo.get "Spaces-1/projects/Projects-1/releases";
   Demo.get "Spaces-1/environments/all";
   Demo.get "Spaces-1/releases/Releases-1/deployments";
   Demo.get "tasks/ServerTasks-7"].

(** An environment with both variables set. *)
Definition demo_env (name : string) : option string :=
  if String.eqb name "OCTOPUS_URL" then Some "https://octopus.example/"
  else if String.eqb name "OCTOPUS_API_KEY" then Some "API-KEY"
  else None.

(** What [_make_request] makes of a 404. *)
Definition not_found : json := error_value "Resource not found.".

(** A space and a project; whatever else is asked for is not there. *)
Definition projects_only_remote : unit -> request -> http_outcome * unit :=
  Demo.answer
    [("GET", "spaces/all", Demo.ok (JList [space_default]));
     ("GET", "Spaces-1/projects/all", Demo.ok (JList [Demo.project_myapp]))].

(** A project without releases. *)
Definition no_releases_remote : unit -> request -> http_outcome * unit :=
  Demo.answer
    [("GET", "spaces/all", Demo.ok (JList [space_default]));
     ("GET", "Spaces-1/projects/all", Demo.ok (JList [Demo.project_myapp]));
     ("GET", "Spaces-1/projects/Projects-1/releases",
      Demo.ok (JDict [("Items", JList [])]))].

Definition releases_2_1 : json :=
  JDict [("Items", JList [release_2_0; release_1_0])].

(** Two releases, the later one first, and two environments. *)
Definition two_releases_remote : unit -> request -> http_outcome * unit :=
  Demo.answer
    [("GET", "spaces/all", Demo.ok (JList [space_default]));
     ("GET", "Spaces-1/projects/all", Demo.ok (JList [Demo.project_myapp]));
     ("GET", "Spaces-1/projects/Projects-1/releases", Demo.ok releases_2_1);
     ("GET", "Spaces-1/environments/all",
      Demo.ok (JList [Demo.env_production; Demo.env_staging]))].

Definition resolved_requests : list request :=
  ([Demo.get "spaces/all"] ++ [Demo.get "Spaces-1/projects/all"]
   ++ [Demo.get "Spaces-1/projects/Projects-1/releases"])%list.

(** A project with a channel and no deployment process. *)
Definition no_template_remote : unit -> request -> http_outcome * unit :=
  Demo.answer
    [("GET", "spaces/all", Demo.ok (JList [space_default]));
     ("GET", "Spaces-1/projects/all", Demo.ok (JList [Demo.project_myapp]));
     ("GET", "Spaces-1/projects/Projects-1/channels",
      Demo.ok (JDict [("Items", JList [channel_default])]))].

Definition template_endpoint : string :=
  "Spaces-1/deploymentprocesses/deploymentprocess-Projects-1/template?channel=Channels-1".

Definition template_no_packages : json := JDict [("Packages", JList [])].

(** A deployment process without packages; releases cannot be created. *)
Definition no_creation_remote : unit -> request -> http_outcome * unit :=
  Demo.answer
    [("GET", "spaces/all", Demo.ok (JList [space_default]));
     ("GET", "Spaces-1/projects/all", Demo.ok (JList [Demo.project_myapp]));
     ("GET", "Spaces-1/projects/Projects-1/channels",
      Demo.ok (JDict [("Items", JList [channel_default])]));
     ("GET", template_endpoint, Demo.ok template_no_packages)].

Definition release_9 : json :=
  JDict [("Id", JStr "Releases-9"); ("Version", JStr "3.0")].

(** The same, on a remote that creates the release. *)
Definition creation_remote : unit -> request -> http_outcome * unit :=
  Demo.answer
    [("GET", "spaces/all", Demo.ok (JList [space_default]));
     ("GET", "Spaces-1/projects/all", Demo.ok (JList [Demo.project_myapp]));
     ("GET", "Spaces-1/projects/Projects-1/channels",
      Demo.ok (JDict [("Items", JList [channel_default])]));
     ("GET", template_endpoint, Demo.ok template_no_packages);
     ("POST", "Spaces-1/releases", Responded 201 "" (Decoded release_9))].

Definition creation_requests : list request :=
  ([Demo.get "spaces/all"] ++ [Demo.get "Spaces-1/projects/all"]
   ++ [Demo.get "Spaces-1/projects/Projects-1/channels"]
   ++ [Demo.get template_endpoint] ++ []
   ++ [release_creation Demo.repr Demo.self (JStr "Spaces-1") channel_default
         (JStr "Projects-1") "3.0" []])%list.

(** A deployment that has no task. *)
Definition deployment_untasked : json :=
  JDict [("Id", JStr "Deployments-6");
         ("EnvironmentId", JStr "Environments-2");
         ("Created", JStr "2024-01-02T10:00:00Z")].

(** A space without an identifier. *)
Definition space_anonymous : json := JDict [("Name", JStr "Default")].

Definition anonymous_remote : unit -> request -> http_outcome * unit :=
  Demo.answer [("GET", "spaces/all", Demo.ok (JList [space_anonymous]))].

(** * Properties *)

(** ** Running programs *)

Lemma run_bind {W A B} (h : W -> request -> http_outcome * W)
  (m : io A) (f : A -> io B) (w : W) :
  run h (bind m f) w =
  match run h m w with
  | (Ok a, w1, s1) =>
      let '(r, w2, s2) := run h (f a) w1 in (r, w2, (s1 ++ s2)%list)
  | (Err e, w1, s1) => (Err e, w1, s1)
  end.
Proof.
  revert w; induction m as [a | e | rq k IH]; intro w; simpl.
  - destruct (run h (f a) w) as [[r w2] s2]; reflexivity.
  - reflexivity.
  - destruct (h w rq) as [o w1]. rewrite IH.
    destruct (run h (k o) w1) as [[[a | e] w2] s1]; [| reflexivity].
    destruct (run h (f a) w2) as [[r w3] s2]; reflexivity.
Qed.

Lemma run_ret {W A} (h : W -> request -> http_outcome * W) (a : A) (w : W) :
  run h (Ret a) w = (Ok a, w, []).
Proof. reflexivity. Qed.

(** ** Inverting a run that ended in a value *)

Lemma run_bind_ok {W A B} (h : W -> request -> http_outcome * W)
  (m : io A) (f : A -> io B) (w w' : W) (b : B) (s : list request) :
  run h (bind m f) w = (Ok b, w', s) ->
  exists a w1 s1 s2,
    run h m w = (Ok a, w1, s1) /\ run h (f a) w1 = (Ok b, w', s2) /\
    s = (s1 ++ s2)%list.
Proof.
  rewrite run_bind. destruct (run h m w) as [[[a | e] w1] s1]; [| discriminate].
  destruct (run h (f a) w1) as [[r w2] s2] eqn:Hf.
  intros H; injection H as -> -> <-. exists a, w1, s1, s2. auto.
Qed.

Ltac run_inv H :=
  repeat match type of H with
  | run _ (bind _ _) _ = (Ok _, _, _) =>
      let a := fresh "a" in
      let H1 := fresh "Hrun" in
      let Hs := fresh "Hsent" in
      apply run_bind_ok in H as (a & ? & ? & ? & H1 & H & Hs)
  | run _ (if ?b then _ else _) _ = _ => destruct b eqn:?
  | run _ (Ret _) _ = (Ok _, _, _) =>
      rewrite run_ret in H; injection H as ? ? ?; subst
  end.

(** ** Facts about values *)

Lemma py_eq_str (v : json) (s : string) :
  py_eq v (JStr s) = true <-> v = JStr s.
Proof.
  destruct v as [| b | n | f | t | l | d]; simpl;
    try (split; [discriminate | discriminate]).
  - split; [intros H; apply String.eqb_eq in H; congruence |].
    intros H; injection H as ->. apply String.eqb_refl.
Qed.

Lemma object_inv (v : json) :
  is_object v = true -> exists d, v = JDict d.
Proof. destruct v; try discriminate. eauto. Qed.

Lemma no_error_among_objects (xs : list json) :
  forallb is_object xs = true ->
  existsb (py_eq (JStr "error")) xs = false.
Proof.
  induction xs as [| x xs IH]; simpl; [reflexivity |].
  intros H. apply andb_prop in H as [Hx Hxs].
  apply object_inv in Hx as [d ->]. simpl. auto.
Qed.

Lemma py_get_object (v : json) (k : string) (dflt : json) :
  is_object v = true -> py_get v k dflt = Ret (field_or v k dflt).
Proof. intros H. apply object_inv in H as [d ->]. reflexivity. Qed.

Lemma getitem_object (v : json) (k : string) (x : json) :
  py_getitem v k = Ret x -> is_object v = true.
Proof. destruct v; simpl; try discriminate. reflexivity. Qed.

Lemma getitem_field (v : json) (k : string) (x : json) :
  py_getitem v k = Ret x -> field v k = x.
Proof.
  destruct v as [| | | | | | d]; simpl; try discriminate.
  unfold field, field_or. destruct (dict_get d k); simpl; congruence.
Qed.

(** ** C5: the request primitive *)

Lemma response_value_meets_contract (o : http_outcome) :
  adapter_result o (response_value o).
Proof.
  destruct o as [status_code text body | msg | msg]; simpl;
    [| constructor | constructor].
  fold (created_or_ok status_code).
  destruct (created_or_ok status_code) eqn:Hok.
  - destruct body; constructor; assumption.
  - destruct (Z.eqb_spec status_code 401) as [-> | H401]; [constructor |].
    destruct (Z.eqb_spec status_code 404) as [-> | H404]; [constructor |].
    constructor; assumption.
Qed.

(** C5.  [_make_request] never raises: against any remote system it ends
    in a value.  Without a base URL or an API key that value is the
    missing-credentials error and no request has been sent; otherwise
    exactly one request has been sent and the value is the decoded body
    (200/201) or the tagged error the contract assigns to what came back
    (401, 404, other statuses, connection failure, anything else). *)
Theorem make_request_never_raises {sm : str_methods} :
  forall (self : tools) (endpoint : string) (method : option string)
         (data : option json)
         (W : Type) (h : W -> request -> http_outcome * W) (w : W),
  exists v w' sent,
    run h (_make_request self endpoint method data) w = (Ok v, w', sent) /\
    if credentials_missing self then
      _make_request self endpoint method data = Ret v /\
      v = error_value missing_credentials /\ w' = w /\ sent = []
    else
      exists rq, sent = [rq] /\ w' = snd (h w rq) /\
                 adapter_result (fst (h w rq)) v.
Proof.
  intros self endpoint method data W h w.
  unfold _make_request. fold (credentials_missing self).
  destruct (credentials_missing self).
  - exists (error_value missing_credentials), w, []. simpl. auto.
  - match goal with |- context [Http ?r _] => set (rq := r) end.
    cbn [run]. destruct (h w rq) as [o w1] eqn:Hanswer.
    exists (response_value o), w1, [rq]. split; [reflexivity |].
    exists rq. rewrite Hanswer. repeat split.
    apply response_value_meets_contract.
Qed.

Example make_request_without_key :
  _make_request (mk_tools "https://octopus.example/api" None)
                "spaces/all" None None
  = Ret (error_value missing_credentials).
Proof. reflexivity. Qed.

(** ** C4: the release selector *)

Lemma version_matches_object (version : string) (x : json) :
  is_object x = true ->
  version_matches version x = Ret (has_version version x).
Proof.
  intros H. apply object_inv in H as [d ->].
  unfold version_matches, has_version, field, field_or. simpl.
  destruct (dict_get d "Version") as [v |]; simpl; [| reflexivity].
  destruct v; reflexivity.
Qed.

Lemma next_match_version (version : string) (xs : list json) :
  forallb is_object xs = true ->
  py_next_match (version_matches version) xs JNull
  = Ret (optional (find (has_version version) xs)).
Proof.
  induction xs as [| x xs IH]; simpl; [reflexivity |].
  intros H. apply andb_prop in H as [Hx Hxs].
  rewrite (version_matches_object _ _ Hx). simpl.
  destruct (has_version version x); [reflexivity | auto].
Qed.

(** C4, amended.  On a list of release objects [_find_release] is the
    selector of the specification: nothing on the empty list; with a
    non-empty version string the first release whose [Version] is that
    string, and nothing when there is none; with no version, or with the
    empty string, the first release as given.  (Which objects the list
    holds matters only when a version is looked for.) *)
Theorem find_release_selects :
  forall (releases : list json) (version : option string),
    (opt_truthy version = true -> forallb is_object releases = true) ->
    _find_release (JList releases) version
    = Ret (optional (select_release releases version)).
Proof.
  intros releases version Hobj.
  unfold _find_release, select_release.
  destruct releases as [| first rest]; [reflexivity |].
  cbn [truthy is_nil negb].
  destruct version as [v |]; [| reflexivity].
  destruct (PyStr.nonempty v) eqn:Hv; [| reflexivity].
  cbn [py_iter bind]. apply next_match_version. apply Hobj. exact Hv.
Qed.

Lemma find_release_selects_witness :
  _find_release (JList [release_1_0; release_2_0]) (Some "2.0")
  = Ret release_2_0.
Proof.
  rewrite (find_release_selects [release_1_0; release_2_0] (Some "2.0"));
    reflexivity.
Defined.

Example find_release_absent_version :
  _find_release (JList [release_1_0; release_2_0]) (Some "9.9") = Ret JNull.
Proof. reflexivity. Qed.

Example find_release_latest :
  _find_release (JList [release_1_0; release_2_0]) None = Ret release_1_0.
Proof. reflexivity. Qed.

(** C4 as stated fails for the empty version string: no release has
    version [""], and yet the first release is returned, not [None]. *)
Lemma find_release_empty_version :
  find (has_version "") [release_1_0; release_2_0] = None /\
  _find_release (JList [release_1_0; release_2_0]) (Some "") = Ret release_1_0 /\
  _find_release (JList [release_1_0; release_2_0]) (Some "") <> Ret JNull.
Proof. repeat split. discriminate. Qed.

(** ** C6: name resolution *)

Lemma has_name_object (x : json) : has_name x = true -> is_object x = true.
Proof. destruct x; simpl; congruence. Qed.

Lemma named_are_objects (xs : list json) :
  forallb has_name xs = true -> forallb is_object xs = true.
Proof.
  induction xs as [| x xs IH]; simpl; [reflexivity |].
  intros H. apply andb_prop in H as [Hx Hxs].
  rewrite (has_name_object _ Hx). auto.
Qed.

Lemma name_matches_named {sm : str_methods} (name : string) (x : json) :
  has_name x = true -> name_matches name x = Ret (same_name name x).
Proof.
  destruct x as [| | | | | | d]; try discriminate.
  unfold has_name, name_matches, same_name, field, field_or. simpl.
  destruct (dict_get d "Name") as [[| | | | n | |] |]; try discriminate.
  reflexivity.
Qed.

Lemma next_match_name {sm : str_methods} (name : string) (xs : list json) :
  forallb has_name xs = true ->
  py_next_match (name_matches name) xs JNull
  = Ret (optional (find (same_name name) xs)).
Proof.
  induction xs as [| x xs IH]; simpl; [reflexivity |].
  intros H. apply andb_prop in H as [Hx Hxs].
  rewrite (name_matches_named _ _ Hx). simpl.
  destruct (same_name name x); [reflexivity | auto].
Qed.

(** What [_get_by_name] does with a collection once it is fetched. *)
Lemma resolve_in_collection {sm : str_methods}
  (name : string) (c : json) (xs : list json) :
  collection_items c = Some xs ->
  forallb has_name xs = true ->
  (failed <- py_contains "error" c ;;
   if failed then Ret JNull
   else items <- list_or_items c ;;
        ys <- py_iter items ;;
        py_next_match (name_matches name) ys JNull)
  = Ret (optional (find (same_name name) xs)).
Proof.
  intros Hc Hxs. destruct c as [| | | | | l | d]; try discriminate.
  - injection Hc as ->. cbn [py_contains bind].
    rewrite (no_error_among_objects _ (named_are_objects _ Hxs)).
    cbn [list_or_items py_iter bind]. apply next_match_name, Hxs.
  - cbn [collection_items] in Hc. cbn [py_contains bind].
    destruct (dict_has d "error"); [discriminate |].
    cbn [list_or_items py_get bind].
    destruct (dict_get d "Items") as [[| | | | | l |] |]; try discriminate.
    injection Hc as ->. cbn [py_iter bind]. apply next_match_name, Hxs.
Qed.

Lemma find_first {A} (p : A -> bool) (pre : list A) (x : A) (post : list A) :
  forallb (fun y => negb (p y)) pre = true -> p x = true ->
  find p (pre ++ x :: post) = Some x.
Proof.
  induction pre as [| y pre IH]; simpl; intros Hpre Hx.
  - now rewrite Hx.
  - apply andb_prop in Hpre as [Hy Hpre].
    apply negb_true_iff in Hy. rewrite Hy. auto.
Qed.

Lemma find_none {A} (p : A -> bool) (xs : list A) :
  forallb (fun y => negb (p y)) xs = true -> find p xs = None.
Proof.
  induction xs as [| y xs IH]; simpl; [reflexivity |].
  intros H. apply andb_prop in H as [Hy Hxs].
  apply negb_true_iff in Hy. rewrite Hy. auto.
Qed.

(** C6.  Once the collection at [uri] has been fetched, as a bare list or
    as an object with an [Items] list, [_get_by_name] returns the first
    entry, in the order returned, whose [Name] is the requested name up to
    case, whatever follows it (duplicates included), and [None] when no
    entry has that name.  ["default"] is the name of an entry called
    ["Default"], and [_get_space] without an argument looks for
    ["Default"]. *)
Theorem get_by_name_first_match {sm : str_methods} :
  forall (self : tools) (uri name : string)
         (W : Type) (h : W -> request -> http_outcome * W) (w w' : W)
         (c : json) (xs : list json) (sent : list request),
    run h (_make_request self uri None None) w = (Ok c, w', sent) ->
    collection_items c = Some xs ->
    forallb has_name xs = true ->
    (forall pre x post,
        xs = (pre ++ x :: post)%list ->
        forallb (fun y => negb (same_name name y)) pre = true ->
        same_name name x = true ->
        run h (_get_by_name self uri name) w = (Ok x, w', sent)) /\
    (forallb (fun y => negb (same_name name y)) xs = true ->
     run h (_get_by_name self uri name) w = (Ok JNull, w', sent)) /\
    same_name "default" space_default = true /\
    _get_space self None = _get_space self (Some "Default").
Proof.
  intros self uri name W h w w' c xs sent Hrun Hc Hxs.
  assert (Hres : run h (_get_by_name self uri name) w
                 = (Ok (optional (find (same_name name) xs)), w', sent)).
  { unfold _get_by_name. rewrite run_bind, Hrun.
    rewrite (resolve_in_collection name c xs Hc Hxs).
    rewrite run_ret, app_nil_r. reflexivity. }
  repeat split.
  - intros pre x post -> Hpre Hx.
    rewrite Hres, (find_first _ _ _ _ Hpre Hx). reflexivity.
  - intros Hnone. rewrite Hres, (find_none _ _ Hnone). reflexivity.
  - unfold same_name. cbn [field field_or space_default dict_get find fst snd
                            String.eqb Ascii.eqb Bool.eqb option_map
                            default_arg].
    rewrite !str_lower_ascii by reflexivity. reflexivity.
Qed.

Lemma get_by_name_first_match_witness :
  run spaces_remote (_get_by_name Demo.self "spaces/all" "default") tt
  = (Ok space_default, tt, [Demo.get "spaces/all"]).
Proof.
  refine (proj1 (get_by_name_first_match Demo.self "spaces/all" "default"
                   unit spaces_remote tt tt
                   (JList [space_default; space_shouting])
                   [space_default; space_shouting]
                   [Demo.get "spaces/all"] eq_refl eq_refl eq_refl)
                [] space_default [space_shouting] eq_refl eq_refl eq_refl).
Defined.

(** ** What a resolved entity looks like *)

Lemma name_matches_object {sm : str_methods}
  {W} (h : W -> request -> http_outcome * W)
  (name : string) (x : json) (b : bool) (w w' : W) (s : list request) :
  run h (name_matches name x) w = (Ok b, w', s) -> is_object x = true.
Proof. destruct x; cbn; try discriminate. reflexivity. Qed.

Lemma next_match_object {sm : str_methods}
  {W} (h : W -> request -> http_outcome * W)
  (name : string) (xs : list json) :
  forall (x : json) (w w' : W) (s : list request),
    run h (py_next_match (name_matches name) xs JNull) w = (Ok x, w', s) ->
    truthy x = true -> is_object x = true.
Proof.
  induction xs as [| y xs IH]; intros x w w' s H Hx.
  - cbn in H. injection H as <- _ _. discriminate.
  - cbn [py_next_match] in H. run_inv H.
    + eapply name_matches_object; eassumption.
    + eapply IH; eassumption.
Qed.

(** An entity found by name is an object. *)
Lemma get_by_name_object {sm : str_methods}
  {W} (h : W -> request -> http_outcome * W)
  (self : tools) (uri name : string) (x : json) (w w' : W)
  (s : list request) :
  run h (_get_by_name self uri name) w = (Ok x, w', s) ->
  truthy x = true -> is_object x = true.
Proof.
  intros H Hx. unfold _get_by_name in H. run_inv H.
  - discriminate.
  - eapply next_match_object; eassumption.
Qed.

(** ** C3 and C8: project details *)

Lemma filter_active_shape {W} (h : W -> request -> http_outcome * W)
  (envs ids : list json) :
  forall (active r : list json) (w w' : W) (s : list request),
    run h (filter_active envs ids active) w = (Ok r, w', s) ->
    Forall id_name active -> Forall id_name r.
Proof.
  induction envs as [| env envs IH]; intros active r w w' s H Hact.
  - cbn in H. injection H as <- _ _. exact Hact.
  - cbn [filter_active] in H. run_inv H.
    + run_inv H. eapply IH; [exact H |].
      apply Forall_app. split; [exact Hact |].
      constructor; [| constructor]. red. eauto.
    + eapply IH; eauto.
Qed.

(** Whatever [_get_active_environments] returns is a list of
    [{id, name}] objects. *)
Lemma active_environments_shape {sm : str_methods}
  {W} (h : W -> request -> http_outcome * W)
  (py_repr : json -> string) (self : tools) (space_id project_id : json)
  (w w' : W) (r : json) (s : list request) :
  run h (_get_active_environments py_repr self space_id project_id) w
  = (Ok r, w', s) ->
  exists envs, r = JList envs /\ Forall id_name envs.
Proof.
  intros H. unfold _get_active_environments in H.
  run_inv H; try (exists []; split; [reflexivity | constructor]).
  all: try (run_inv H; exists []; split; [reflexivity | constructor]).
  eexists. split; [reflexivity |].
  eapply filter_active_shape; [eassumption | constructor].
Qed.

Section SpaceResolved.

Context {sm : str_methods}.

Variable py_repr : json -> string.
Variable self : tools.
Variable W : Type.
Variable h : W -> request -> http_outcome * W.

Variable project_name : string.
Variable space_name : option string.
Variables (w0 w1 : W) (space space_id : json) (t1 : list request).

(** The space resolves, to an object whose [Id] is [space_id]. *)
Hypothesis project_named : PyStr.nonempty project_name = true.
Hypothesis space_found :
  run h (_get_space self (Some (default_arg "Default" space_name))) w0
  = (Ok space, w1, t1).
Hypothesis space_truthy : truthy space = true.
Hypothesis space_has_id : py_getitem space "Id" = Ret space_id.

Lemma space_is_object : is_object space = true.
Proof. exact (getitem_object _ _ _ space_has_id). Qed.

(** C8, amended.  When the space resolves and the project name does not,
    [get_project_details] returns the error payload whose message is
    [Project '<name>' not found in space '<space>'], the space name
    quoted and after the word "space". *)
Theorem project_details_unknown_project :
  forall (project : json) (w2 : W) (t2 : list request),
    run h (_get_by_name self (str py_repr space_id ++ "/projects/all")
                        project_name) w1
    = (Ok project, w2, t2) ->
    truthy project = false ->
    run h (get_project_details py_repr self project_name space_name) w0
    = (Ok (_error_response
             ("Project '" ++ project_name ++ "' not found in space '"
              ++ default_arg "Default" space_name ++ "'")),
       w2, (t1 ++ t2)%list).
Proof.
  intros project w2 t2 Hproject Hfalsy.
  unfold get_project_details. rewrite project_named. cbn [negb].
  rewrite run_bind, space_found, space_truthy. cbn [negb].
  rewrite space_has_id. cbn [bind].
  rewrite run_bind, Hproject, Hfalsy. cbn [negb].
  rewrite run_ret, app_nil_r. reflexivity.
Qed.

Section ProjectResolved.

Variables (project project_id : json) (w2 : W) (t2 : list request).

(** The project resolves within the space, to an object whose [Id]
    is [project_id]. *)
Hypothesis project_found :
  run h (_get_by_name self (str py_repr space_id ++ "/projects/all")
                      project_name) w1
  = (Ok project, w2, t2).
Hypothesis project_truthy : truthy project = true.
Hypothesis project_has_id : py_getitem project "Id" = Ret project_id.

Lemma project_is_object : is_object project = true.
Proof. exact (getitem_object _ _ _ project_has_id). Qed.

(** C3.  When space and project resolve, what
    [_get_active_environments] derives is a list of [{id, name}]
    objects, and the payload of [get_project_details] carries under
    [active_environments] that very list when it is not empty, and
    the sentence of [no_active_environment], a string, when it is. *)
Theorem project_details_active_environments :
  forall (derived : json) (w3 : W) (t3 : list request),
    run h (_get_active_environments py_repr self space_id project_id) w2
    = (Ok derived, w3, t3) ->
    exists envs,
      derived = JList envs /\ Forall id_name envs /\
      run h (get_project_details py_repr self project_name space_name) w0
      = (Ok (_json_response
               (project_details_payload space project
                  (if is_nil envs
                   then JStr "There is no active environment with a release for this project"
                   else JList envs))
               (Some 2)),
         w3, (t1 ++ t2 ++ t3)%list).
Proof.
  intros derived w3 t3 Hderived.
  destruct (active_environments_shape _ _ _ _ _ _ _ _ _ Hderived)
    as (envs & Heq & Hshape).
  exists envs. split; [exact Heq |]. split; [exact Hshape |].
  rewrite Heq in Hderived.
  unfold get_project_details. rewrite project_named. cbn [negb].
  rewrite run_bind, space_found, space_truthy. cbn [negb].
  rewrite space_has_id. cbn [bind].
  rewrite run_bind, project_found, project_truthy. cbn [negb].
  rewrite project_has_id. cbn [bind].
  rewrite run_bind, Hderived.
  rewrite !(py_get_object space), !(py_get_object project)
    by (exact space_is_object || exact project_is_object).
  destruct envs as [| env envs]; cbn [truthy is_nil negb py_len bind];
    rewrite run_ret, !app_nil_r; reflexivity.
Qed.

End ProjectResolved.

End SpaceResolved.

(** *** Examples: a project whose latest release was never deployed *)

Lemma project_details_unknown_project_witness :
  run details_remote (get_project_details Demo.repr Demo.self "Nope" None) tt
  = (Ok (_error_response "Project 'Nope' not found in space 'Default'"),
     tt, [Demo.get "spaces/all"; Demo.get "Spaces-1/projects/all"]).
Proof.
  exact (project_details_unknown_project Demo.repr Demo.self unit details_remote
           "Nope" None tt tt space_default (JStr "Spaces-1")
           [Demo.get "spaces/all"] eq_refl eq_refl eq_refl eq_refl
           JNull tt [Demo.get "Spaces-1/projects/all"] eq_refl eq_refl).
Defined.

(** C8 as stated fails: the space resolves, the project does not, and the
    message returned is not [Project 'Nope' not found in Default space]. *)
Lemma project_details_message_differs :
  fst (fst (run details_remote (_get_space Demo.self (Some "Default")) tt))
  = Ok space_default /\
  fst (fst (run details_remote
              (_get_by_name Demo.self "Spaces-1/projects/all" "Nope") tt))
  = Ok JNull /\
  fst (fst (run details_remote
              (get_project_details Demo.repr Demo.self "Nope" (Some "Default"))
              tt))
  <> Ok (_error_response "Project 'Nope' not found in Default space").
Proof. repeat split. vm_compute. discriminate. Qed.

Lemma project_details_active_environments_witness :
  exists envs,
    JList [] = JList envs /\ Forall id_name envs /\
    run details_remote (get_project_details Demo.repr Demo.self "MyApp" None) tt
    = (Ok (_json_response
             (project_details_payload space_default Demo.project_myapp
                (if is_nil envs
                 then JStr "There is no active environment with a release for this project"
                 else JList envs))
             (Some 2)),
       tt,
       ([Demo.get "spaces/all"] ++ [Demo.get "Spaces-1/projects/all"]
        ++ [Demo.get "Spaces-1/projects/Projects-1/releases";
            Demo.get "Spaces-1/releases/Releases-1/deployments"])%list).
Proof.
  exact (project_details_active_environments Demo.repr Demo.self unit
           details_remote "MyApp" None tt tt space_default (JStr "Spaces-1")
           [Demo.get "spaces/all"] eq_refl eq_refl eq_refl eq_refl
           Demo.project_myapp (JStr "Projects-1") tt
           [Demo.get "Spaces-1/projects/all"] eq_refl eq_refl eq_refl
           (JList []) tt
           [Demo.get "Spaces-1/projects/Projects-1/releases";
            Demo.get "Spaces-1/releases/Releases-1/deployments"] eq_refl).
Defined.

(** ** C1 and C9: the deployment tools, once the release is selected *)

Lemma find_release_nonempty (releases : list json) (version : option string)
  (release : json) :
  _find_release (JList releases) version = Ret release ->
  truthy release = true ->
  truthy (JList releases) = true.
Proof.
  destruct releases as [| r rs]; [| reflexivity].
  cbn. intros H; injection H as <-. discriminate.
Qed.

Section ReleaseResolved.

Context {sm : str_methods}.

Variable py_repr : json -> string.
Variable self : tools.
Variable W : Type.
Variable h : W -> request -> http_outcome * W.

Variable project_name : string.
Variable space_name : option string.
Variable version : option string.
Variables (w0 w1 w2 w3 : W) (t1 t2 t3 : list request).
Variables (space space_id project project_id releases_response release : json).
Variable releases : list json.

(** Space and project resolve, the project's releases are fetched in
    [Items] form, and the selector picks [release] among them. *)
Hypothesis project_named : PyStr.nonempty project_name = true.
Hypothesis space_found :
  run h (_get_space self (Some (default_arg "Default" space_name))) w0
  = (Ok space, w1, t1).
Hypothesis space_truthy : truthy space = true.
Hypothesis space_has_id : py_getitem space "Id" = Ret space_id.
Hypothesis project_found :
  run h (_get_by_name self (str py_repr space_id ++ "/projects/all")
                      project_name) w1
  = (Ok project, w2, t2).
Hypothesis project_truthy : truthy project = true.
Hypothesis project_has_id : py_getitem project "Id" = Ret project_id.
Hypothesis releases_fetched :
  run h (_get_project_releases py_repr self space_id project_id) w2
  = (Ok releases_response, w3, t3).
Hypothesis releases_no_error : py_contains "error" releases_response = Ret false.
Hypothesis releases_items :
  py_get releases_response "Items" (JList []) = Ret (JList releases).
Hypothesis release_found : _find_release (JList releases) version = Ret release.
Hypothesis release_truthy : truthy release = true.

Ltac to_release_selection :=
  rewrite ?project_named; cbn [negb orb];
  rewrite run_bind, space_found, space_truthy; cbn [negb];
  rewrite space_has_id; cbn [bind];
  rewrite run_bind, project_found, project_truthy; cbn [negb];
  rewrite project_has_id; cbn [bind];
  rewrite run_bind, releases_fetched;
  rewrite releases_no_error; cbn [bind];
  rewrite releases_items; cbn [bind];
  rewrite (find_release_nonempty _ _ _ release_found release_truthy);
  cbn [negb py_len bind].

(** C1.  When space, project, release (an object) and environment
    resolve, [deploy_release] sends the creation request and, whatever
    object [_make_request] hands back for it, returns the success-shaped
    payload: [success] true, the fixed advisory message, the pointer to
    the status check.  That includes every error value of
    [_make_request], for which the fields of [deployment] are all
    [None]. *)
Theorem deploy_release_success_shaped :
  forall (environment_name : string) (environment deployment_response : json)
         (w4 w5 : W) (t4 t5 : list request),
    is_object release = true ->
    PyStr.nonempty environment_name = true ->
    run h (_get_by_name self (str py_repr space_id ++ "/environments/all")
                        environment_name) w3
    = (Ok environment, w4, t4) ->
    truthy environment = true ->
    run h (_make_request self (str py_repr space_id ++ "/deployments")
                         (Some "POST")
                         (Some (deployment_data release environment))) w4
    = (Ok deployment_response, w5, t5) ->
    is_object deployment_response = true ->
    let payload :=
      deploy_release_payload space project release environment
                             deployment_response in
    run h (deploy_release py_repr self project_name environment_name version
                          space_name) w0
    = (Ok (_json_response payload None), w5,
       (t1 ++ t2 ++ t3 ++ t4 ++ t5)%list) /\
    field payload "success" = JBool true /\
    field payload "message"
    = JStr "Deployment has been initiated successfully. This does not guarantee the deployment completed successfully." /\
    field payload "next_step" = JStr deployment_next_step /\
    (forall message,
        deployment_response = error_value message ->
        field payload "deployment"
        = JDict [("id", JNull); ("name", JNull); ("state", JNull);
                 ("created", JNull); ("task_id", JNull)]).
Proof.
  intros environment_name environment deployment_response w4 w5 t4 t5
         Hrelease Hname Henv Htruthy Hpost Hresponse payload.
  assert (Henvobj : is_object environment = true)
    by exact (get_by_name_object _ _ _ _ _ _ _ _ Henv Htruthy).
  split; [| repeat split].
  - unfold deploy_release. rewrite Hname. to_release_selection.
    rewrite release_found. cbn [bind]. rewrite release_truthy. cbn [negb].
    rewrite !(py_get_object release) by exact Hrelease. cbn [bind].
    rewrite run_bind, Henv, Htruthy. cbn [negb].
    rewrite !(py_get_object environment) by exact Henvobj. cbn [bind].
    fold (field release "Id"). fold (field environment "Id").
    fold (deployment_data release environment).
    rewrite run_bind, Hpost.
    rewrite !(py_get_object space) by exact (getitem_object _ _ _ space_has_id).
    rewrite !(py_get_object project)
      by exact (getitem_object _ _ _ project_has_id).
    rewrite !(py_get_object deployment_response) by exact Hresponse.
    destruct (object_inv _ Hresponse) as [d ->].
    cbn [py_contains bind].
    destruct (dict_has d "error"); cbn [py_get bind];
      rewrite run_ret, ?app_nil_r, <- ?app_assoc; reflexivity.
  - intros message ->. reflexivity.
Qed.

(** C9, amended.  With the release selected and no environment name left
    after normalisation, a fetch of all environments that yields an error
    value or an empty collection makes [check_deployment_status] return
    the environment-not-found error.  The name in the message is [None]
    when the parameter was omitted or empty, and empty when it held
    whitespace only. *)
Theorem check_status_no_environments :
  forall (release_version environment_name : option string)
         (environments_response : json) (w4 : W) (t4 : list request),
    normalize_optional (default_arg "" release_version) = version ->
    opt_truthy (normalize_optional (default_arg "" environment_name)) = false ->
    run h (_make_request self (str py_repr space_id ++ "/environments/all")
                         None None) w3
    = (Ok environments_response, w4, t4) ->
    no_environments environments_response = true ->
    run h (check_deployment_status py_repr self project_name release_version
                                   environment_name space_name) w0
    = (Ok (_error_response
             ("Environment '" ++ shown_name environment_name
              ++ "' not found in " ++ default_arg "Default" space_name
              ++ " space")),
       w4, (t1 ++ t2 ++ t3 ++ t4)%list) /\
    (default_arg "" environment_name = "" ->
     shown_name environment_name = "None") /\
    (default_arg "" environment_name <> "" ->
     shown_name environment_name = "").
Proof.
  intros release_version environment_name environments_response w4 t4
         Hversion Hname Hfetch Hnone.
  split; [| split].
  - unfold check_deployment_status. to_release_selection.
    rewrite Hversion, release_found. cbn [bind].
    rewrite release_truthy. cbn [negb].
    assert (Hcheck :
              run h (_get_environments_to_check py_repr self space_id
                       (normalize_optional (default_arg "" environment_name)))
                  w3
              = (Ok (JList []), w4, t4)).
    { unfold _get_environments_to_check.
      assert (Hall :
                run h (environments_response <-
                         _make_request self
                           (str py_repr space_id ++ "/environments/all")
                           None None ;;
                       failed <- py_contains "error" environments_response ;;
                       if failed then Ret (JList [])
                       else list_or_items environments_response) w3
                = (Ok (JList []), w4, t4)).
      { rewrite run_bind, Hfetch.
        destruct environments_response as [| | | | | xs | d]; try discriminate.
        - destruct xs; [| discriminate]. cbn. now rewrite app_nil_r.
        - cbn [no_environments] in Hnone. cbn [py_contains bind].
          destruct (dict_has d "error"); [cbn; now rewrite app_nil_r |].
          cbn [orb] in Hnone. cbn [list_or_items py_get].
          destruct (dict_get d "Items") as [[| | | | | [|] |] |];
            try discriminate; cbn; now rewrite app_nil_r. }
      destruct (normalize_optional (default_arg "" environment_name))
        as [name |]; [| exact Hall].
      cbn [opt_truthy] in Hname. rewrite Hname. exact Hall. }
    rewrite run_bind, Hcheck. cbn [truthy is_nil negb].
    rewrite run_ret, ?app_nil_r, <- ?app_assoc. reflexivity.
  - unfold shown_name. intros ->. reflexivity.
  - unfold shown_name, normalize_optional in *. intros Hne.
    destruct (default_arg "" environment_name) as [| c s] eqn:E;
      [congruence |].
    cbn [PyStr.nonempty opt_truthy] in *. cbn [opt_str].
    destruct (str_strip (String c s)); [reflexivity | discriminate].
Qed.

End ReleaseResolved.

(** *** Examples: a deployment the remote refuses, and no environments *)

Lemma deploy_release_success_shaped_witness :
  let payload :=
    deploy_release_payload space_default Demo.project_myapp release_1_0
                           Demo.env_production refusal in
  run refusing_remote
      (deploy_release Demo.repr Demo.self "MyApp" "production" None None) tt
  = (Ok (_json_response payload None), tt,
     ([Demo.get "spaces/all"] ++ [Demo.get "Spaces-1/projects/all"]
      ++ [Demo.get "Spaces-1/projects/Projects-1/releases"]
      ++ [Demo.get "Spaces-1/environments/all"]
      ++ [Demo.post "Spaces-1/deployments"
            (deployment_data release_1_0 Demo.env_production)])%list) /\
  field payload "success" = JBool true /\
  field payload "message"
  = JStr "Deployment has been initiated successfully. This does not guarantee the deployment completed successfully." /\
  field payload "next_step" = JStr deployment_next_step /\
  (forall message,
      refusal = error_value message ->
      field payload "deployment"
      = JDict [("id", JNull); ("name", JNull); ("state", JNull);
               ("created", JNull); ("task_id", JNull)]).
Proof.
  exact (deploy_release_success_shaped Demo.repr Demo.self unit refusing_remote
           "MyApp" None None tt tt tt tt
           [Demo.get "spaces/all"] [Demo.get "Spaces-1/projects/all"]
           [Demo.get "Spaces-1/projects/Projects-1/releases"]
           space_default (JStr "Spaces-1") Demo.project_myapp (JStr "Projects-1")
           releases_1_0 release_1_0 [release_1_0]
           eq_refl eq_refl eq_refl eq_refl eq_refl eq_refl eq_refl eq_refl
           eq_refl eq_refl eq_refl eq_refl
           "production" Demo.env_production refusal tt tt
           [Demo.get "Spaces-1/environments/all"]
           [Demo.post "Spaces-1/deployments"
              (deployment_data release_1_0 Demo.env_production)]
           eq_refl eq_refl eq_refl eq_refl eq_refl eq_refl).
Defined.

Lemma check_status_no_environments_witness :
  run deserted_remote
      (check_deployment_status Demo.repr Demo.self "MyApp" None None None) tt
  = (Ok (_error_response
           ("Environment '" ++ shown_name None ++ "' not found in "
            ++ default_arg "Default" None ++ " space")),
     tt, deserted_requests) /\
  (default_arg "" None = "" -> shown_name None = "None") /\
  (default_arg "" None <> "" -> shown_name None = "").
Proof.
  exact (check_status_no_environments Demo.repr Demo.self unit deserted_remote
           "MyApp" None None tt tt tt tt
           [Demo.get "spaces/all"] [Demo.get "Spaces-1/projects/all"]
           [Demo.get "Spaces-1/projects/Projects-1/releases"]
           space_default (JStr "Spaces-1") Demo.project_myapp (JStr "Projects-1")
           releases_1_0 release_1_0 [release_1_0]
           eq_refl eq_refl eq_refl eq_refl eq_refl eq_refl eq_refl eq_refl
           eq_refl eq_refl eq_refl eq_refl
           None None (JList []) tt [Demo.get "Spaces-1/environments/all"]
           eq_refl eq_refl eq_refl eq_refl).
Defined.

(** C9 as stated fails for a name made of whitespace: it is empty after
    normalisation, every environment is asked for, none comes back, and
    the message shows an empty name, not [None]. *)
Lemma check_status_blank_environment_name :
  normalize_optional " " = Some "" /\
  fst (fst (run deserted_remote
              (check_deployment_status Demo.repr Demo.self "MyApp" None
                                       (Some " ") None) tt))
  = Ok (_error_response "Environment '' not found in Default space") /\
  fst (fst (run deserted_remote
              (check_deployment_status Demo.repr Demo.self "MyApp" None
                                       (Some " ") None) tt))
  <> Ok (_error_response "Environment 'None' not found in Default space").
Proof. repeat split. vm_compute. discriminate. Qed.

(** ** C2: the two forms of a collection response *)

Lemma items_of_collection (c : json) (xs : list json) :
  collection_items c = Some xs -> list_or_items c = Ret (JList xs).
Proof.
  destruct c as [| | | | | l | d]; try discriminate; cbn.
  - congruence.
  - destruct (dict_has d "error"); [discriminate |].
    destruct (dict_get d "Items") as [[| | | | | l |] |]; try discriminate.
    cbn. congruence.
Qed.

Lemma no_error_in_collection (c : json) (xs : list json) :
  collection_items c = Some xs -> forallb is_object xs = true ->
  py_contains "error" c = Ret false.
Proof.
  destruct c as [| | | | | l | d]; try discriminate;
    cbn [collection_items py_contains].
  - intros H; injection H as ->. intros Hxs.
    now rewrite (no_error_among_objects _ Hxs).
  - destruct (dict_has d "error"); [discriminate | reflexivity].
Qed.

(** Every environment of the space, whichever form the listing takes. *)
Lemma all_environments_either_form {sm : str_methods}
  (py_repr : json -> string) (self : tools)
  (space_id : json) {W} (h : W -> request -> http_outcome * W) (w w' : W)
  (c : json) (xs : list json) (sent : list request) :
  collection_items c = Some xs -> forallb is_object xs = true ->
  run h (_make_request self (str py_repr space_id ++ "/environments/all")
                       None None) w
  = (Ok c, w', sent) ->
  run h (_get_environments_to_check py_repr self space_id None) w
  = (Ok (JList xs), w', sent).
Proof.
  intros Hc Hxs Hfetch. unfold _get_environments_to_check.
  rewrite run_bind, Hfetch, (no_error_in_collection _ _ Hc Hxs). cbn [bind].
  rewrite (items_of_collection _ _ Hc), run_ret, app_nil_r. reflexivity.
Qed.

(** A bare list of releases stops [get_latest_release] at
    [releases_response.get]. *)
Lemma latest_release_rejects_bare_list {sm : str_methods}
  (py_repr : json -> string)
  (self : tools) {W} (h : W -> request -> http_outcome * W)
  (project_name : string) (space_name : option string)
  (w0 w1 w2 w3 : W) (t1 t2 t3 : list request)
  (space space_id project project_id : json) (xs : list json) :
  PyStr.nonempty project_name = true ->
  run h (_get_space self (Some (default_arg "Default" space_name))) w0
  = (Ok space, w1, t1) ->
  truthy space = true ->
  py_getitem space "Id" = Ret space_id ->
  run h (_get_by_name self (str py_repr space_id ++ "/projects/all")
                      project_name) w1
  = (Ok project, w2, t2) ->
  truthy project = true ->
  py_getitem project "Id" = Ret project_id ->
  run h (_get_project_releases py_repr self space_id project_id) w2
  = (Ok (JList xs), w3, t3) ->
  forallb is_object xs = true ->
  run h (get_latest_release py_repr self project_name space_name) w0
  = (Err AttributeError, w3, (t1 ++ t2 ++ t3)%list).
Proof.
  intros Hname Hspace Hst Hsid Hproject Hpt Hpid Hreleases Hxs.
  unfold get_latest_release. rewrite Hname. cbn [negb].
  rewrite run_bind, Hspace, Hst. cbn [negb]. rewrite Hsid. cbn [bind].
  rewrite run_bind, Hproject, Hpt. cbn [negb]. rewrite Hpid. cbn [bind].
  rewrite run_bind, Hreleases. cbn [py_contains bind].
  rewrite (no_error_among_objects _ Hxs). cbn [py_get bind run].
  rewrite ?app_nil_r. reflexivity.
Qed.

(** A bare list of deployments stops [_get_active_environments] at
    [deployments_response.get]. *)
Lemma active_environments_reject_bare_list {sm : str_methods}
  (py_repr : json -> string)
  (self : tools) {W} (h : W -> request -> http_outcome * W)
  (space_id project_id : json) (w0 w1 w2 : W) (t1 t2 : list request)
  (releases_response latest latest_id : json) (rest ds : list json) :
  run h (_make_request self
           (str py_repr space_id ++ "/projects/" ++ str py_repr project_id
            ++ "/releases") None None) w0
  = (Ok releases_response, w1, t1) ->
  collection_items releases_response = Some (latest :: rest) ->
  is_object releases_response = true ->
  py_getitem latest "Id" = Ret latest_id ->
  run h (_make_request self
           (str py_repr space_id ++ "/releases/" ++ str py_repr latest_id
            ++ "/deployments") None None) w1
  = (Ok (JList ds), w2, t2) ->
  forallb is_object ds = true ->
  run h (_get_active_environments py_repr self space_id project_id) w0
  = (Err AttributeError, w2, (t1 ++ t2)%list).
Proof.
  intros Hreleases Hc Hwrapped Hid Hdeployments Hds.
  unfold _get_active_environments. rewrite run_bind, Hreleases.
  destruct (object_inv _ Hwrapped) as [d ->].
  cbn [collection_items] in Hc. cbn [py_contains py_get bind].
  destruct (dict_has d "error"); [discriminate |].
  destruct (dict_get d "Items") as [[| | | | | l |] |]; try discriminate.
  injection Hc as ->. cbn [default_arg truthy is_nil negb py_first bind].
  rewrite Hid. cbn [bind].
  rewrite run_bind, Hdeployments. cbn [py_contains bind].
  rewrite (no_error_among_objects _ Hds). cbn [py_get bind run].
  rewrite ?app_nil_r. reflexivity.
Qed.

(** The versions of a package, in either form: the package loop of
    [create_release] selects the first of them and goes on. *)
Lemma select_packages_either_form {sm : str_methods}
  (py_repr : json -> string) (self : tools) {W}
  (h : W -> request -> http_outcome * W) (space_id package : json)
  (rest selected : list json)
  (feed_id package_id action_name reference_name c latest version : json)
  (older : list json) (w w1 : W) (t : list request) :
  py_getitem package "FeedId" = Ret feed_id ->
  py_getitem package "PackageId" = Ret package_id ->
  py_getitem package "ActionName" = Ret action_name ->
  py_getitem package "PackageReferenceName" = Ret reference_name ->
  run h (_make_request self (feed_endpoint py_repr space_id feed_id package_id)
                       None None) w
  = (Ok c, w1, t) ->
  collection_items c = Some (latest :: older) ->
  forallb is_object (latest :: older) = true ->
  py_getitem latest "Version" = Ret version ->
  run h (select_packages py_repr self space_id (package :: rest) selected) w
  = let '(r, w2, t2) :=
      run h (select_packages py_repr self space_id rest
               (selected
                  ++ [JDict [("ActionName", action_name);
                             ("PackageReferenceName", reference_name);
                             ("Version", version)]])%list) w1 in
    (r, w2, (t ++ t2)%list).
Proof.
  intros Hfeed Hpackage Haction Hreference Hfetch Hc Hobjects Hversion.
  cbn [select_packages]. rewrite Hfeed. cbn [bind]. rewrite Hpackage.
  cbn [bind]. fold (feed_endpoint py_repr space_id feed_id package_id).
  rewrite run_bind, Hfetch.
  rewrite (no_error_in_collection _ _ Hc Hobjects). cbn [bind].
  rewrite (items_of_collection _ _ Hc).
  cbn [bind truthy is_nil negb py_first].
  rewrite Haction. cbn [bind]. rewrite Hreference. cbn [bind].
  rewrite Hversion. cbn [bind]. reflexivity.
Qed.

(** C2, amended.  The collections resolved by name (spaces, projects,
    channels, environments) and the listing of all environments are
    accepted as a bare list or as an object with an [Items] list, and
    read as the same sequence; so are the versions of a package in the
    package loop of [create_release], which selects the first version
    of either form.  The releases of a project and the deployments of a
    release are read from [Items] only: handed a bare list,
    [get_latest_release] and [_get_active_environments] raise
    [AttributeError]. *)
Theorem collections_in_either_form {sm : str_methods} :
  (forall (self : tools) (uri name : string)
          (W : Type) (h : W -> request -> http_outcome * W) (w w' : W)
          (c : json) (xs : list json) (sent : list request),
      collection_items c = Some xs -> forallb has_name xs = true ->
      run h (_make_request self uri None None) w = (Ok c, w', sent) ->
      run h (_get_by_name self uri name) w
      = (Ok (optional (find (same_name name) xs)), w', sent)) /\
  (forall (py_repr : json -> string) (self : tools) (space_id : json)
          (W : Type) (h : W -> request -> http_outcome * W) (w w' : W)
          (c : json) (xs : list json) (sent : list request),
      collection_items c = Some xs -> forallb is_object xs = true ->
      run h (_make_request self (str py_repr space_id ++ "/environments/all")
                           None None) w
      = (Ok c, w', sent) ->
      run h (_get_environments_to_check py_repr self space_id None) w
      = (Ok (JList xs), w', sent)) /\
  (forall (py_repr : json -> string) (self : tools)
          (W : Type) (h : W -> request -> http_outcome * W)
          (space_id package : json) (rest selected : list json)
          (feed_id package_id action_name reference_name : json)
          (c latest version : json) (older : list json)
          (w w1 : W) (t : list request),
      py_getitem package "FeedId" = Ret feed_id ->
      py_getitem package "PackageId" = Ret package_id ->
      py_getitem package "ActionName" = Ret action_name ->
      py_getitem package "PackageReferenceName" = Ret reference_name ->
      run h (_make_request self
               (feed_endpoint py_repr space_id feed_id package_id) None None) w
      = (Ok c, w1, t) ->
      collection_items c = Some (latest :: older) ->
      forallb is_object (latest :: older) = true ->
      py_getitem latest "Version" = Ret version ->
      run h (select_packages py_repr self space_id (package :: rest) selected) w
      = let '(r, w2, t2) :=
          run h (select_packages py_repr self space_id rest
                   (selected
                      ++ [JDict [("ActionName", action_name);
                                 ("PackageReferenceName", reference_name);
                                 ("Version", version)]])%list) w1 in
        (r, w2, (t ++ t2)%list)) /\
  (forall (py_repr : json -> string) (self : tools)
          (W : Type) (h : W -> request -> http_outcome * W)
          (project_name : string) (space_name : option string)
          (w0 w1 w2 w3 : W) (t1 t2 t3 : list request)
          (space space_id project project_id : json) (xs : list json),
      PyStr.nonempty project_name = true ->
      run h (_get_space self (Some (default_arg "Default" space_name))) w0
      = (Ok space, w1, t1) ->
      truthy space = true ->
      py_getitem space "Id" = Ret space_id ->
      run h (_get_by_name self (str py_repr space_id ++ "/projects/all")
                          project_name) w1
      = (Ok project, w2, t2) ->
      truthy project = true ->
      py_getitem project "Id" = Ret project_id ->
      run h (_get_project_releases py_repr self space_id project_id) w2
      = (Ok (JList xs), w3, t3) ->
      forallb is_object xs = true ->
      run h (get_latest_release py_repr self project_name space_name) w0
      = (Err AttributeError, w3, (t1 ++ t2 ++ t3)%list)) /\
  (forall (py_repr : json -> string) (self : tools)
          (W : Type) (h : W -> request -> http_outcome * W)
          (space_id project_id : json) (w0 w1 w2 : W) (t1 t2 : list request)
          (releases_response latest latest_id : json) (rest ds : list json),
      run h (_make_request self
               (str py_repr space_id ++ "/projects/" ++ str py_repr project_id
                ++ "/releases") None None) w0
      = (Ok releases_response, w1, t1) ->
      collection_items releases_response = Some (latest :: rest) ->
      is_object releases_response = true ->
      py_getitem latest "Id" = Ret latest_id ->
      run h (_make_request self
               (str py_repr space_id ++ "/releases/" ++ str py_repr latest_id
                ++ "/deployments") None None) w1
      = (Ok (JList ds), w2, t2) ->
      forallb is_object ds = true ->
      run h (_get_active_environments py_repr self space_id project_id) w0
      = (Err AttributeError, w2, (t1 ++ t2)%list)).
Proof.
  split; [| split; [| split; [| split]]].
  - intros self uri name W h w w' c xs sent Hc Hxs Hfetch.
    unfold _get_by_name. rewrite run_bind, Hfetch.
    rewrite (resolve_in_collection name c xs Hc Hxs), run_ret, app_nil_r.
    reflexivity.
  - intros. eapply all_environments_either_form; eassumption.
  - intros. eapply select_packages_either_form; eassumption.
  - intros. eapply latest_release_rejects_bare_list; eassumption.
  - intros. eapply active_environments_reject_bare_list; eassumption.
Qed.

(** *** Examples: the releases of a project as a bare list *)

Lemma collections_in_either_form_witness :
  run packages_remote
      (select_packages Demo.repr Demo.self (JStr "Spaces-1") [package_db] [])
      tt
  = (Ok (inr [selected_db]), tt,
     [Demo.get
        "Spaces-1/feeds/Feeds-1/packages/versions?packageId=Db&take=1"]) /\
  run bare_releases_remote
      (get_latest_release Demo.repr Demo.self "MyApp" None) tt
  = (Err AttributeError, tt,
     ([Demo.get "spaces/all"] ++ [Demo.get "Spaces-1/projects/all"]
      ++ [Demo.get "Spaces-1/projects/Projects-1/releases"])%list).
Proof.
  split.
  - exact (proj1 (proj2 (proj2 collections_in_either_form))
             Demo.repr Demo.self unit packages_remote (JStr "Spaces-1")
             package_db [] [] (JStr "Feeds-1") (JStr "Db") (JStr "Migrate")
             (JStr "db") (JList [JDict [("Version", JStr "2.1.0")]])
             (JDict [("Version", JStr "2.1.0")]) (JStr "2.1.0") [] tt tt
             [Demo.get
                "Spaces-1/feeds/Feeds-1/packages/versions?packageId=Db&take=1"]
             eq_refl eq_refl eq_refl eq_refl eq_refl eq_refl eq_refl eq_refl).
  - exact (proj1 (proj2 (proj2 (proj2 collections_in_either_form)))
             Demo.repr Demo.self unit bare_releases_remote "MyApp" None
             tt tt tt tt
             [Demo.get "spaces/all"] [Demo.get "Spaces-1/projects/all"]
             [Demo.get "Spaces-1/projects/Projects-1/releases"]
             space_default (JStr "Spaces-1") Demo.project_myapp
             (JStr "Projects-1") [release_1_0]
             eq_refl eq_refl eq_refl eq_refl eq_refl eq_refl eq_refl eq_refl
             eq_refl).
Defined.

(** C2 as stated fails: the same release comes back as a bare list from
    one remote and under [Items] from the other, and [get_latest_release]
    raises on the first while it answers on the second. *)
Lemma latest_release_forms_differ :
  fst (fst (run bare_releases_remote
              (get_latest_release Demo.repr Demo.self "MyApp" None) tt))
  = Err AttributeError /\
  fst (fst (run details_remote
              (get_latest_release Demo.repr Demo.self "MyApp" None) tt))
  = Ok (_json_response
          (JDict [("success", JBool true);
                  ("space", JDict [("id", JStr "Spaces-1");
                                   ("name", JStr "Default")]);
                  ("project", JDict [("id", JStr "Projects-1");
                                     ("name", JStr "MyApp")]);
                  ("latest_release",
                   JDict [("id", JStr "Releases-1");
                          ("version", JStr "1.0");
                          ("release_notes", JStr "");
                          ("assembled", JNull);
                          ("channel_id", JNull);
                          ("project_id", JNull);
                          ("selected_packages", JList [])])])
          None).
Proof. split; reflexivity. Qed.

(** ** C10: packages without versions in [create_release] *)

Lemma run_contains {W} (h : W -> request -> http_outcome * W)
  (needle : string) (v : json) (b : bool) (w w' : W) (s : list request) :
  run h (py_contains needle v) w = (Ok b, w', s) ->
  py_contains needle v = Ret b.
Proof.
  destruct v; cbn [py_contains run]; intros H; try discriminate;
    injection H as <- _ _; reflexivity.
Qed.

(** A package whose feed has no version is passed over. *)
Lemma select_packages_skips {sm : str_methods}
  (py_repr : json -> string) (self : tools) {W}
  (h : W -> request -> http_outcome * W) (space_id package : json)
  (rest selected : list json) (feed_id package_id response : json)
  (w w1 : W) (t : list request) :
  py_getitem package "FeedId" = Ret feed_id ->
  py_getitem package "PackageId" = Ret package_id ->
  run h (_make_request self (feed_endpoint py_repr space_id feed_id package_id)
                       None None) w
  = (Ok response, w1, t) ->
  empty_versions response = true ->
  run h (select_packages py_repr self space_id (package :: rest) selected) w
  = let '(r, w2, t2) :=
      run h (select_packages py_repr self space_id rest selected) w1 in
    (r, w2, (t ++ t2)%list).
Proof.
  intros Hfeed Hpackage Hfetch Hempty.
  cbn [select_packages]. rewrite Hfeed. cbn [bind]. rewrite Hpackage.
  cbn [bind]. fold (feed_endpoint py_repr space_id feed_id package_id).
  rewrite run_bind, Hfetch.
  destruct response as [| | | | | xs | d]; try discriminate.
  - destruct xs; [| discriminate]. reflexivity.
  - cbn [empty_versions] in Hempty. cbn [py_contains bind].
    destruct (dict_has d "error"); [discriminate |].
    cbn [negb andb] in Hempty. cbn [list_or_items py_get bind].
    destruct (dict_get d "Items") as [[| | | | | [|] |] |];
      try discriminate; reflexivity.
Qed.

(** A feed query that yields an error value ends the loop with it. *)
Lemma select_packages_aborts {sm : str_methods}
  (py_repr : json -> string) (self : tools) {W}
  (h : W -> request -> http_outcome * W) (space_id package : json)
  (rest selected : list json) (feed_id package_id response : json)
  (w w1 : W) (t : list request) :
  py_getitem package "FeedId" = Ret feed_id ->
  py_getitem package "PackageId" = Ret package_id ->
  run h (_make_request self (feed_endpoint py_repr space_id feed_id package_id)
                       None None) w
  = (Ok response, w1, t) ->
  py_contains "error" response = Ret true ->
  run h (select_packages py_repr self space_id (package :: rest) selected) w
  = (Ok (inl (_json_response response None)), w1, t).
Proof.
  intros Hfeed Hpackage Hfetch Herror.
  cbn [select_packages]. rewrite Hfeed. cbn [bind]. rewrite Hpackage.
  cbn [bind]. fold (feed_endpoint py_repr space_id feed_id package_id).
  rewrite run_bind, Hfetch, Herror. cbn [bind].
  rewrite run_ret, app_nil_r. reflexivity.
Qed.

(** Nothing else ends the loop early. *)
Lemma select_packages_early {sm : str_methods}
  (py_repr : json -> string) (self : tools) {W}
  (h : W -> request -> http_outcome * W) (space_id : json)
  (packages : list json) :
  forall (selected : list json) (early : json_text) (w w' : W)
         (t : list request),
    run h (select_packages py_repr self space_id packages selected) w
    = (Ok (inl early), w', t) ->
    exists response,
      early = _json_response response None /\
      py_contains "error" response = Ret true.
Proof.
  induction packages as [| package rest IH]; intros selected early w w' t H.
  - cbn in H. discriminate.
  - cbn [select_packages] in H. run_inv H.
    + eexists. split; [reflexivity |]. eapply run_contains; eassumption.
    + run_inv H. eapply IH; eassumption.
    + eapply IH; eassumption.
Qed.

(** Whoever resolves a name has its credentials. *)
Lemma get_by_name_credentials {sm : str_methods}
  {W} (h : W -> request -> http_outcome * W)
  (self : tools) (uri name : string) (x : json) (w w' : W)
  (s : list request) :
  run h (_get_by_name self uri name) w = (Ok x, w', s) ->
  truthy x = true -> credentials_missing self = false.
Proof.
  intros H Hx. destruct (credentials_missing self) eqn:Hmissing; [| reflexivity].
  unfold _get_by_name, _make_request in H.
  fold (credentials_missing self) in H. rewrite Hmissing in H.
  cbn in H. injection H as <- _ _. discriminate.
Qed.

Lemma get_space_credentials {sm : str_methods}
  {W} (h : W -> request -> http_outcome * W)
  (self : tools) (space_name : option string) (x : json) (w w' : W)
  (s : list request) :
  run h (_get_space self space_name) w = (Ok x, w', s) ->
  truthy x = true -> credentials_missing self = false.
Proof.
  intros H Hx. unfold _get_space in H. run_inv H.
  - discriminate.
  - eapply get_by_name_credentials; [eassumption |].
    now apply negb_false_iff.
Qed.

Lemma run_post {sm : str_methods}
  {W} (h : W -> request -> http_outcome * W) (self : tools)
  (endpoint : string) (data : json) (w : W) :
  credentials_missing self = false ->
  run h (_make_request self endpoint (Some "POST") (Some data)) w
  = (Ok (response_value (fst (h w (post_request self endpoint data)))),
     snd (h w (post_request self endpoint data)),
     [post_request self endpoint data]).
Proof.
  intros Hcred. unfold _make_request. fold (credentials_missing self).
  rewrite Hcred. cbn [default_arg].
  rewrite (str_upper_ascii "POST" eq_refl).
  change (String.eqb (PyStr.ascii_upper "POST") "POST") with true. cbv iota.
  fold (post_request self endpoint data). cbn [run].
  destruct (h w (post_request self endpoint data)); reflexivity.
Qed.

(** What the loop selected is what the release-creation request
    carries. *)
Lemma create_release_posts_selection {sm : str_methods}
  (py_repr : json -> string)
  (self : tools) {W} (h : W -> request -> http_outcome * W)
  (project_name version : string) (channel_name space_name : option string)
  (w0 w1 w2 w3 w4 w5 : W) (t1 t2 t3 t4 t5 : list request)
  (space space_id project project_id channel channel_id : json)
  (template_response packages_json : json) (packages selected : list json) :
  PyStr.nonempty project_name = true ->
  PyStr.nonempty version = true ->
  run h (_get_space self (Some (default_arg "Default" space_name))) w0
  = (Ok space, w1, t1) ->
  truthy space = true ->
  py_getitem space "Id" = Ret space_id ->
  run h (_get_by_name self (str py_repr space_id ++ "/projects/all")
                      project_name) w1
  = (Ok project, w2, t2) ->
  truthy project = true ->
  py_getitem project "Id" = Ret project_id ->
  run h (_get_by_name self
           (str py_repr space_id ++ "/projects/" ++ str py_repr project_id
            ++ "/channels") (default_arg "Default" channel_name)) w2
  = (Ok channel, w3, t3) ->
  truthy channel = true ->
  py_getitem channel "Id" = Ret channel_id ->
  run h (_make_request self
           (str py_repr space_id ++ "/deploymentprocesses/deploymentprocess-"
            ++ str py_repr project_id ++ "/template?channel="
            ++ str py_repr channel_id) None None) w3
  = (Ok template_response, w4, t4) ->
  py_contains "error" template_response = Ret false ->
  py_get template_response "Packages" (JList []) = Ret packages_json ->
  py_iter packages_json = Ret packages ->
  run h (select_packages py_repr self space_id packages []) w4
  = (Ok (inr selected), w5, t5) ->
  exists result w6,
    run h (create_release py_repr self project_name version channel_name
                          space_name) w0
    = (result, w6,
       (t1 ++ t2 ++ t3 ++ t4 ++ t5
        ++ [post_request self (str py_repr space_id ++ "/releases")
              (release_data channel project_id version selected)])%list).
Proof.
  intros Hname Hversion Hspace Hst Hsid Hproject Hpt Hpid Hchannel Hct Hcid
         Htemplate Hno_error Hpackages Hiter Hloop.
  pose proof (get_space_credentials _ _ _ _ _ _ _ Hspace Hst) as Hcred.
  unfold create_release. rewrite Hname, Hversion. cbn [negb orb].
  rewrite run_bind, Hspace, Hst. cbn [negb]. rewrite Hsid. cbn [bind].
  rewrite run_bind, Hproject, Hpt. cbn [negb]. rewrite Hpid. cbn [bind].
  rewrite run_bind, Hchannel, Hct. cbn [negb]. rewrite Hcid. cbn [bind].
  rewrite run_bind, Htemplate, Hno_error. cbn [bind].
  rewrite Hpackages. cbn [bind]. rewrite Hiter. cbn [bind].
  rewrite run_bind, Hloop.
  rewrite <- (getitem_field _ _ _ Hcid).
  fold (release_data channel project_id version selected).
  rewrite run_bind, (run_post h self _ _ w5 Hcred).
  set (rq := post_request self (str py_repr space_id ++ "/releases")
               (release_data channel project_id version selected)).
  destruct (h w5 rq) as [o w6]. cbn [fst snd].
  rewrite !(py_get_object space) by exact (getitem_object _ _ _ Hsid).
  rewrite !(py_get_object project) by exact (getitem_object _ _ _ Hpid).
  rewrite !(py_get_object channel) by exact (getitem_object _ _ _ Hcid).
  destruct (response_value o) as [| | | | s | l | d];
    cbn [py_contains py_get bind run];
    try (eexists; eexists; rewrite ?app_nil_r, <- ?app_assoc; reflexivity).
  - destruct (PyStr.contains "error" s); cbn [py_get bind run];
      eexists; eexists; rewrite ?app_nil_r, <- ?app_assoc; reflexivity.
  - destruct (existsb (py_eq (JStr "error")) l); cbn [py_get bind run];
      eexists; eexists; rewrite ?app_nil_r, <- ?app_assoc; reflexivity.
  - destruct (dict_has d "error"); cbn [py_get bind run];
      eexists; eexists; rewrite ?app_nil_r, <- ?app_assoc; reflexivity.
Qed.

(** C10.  In the package loop of [create_release], a requirement whose
    feed query yields no error and no version is passed over: the loop
    goes on exactly as if the requirement were not there, raising nothing
    and selecting nothing for it.  The loop is left early only with a
    feed response that carries an error, which every such response does.
    And once the loop ends, the release-creation request is sent with the
    packages it selected, and nothing else, as [SelectedPackages]. *)
Theorem create_release_skips_unversioned_packages {sm : str_methods} :
  (forall (py_repr : json -> string) (self : tools)
          (W : Type) (h : W -> request -> http_outcome * W)
          (space_id package : json) (rest selected : list json)
          (feed_id package_id response : json) (w w1 : W) (t : list request),
      py_getitem package "FeedId" = Ret feed_id ->
      py_getitem package "PackageId" = Ret package_id ->
      run h (_make_request self
               (feed_endpoint py_repr space_id feed_id package_id) None None) w
      = (Ok response, w1, t) ->
      empty_versions response = true ->
      run h (select_packages py_repr self space_id (package :: rest) selected) w
      = let '(r, w2, t2) :=
          run h (select_packages py_repr self space_id rest selected) w1 in
        (r, w2, (t ++ t2)%list)) /\
  (forall (py_repr : json -> string) (self : tools)
          (W : Type) (h : W -> request -> http_outcome * W)
          (space_id package : json) (rest selected : list json)
          (feed_id package_id response : json) (w w1 : W) (t : list request),
      py_getitem package "FeedId" = Ret feed_id ->
      py_getitem package "PackageId" = Ret package_id ->
      run h (_make_request self
               (feed_endpoint py_repr space_id feed_id package_id) None None) w
      = (Ok response, w1, t) ->
      py_contains "error" response = Ret true ->
      run h (select_packages py_repr self space_id (package :: rest) selected) w
      = (Ok (inl (_json_response response None)), w1, t)) /\
  (forall (py_repr : json -> string) (self : tools)
          (W : Type) (h : W -> request -> http_outcome * W)
          (space_id : json) (packages selected : list json)
          (early : json_text) (w w' : W) (t : list request),
      run h (select_packages py_repr self space_id packages selected) w
      = (Ok (inl early), w', t) ->
      exists response,
        early = _json_response response None /\
        py_contains "error" response = Ret true) /\
  (forall (py_repr : json -> string) (self : tools)
          (W : Type) (h : W -> request -> http_outcome * W)
          (project_name version : string)
          (channel_name space_name : option string)
          (w0 w1 w2 w3 w4 w5 : W) (t1 t2 t3 t4 t5 : list request)
          (space space_id project project_id channel channel_id : json)
          (template_response packages_json : json)
          (packages selected : list json),
      PyStr.nonempty project_name = true ->
      PyStr.nonempty version = true ->
      run h (_get_space self (Some (default_arg "Default" space_name))) w0
      = (Ok space, w1, t1) ->
      truthy space = true ->
      py_getitem space "Id" = Ret space_id ->
      run h (_get_by_name self (str py_repr space_id ++ "/projects/all")
                          project_name) w1
      = (Ok project, w2, t2) ->
      truthy project = true ->
      py_getitem project "Id" = Ret project_id ->
      run h (_get_by_name self
               (str py_repr space_id ++ "/projects/" ++ str py_repr project_id
                ++ "/channels") (default_arg "Default" channel_name)) w2
      = (Ok channel, w3, t3) ->
      truthy channel = true ->
      py_getitem channel "Id" = Ret channel_id ->
      run h (_make_request self
               (str py_repr space_id
                ++ "/deploymentprocesses/deploymentprocess-"
                ++ str py_repr project_id ++ "/template?channel="
                ++ str py_repr channel_id) None None) w3
      = (Ok template_response, w4, t4) ->
      py_contains "error" template_response = Ret false ->
      py_get template_response "Packages" (JList []) = Ret packages_json ->
      py_iter packages_json = Ret packages ->
      run h (select_packages py_repr self space_id packages []) w4
      = (Ok (inr selected), w5, t5) ->
      exists result w6,
        run h (create_release py_repr self project_name version channel_name
                              space_name) w0
        = (result, w6,
           (t1 ++ t2 ++ t3 ++ t4 ++ t5
            ++ [post_request self (str py_repr space_id ++ "/releases")
                  (release_data channel project_id version selected)])%list)).
Proof.
  split; [| split; [| split]].
  - intros. eapply select_packages_skips; eassumption.
  - intros. eapply select_packages_aborts; eassumption.
  - intros. eapply select_packages_early; eassumption.
  - intros. eapply create_release_posts_selection; eassumption.
Qed.

(** *** Example: two package requirements, the first without versions *)

Lemma create_release_skips_unversioned_packages_witness :
  exists result w6,
    run packages_remote
        (create_release Demo.repr Demo.self "MyApp" "3.0" None None) tt
    = (result, w6,
       ([Demo.get "spaces/all"] ++ [Demo.get "Spaces-1/projects/all"]
        ++ [Demo.get "Spaces-1/projects/Projects-1/channels"]
        ++ [Demo.get "Spaces-1/deploymentprocesses/deploymentprocess-Projects-1/template?channel=Channels-1"]
        ++ [Demo.get "Spaces-1/feeds/Feeds-1/packages/versions?packageId=Web&take=1";
            Demo.get "Spaces-1/feeds/Feeds-1/packages/versions?packageId=Db&take=1"]
        ++ [post_request Demo.self "Spaces-1/releases"
              (release_data channel_default (JStr "Projects-1") "3.0"
                            [selected_db])])%list).
Proof.
  exact (proj2 (proj2 (proj2 create_release_skips_unversioned_packages))
           Demo.repr Demo.self unit packages_remote "MyApp" "3.0" None None
           tt tt tt tt tt tt
           [Demo.get "spaces/all"] [Demo.get "Spaces-1/projects/all"]
           [Demo.get "Spaces-1/projects/Projects-1/channels"]
           [Demo.get "Spaces-1/deploymentprocesses/deploymentprocess-Projects-1/template?channel=Channels-1"]
           [Demo.get "Spaces-1/feeds/Feeds-1/packages/versions?packageId=Web&take=1";
            Demo.get "Spaces-1/feeds/Feeds-1/packages/versions?packageId=Db&take=1"]
           space_default (JStr "Spaces-1") Demo.project_myapp (JStr "Projects-1")
           channel_default (JStr "Channels-1")
           template_two_packages (JList [package_web; package_db])
           [package_web; package_db] [selected_db]
           eq_refl eq_refl eq_refl eq_refl eq_refl eq_refl eq_refl eq_refl
           eq_refl eq_refl eq_refl eq_refl eq_refl eq_refl eq_refl eq_refl).
Defined.

(** The same run, computed: the release is created, without [Web]. *)
Example create_release_two_packages :
  run packages_remote
      (create_release Demo.repr Demo.self "MyApp" "3.0" None None) tt
  = (Ok (_json_response
           (JDict [("success", JBool true);
                   ("message",
                    JStr "Release '3.0' created successfully for project 'MyApp'");
                   ("space", JDict [("id", JStr "Spaces-1");
                                    ("name", JStr "Default")]);
                   ("project", JDict [("id", JStr "Projects-1");
                                      ("name", JStr "MyApp")]);
                   ("channel", JDict [("id", JStr "Channels-1");
                                      ("name", JStr "Default")]);
                   ("release",
                    JDict [("id", JStr "Releases-9");
                           ("version", JStr "3.0");
                           ("assembled", JNull);
                           ("channel_id", JNull);
                           ("project_id", JNull);
                           ("selected_packages", JList [])])])
           None),
     tt,
     [Demo.get "spaces/all"; Demo.get "Spaces-1/projects/all";
      Demo.get "Spaces-1/projects/Projects-1/channels";
      Demo.get "Spaces-1/deploymentprocesses/deploymentprocess-Projects-1/template?channel=Channels-1";
      Demo.get "Spaces-1/feeds/Feeds-1/packages/versions?packageId=Web&take=1";
      Demo.get "Spaces-1/feeds/Feeds-1/packages/versions?packageId=Db&take=1";
      Demo.post "Spaces-1/releases"
        (JDict [("ChannelId", JStr "Channels-1");
                ("ProjectId", JStr "Projects-1");
                ("Version", JStr "3.0");
                ("SelectedPackages", JList [selected_db])])]).
Proof. reflexivity. Qed.

(** ** C7: what [check_deployment_status] reports *)

Lemma run_get {W} (h : W -> request -> http_outcome * W)
  (v : json) (k : string) (dflt a : json) (w w' : W) (s : list request) :
  run h (py_get v k dflt) w = (Ok a, w', s) ->
  is_object v = true /\ a = field_or v k dflt /\ w' = w /\ s = [].
Proof.
  destruct v; cbn [py_get run]; intros H; try discriminate.
  injection H as <- <- <-. auto.
Qed.

Lemma run_iter {W} (h : W -> request -> http_outcome * W)
  (v : json) (xs : list json) (w w' : W) (s : list request) :
  run h (py_iter v) w = (Ok xs, w', s) ->
  py_iter v = Ret xs /\ w' = w /\ s = [].
Proof.
  destruct v; cbn [py_iter run]; intros H; try discriminate;
    injection H as <- <- <-; auto.
Qed.

Lemma run_len {W} (h : W -> request -> http_outcome * W)
  (v : json) (n : nat) (w w' : W) (s : list request) :
  run h (py_len v) w = (Ok n, w', s) -> py_len v = Ret n.
Proof.
  destruct v; cbn [py_len run]; intros H; try discriminate;
    injection H as <- _ _; reflexivity.
Qed.

Lemma deployments_of_filter {W} (h : W -> request -> http_outcome * W)
  (env_id : json) (ds : list json) :
  forall (r : list json) (w w' : W) (s : list request),
    run h (deployments_of env_id ds) w = (Ok r, w', s) ->
    r = filter (fun d => py_eq (field d "EnvironmentId") env_id) ds /\
    forallb is_object ds = true /\ w' = w /\ s = [].
Proof.
  induction ds as [| d ds IH]; intros r w w' s H.
  - cbn in H. injection H as <- <- <-. auto.
  - cbn [deployments_of] in H. run_inv H.
    apply run_get in Hrun as (Hd & -> & -> & ->).
    apply IH in Hrun0 as (-> & Hds & -> & ->).
    cbn [filter forallb]. rewrite Hd, Hds. fold (field d "EnvironmentId").
    repeat split.
Qed.

Lemma filter_nil_existsb {A} (p : A -> bool) (xs : list A) :
  filter p xs = [] -> existsb p xs = false.
Proof.
  induction xs as [| x xs IH]; cbn; [reflexivity |].
  destruct (p x); [discriminate | exact IH].
Qed.

Lemma filter_cons_existsb {A} (p : A -> bool) (xs : list A) (y : A)
  (ys : list A) :
  filter p xs = y :: ys -> existsb p xs = true.
Proof.
  induction xs as [| x xs IH]; cbn; [discriminate |].
  destruct (p x); [reflexivity | exact IH].
Qed.

(** The loop adds one status per environment that has a deployment, in
    the order of the environments, and none for the others. *)
Lemma build_statuses_spec {sm : str_methods}
  (py_repr : json -> string) (self : tools) {W}
  (h : W -> request -> http_outcome * W) (deployments : json)
  (ds : list json) (envs : list json) :
  py_iter deployments = Ret ds ->
  forall (acc r : list json) (w w' : W) (s : list request),
    run h (build_statuses py_repr self envs deployments acc) w = (Ok r, w', s) ->
    exists added,
      r = (acc ++ added)%list /\
      map status_environment added
      = map environment_summary (filter (has_deployment ds) envs) /\
      forallb is_object envs = true.
Proof.
  intros Hds. induction envs as [| env envs IH]; intros acc r w w' s H.
  - cbn in H. injection H as <- _ _. exists []. rewrite app_nil_r. auto.
  - cbn [build_statuses] in H. rewrite Hds in H. run_inv H.
    apply run_get in Hrun as (Henv & -> & -> & ->).
    apply run_get in Hrun0 as (_ & -> & -> & ->).
    rewrite run_ret in Hrun1. injection Hrun1 as <- <- <-.
    apply deployments_of_filter in Hrun2 as (-> & _ & -> & ->).
    fold (field env "Id") in H. fold (field env "Name") in H.
    cbn [filter forallb]. rewrite Henv. cbn [andb].
    unfold has_deployment at 1.
    destruct (filter (fun d => py_eq (field d "EnvironmentId") (field env "Id"))
                     ds) as [| latest others] eqn:Hfilter.
    + rewrite (filter_nil_existsb _ _ Hfilter). eapply IH; exact H.
    + rewrite (filter_cons_existsb _ _ _ _ Hfilter).
      run_inv H. apply IH in H as (added & -> & Hmap & Hobj).
      eexists (_ :: added). rewrite <- app_assoc. split; [reflexivity |].
      split; [| exact Hobj]. cbn [map]. rewrite Hmap. reflexivity.
Qed.

Lemma error_is_no_success (message : string) :
  is_success (_error_response message) = false.
Proof. reflexivity. Qed.

Lemma failed_is_no_success {W} (h : W -> request -> http_outcome * W)
  (v : json) (w w' : W) (s : list request) (indent : option nat) :
  run h (py_contains "error" v) w = (Ok true, w', s) ->
  is_success (_json_response v indent) = false.
Proof.
  destruct v as [| | | | | | d]; cbn [py_contains run]; intros H;
    try discriminate; try reflexivity.
  injection H as H _ _. unfold is_success. cbn [dumps_data _json_response].
  destruct (dict_get d "success") as [[| [|] | | | | |] |]; try reflexivity.
  now rewrite H.
Qed.

Lemma run_getitem {W} (h : W -> request -> http_outcome * W)
  (v : json) (k : string) (a : json) (w w' : W) (s : list request) :
  run h (py_getitem v k) w = (Ok a, w', s) ->
  py_getitem v k = Ret a /\ w' = w /\ s = [].
Proof.
  destruct v as [| | | | | | d]; cbn [py_getitem run]; intros H;
    try discriminate.
  destruct (dict_get d k); cbn [run] in H; [| discriminate].
  injection H as <- <- <-. auto.
Qed.

(** A truthy value that can be iterated, and yields objects only, is a
    non-empty list. *)
Lemma iterated_objects (v : json) (xs : list json) :
  truthy v = true -> py_iter v = Ret xs -> forallb is_object xs = true ->
  v = JList xs /\ xs <> [].
Proof.
  destruct v as [| | | | s | l | d]; cbn [py_iter]; intros Hv H Hxs;
    try discriminate; injection H as <-.
  - destruct s; [discriminate | cbn in Hxs; discriminate].
  - split; [reflexivity |]. destruct l; [discriminate | congruence].
  - destruct d as [| [k x] d]; [discriminate | cbn in Hxs; discriminate].
Qed.

Lemma build_statuses_iterates {sm : str_methods}
  (py_repr : json -> string) (self : tools) {W}
  (h : W -> request -> http_outcome * W) (env : json) (envs : list json)
  (deployments : json) (acc r : list json) (w w' : W) (s : list request) :
  run h (build_statuses py_repr self (env :: envs) deployments acc) w
  = (Ok r, w', s) ->
  exists ds, py_iter deployments = Ret ds.
Proof.
  intros H. cbn [build_statuses] in H.
  apply run_bind_ok in H as (? & ? & ? & ? & _ & H & _).
  apply run_bind_ok in H as (? & ? & ? & ? & _ & H & _).
  apply run_bind_ok in H as (ds & ? & ? & ? & Hiter & _ & _).
  exists ds. exact (proj1 (run_iter _ _ _ _ _ _ Hiter)).
Qed.

Lemma no_deployment_no_status (ds envs statuses : list json) :
  forallb (fun env => negb (has_deployment ds env)) envs = true ->
  map status_environment statuses
  = map environment_summary (filter (has_deployment ds) envs) ->
  statuses = [].
Proof.
  intros Hnone Hmap.
  assert (Hempty : filter (has_deployment ds) envs = []).
  { clear - Hnone. induction envs as [| e es IH]; [reflexivity |].
    cbn [forallb filter] in *. apply andb_prop in Hnone as [He Hes].
    apply negb_true_iff in He. rewrite He. auto. }
  rewrite Hempty in Hmap. destruct statuses; [reflexivity | discriminate].
Qed.

Lemma pure_bind {A B} (m : io A) (f : A -> io B) :
  pure m -> (forall a, pure (f a)) -> pure (bind m f).
Proof. destruct m; cbn; auto. Qed.

Lemma run_pure {W A} (h : W -> request -> http_outcome * W) (m : io A)
  (a : A) (w w' : W) (s : list request) :
  pure m -> run h m w = (Ok a, w', s) -> m = Ret a /\ w' = w /\ s = [].
Proof.
  destruct m; cbn; intros Hp H; try discriminate; [| contradiction].
  injection H as <- <- <-. auto.
Qed.

Lemma find_release_pure (releases : json) (version : option string) :
  pure (_find_release releases version).
Proof.
  unfold _find_release. destruct (truthy releases); cbn [negb]; [| exact I].
  assert (Hfirst : pure (py_first releases)).
  { destruct releases as [| | | | [|] | [|] |]; exact I. }
  destruct version as [v |]; [| exact Hfirst].
  destruct (PyStr.nonempty v); [| exact Hfirst].
  apply pure_bind; [destruct releases; exact I |].
  intros xs. induction xs as [| x xs IH]; [exact I |].
  cbn [py_next_match]. apply pure_bind.
  - destruct x; exact I.
  - intros [|]; [exact I | exact IH].
Qed.

(** [_build_environment_statuses] on a truthy value: it is a list of
    environments, the deployments can be iterated, and there is one
    status per environment that has a deployment. *)
Lemma build_environment_statuses_spec {sm : str_methods}
  (py_repr : json -> string)
  (self : tools) {W} (h : W -> request -> http_outcome * W)
  (checked deployments built : json) (w w' : W) (t : list request) :
  truthy checked = true ->
  run h (_build_environment_statuses py_repr self checked deployments) w
  = (Ok built, w', t) ->
  exists envs ds statuses,
    checked = JList envs /\ py_iter deployments = Ret ds /\
    built = JList statuses /\
    map status_environment statuses
    = map environment_summary (filter (has_deployment ds) envs).
Proof.
  intros Htruthy H. unfold _build_environment_statuses in H.
  apply run_bind_ok in H as (envs & w1 & t1 & t2 & Hiter & H & _).
  apply run_bind_ok in H as (statuses & w2 & t3 & t4 & Hbuilt & H & _).
  rewrite run_ret in H. injection H as <- _ _.
  apply run_iter in Hiter as (Hiter & -> & ->).
  assert (Hds : exists ds, py_iter deployments = Ret ds).
  { destruct envs as [| env envs].
    - exfalso. clear - Htruthy Hiter.
      destruct checked as [| | | | [|] | [|] | [|]]; discriminate.
    - exact (build_statuses_iterates _ _ _ _ _ _ _ _ _ _ _ Hbuilt). }
  destruct Hds as [ds Hds].
  destruct (build_statuses_spec _ _ _ _ _ _ Hds _ _ _ _ _ Hbuilt)
    as (added & Hadded & Hmap & Hobjects).
  cbn [app] in Hadded. subst added.
  destruct (iterated_objects _ _ Htruthy Hiter Hobjects) as [-> _].
  exists envs, ds, statuses. auto.
Qed.

(** C7.  Every run of [check_deployment_status] that returns a
    success-shaped payload went through all the steps: space, project and
    release resolved, the environments to check came as a list [envs],
    the deployments of the release as a sequence [ds], and the statuses
    were built from them.  In its payload [deployment_statuses] holds one
    entry for each environment of [envs] that some deployment of [ds]
    targets, in the order of [envs], and none for the others;
    [deployed_count] and [environments_with_deployments] both are the
    length of [deployment_statuses], and [total_environments_checked] is
    the length of [envs].  With no matching deployment at all,
    [deployment_statuses] is empty and [deployed_count] is 0. *)
Theorem check_status_reports_deployed_only {sm : str_methods} :
  forall (py_repr : json -> string) (self : tools)
         (W : Type) (h : W -> request -> http_outcome * W)
         (project_name : string)
         (release_version environment_name space_name : option string)
         (w0 w' : W) (out : json_text) (sent : list request),
    run h (check_deployment_status py_repr self project_name release_version
                                   environment_name space_name) w0
    = (Ok out, w', sent) ->
    is_success out = true ->
    exists (space space_id project project_id : json)
           (releases_response releases release release_id : json)
           (deployments_response deployments : json)
           (envs ds statuses : list json) (w1 w2 w3 w4 w5 : W)
           (t1 t2 t3 t4 t5 t6 : list request),
      (* the steps of the run *)
      run h (_get_space self (Some (default_arg "Default" space_name))) w0
      = (Ok space, w1, t1) /\
      py_getitem space "Id" = Ret space_id /\
      run h (_get_by_name self (str py_repr space_id ++ "/projects/all")
                          project_name) w1
      = (Ok project, w2, t2) /\
      py_getitem project "Id" = Ret project_id /\
      run h (_get_project_releases py_repr self space_id project_id) w2
      = (Ok releases_response, w3, t3) /\
      py_get releases_response "Items" (JList []) = Ret releases /\
      _find_release releases
        (normalize_optional (default_arg "" release_version))
      = Ret release /\
      py_getitem release "Id" = Ret release_id /\
      run h (_get_environments_to_check py_repr self space_id
               (normalize_optional (default_arg "" environment_name))) w3
      = (Ok (JList envs), w4, t4) /\
      run h (_make_request self
               (str py_repr space_id ++ "/releases/" ++ str py_repr release_id
                ++ "/deployments") None None) w4
      = (Ok deployments_response, w5, t5) /\
      py_get deployments_response "Items" (JList []) = Ret deployments /\
      py_iter deployments = Ret ds /\
      run h (_build_environment_statuses py_repr self (JList envs) deployments)
          w5
      = (Ok (JList statuses), w', t6) /\
      sent = (t1 ++ t2 ++ t3 ++ t4 ++ t5 ++ t6)%list /\
      (* what the payload says *)
      field (dumps_data out) "deployment_statuses" = JList statuses /\
      map status_environment statuses
      = map environment_summary (filter (has_deployment ds) envs) /\
      field (dumps_data out) "summary"
      = JDict [("total_environments_checked",
                JInt (Z.of_nat (List.length envs)));
               ("deployed_count", JInt (Z.of_nat (List.length statuses)));
               ("environments_with_deployments",
                JInt (Z.of_nat (List.length statuses)))] /\
      (forallb (fun env => negb (has_deployment ds env)) envs = true ->
       statuses = [] /\
       field (field (dumps_data out) "summary") "deployed_count" = JInt 0).
Proof.
  intros py_repr self W h project_name release_version environment_name
         space_name w0 w' out sent H Hsuccess.
  unfold check_deployment_status in H.
  run_inv H;
    try (rewrite error_is_no_success in Hsuccess; discriminate);
    try (erewrite failed_is_no_success in Hsuccess by eassumption; discriminate);
    try (cbn in Hsuccess; discriminate).
  clear Hsuccess.
  repeat match goal with
  | Hp : run _ (py_getitem _ _) _ = (Ok _, _, _) |- _ =>
      apply run_getitem in Hp as (Hp & -> & ->)
  | Hp : run _ (py_get _ _ _) _ = (Ok _, _, _) |- _ =>
      apply run_get in Hp as (? & -> & -> & ->)
  | Hp : run _ (py_len _) _ = (Ok _, _, _) |- _ =>
      apply (run_pure _ _ _ _ _ _) in Hp as (Hp & -> & ->);
      [| match goal with |- pure (py_len ?v) => destruct v; exact I end]
  | Hp : run _ (py_contains _ _) _ = (Ok _, _, _) |- _ =>
      apply (run_pure _ _ _ _ _ _) in Hp as (Hp & -> & ->);
      [| match goal with |- pure (py_contains _ ?v) => destruct v; exact I end]
  | Hp : run _ (_find_release _ _) _ = (Ok _, _, _) |- _ =>
      apply (run_pure _ _ _ _ _ _ (find_release_pure _ _)) in Hp
        as (Hp & -> & ->)
  | Hp : negb _ = false |- _ => apply negb_false_iff in Hp
  | H1 : ?m = Ret ?a, H2 : ?m = Ret ?b |- _ =>
      first [ constr_eq a b; clear H2
            | rewrite H1 in H2; injection H2 as <- ]
  end.
  match goal with
  | Hspace : run _ (_get_space _ _) _ = (Ok ?space, ?w1, ?t1),
    Hsid : py_getitem ?space "Id" = Ret ?sid,
    Hproject : run _ (_get_by_name _ _ _) _ = (Ok ?project, ?w2, ?t2),
    Hpid : py_getitem ?project "Id" = Ret ?pid,
    Hreleases : run _ (_get_project_releases _ _ _ _) _ = (Ok ?rr, ?w3, ?t3),
    Hrobj : is_object ?rr = true,
    Hfind : _find_release _ _ = Ret ?release,
    Hrid : py_getitem ?release "Id" = Ret ?rid,
    Hchecked : run _ (_get_environments_to_check _ _ _ _) _
               = (Ok ?checked, ?w4, ?t4),
    Htruthy : truthy ?checked = true,
    Hfetched : run _ (_make_request _ _ _ _) _ = (Ok ?dr, ?w5, ?t5),
    Hdobj : is_object ?dr = true,
    Hbuilt : run _ (_build_environment_statuses _ _ ?checked ?deployments) _
             = (Ok ?built, _, ?t6) |- _ =>
      destruct (build_environment_statuses_spec _ _ _ _ _ _ _ _ _ Htruthy Hbuilt)
        as (envs & ds & statuses & -> & Hds & -> & Hmap);
      exists space, sid, project, pid, rr, (field_or rr "Items" (JList [])),
             release, rid, dr, deployments, envs, ds, statuses,
             w1, w2, w3, w4, w5, t1, t2, t3, t4, t5, t6;
      repeat match goal with
      | Hp : py_len (JList _) = Ret _ |- _ =>
          cbn [py_len] in Hp; injection Hp as <-
      end;
      repeat (split; [first [ eassumption
                            | exact (py_get_object _ _ _ Hrobj)
                            | exact (py_get_object _ _ _ Hdobj)
                            | cbn [app]; rewrite ?app_nil_r; reflexivity
                            | reflexivity ] |]);
      intros Hnone; rewrite (no_deployment_no_status _ _ _ Hnone Hmap);
      split; reflexivity
  end.
Qed.

(** *** Example: one environment out of two has the release *)

Example check_status_two_environments :
  run status_remote
      (check_deployment_status Demo.repr Demo.self "MyApp" None None None) tt
  = (Ok status_out, tt, status_sent).
Proof. reflexivity. Qed.

Lemma check_status_reports_deployed_only_witness :
  exists (space space_id project project_id : json)
         (releases_response releases release release_id : json)
         (deployments_response deployments : json)
         (envs ds statuses : list json) (w1 w2 w3 w4 w5 : unit)
         (t1 t2 t3 t4 t5 t6 : list request),
    run status_remote
        (_get_space Demo.self (Some (default_arg "Default" None))) tt
    = (Ok space, w1, t1) /\
    py_getitem space "Id" = Ret space_id /\
    run status_remote
        (_get_by_name Demo.self (str Demo.repr space_id ++ "/projects/all")
                      "MyApp") w1
    = (Ok project, w2, t2) /\
    py_getitem project "Id" = Ret project_id /\
    run status_remote
        (_get_project_releases Demo.repr Demo.self space_id project_id) w2
    = (Ok releases_response, w3, t3) /\
    py_get releases_response "Items" (JList []) = Ret releases /\
    _find_release releases (normalize_optional (default_arg "" None))
    = Ret release /\
    py_getitem release "Id" = Ret release_id /\
    run status_remote
        (_get_environments_to_check Demo.repr Demo.self space_id
           (normalize_optional (default_arg "" None))) w3
    = (Ok (JList envs), w4, t4) /\
    run status_remote
        (_make_request Demo.self
           (str Demo.repr space_id ++ "/releases/" ++ str Demo.repr release_id
            ++ "/deployments") None None) w4
    = (Ok deployments_response, w5, t5) /\
    py_get deployments_response "Items" (JList []) = Ret deployments /\
    py_iter deployments = Ret ds /\
    run status_remote
        (_build_environment_statuses Demo.repr Demo.self (JList envs)
                                     deployments) w5
    = (Ok (JList statuses), tt, t6) /\
    status_sent = (t1 ++ t2 ++ t3 ++ t4 ++ t5 ++ t6)%list /\
    field (dumps_data status_out) "deployment_statuses" = JList statuses /\
    map status_environment statuses
    = map environment_summary (filter (has_deployment ds) envs) /\
    field (dumps_data status_out) "summary"
    = JDict [("total_environments_checked",
              JInt (Z.of_nat (List.length envs)));
             ("deployed_count", JInt (Z.of_nat (List.length statuses)));
             ("environments_with_deployments",
              JInt (Z.of_nat (List.length statuses)))] /\
    (forallb (fun env => negb (has_deployment ds env)) envs = true ->
     statuses = [] /\
     field (field (dumps_data status_out) "summary") "deployed_count" = JInt 0).
Proof.
  exact (check_status_reports_deployed_only Demo.repr Demo.self unit
           status_remote "MyApp" None None None tt tt status_out status_sent
           eq_refl eq_refl).
Defined.

(** * Further properties

    What the code does beyond the properties above: its configuration, the
    requests it can send, what its lookups return, and the outcomes of
    the tools step by step. *)

(** ** The configuration: [from_env] and the tools built from it *)

Lemma list_of_append (s t : string) :
  list_ascii_of_string (s ++ t)
  = (list_ascii_of_string s ++ list_ascii_of_string t)%list.
Proof. induction s as [| c s IH]; cbn; [reflexivity | now rewrite IH]. Qed.

Lemma string_of_app (l m : list ascii) :
  string_of_list_ascii (l ++ m)
  = string_of_list_ascii l ++ string_of_list_ascii m.
Proof. induction l as [| c l IH]; cbn; [reflexivity | now rewrite IH]. Qed.

Lemma rev_rev (s : string) : PyStr.rev (PyStr.rev s) = s.
Proof.
  unfold PyStr.rev. rewrite list_ascii_of_string_of_list_ascii, rev_involutive.
  apply string_of_list_ascii_of_string.
Qed.

Lemma rev_append (s t : string) :
  PyStr.rev (s ++ t) = PyStr.rev t ++ PyStr.rev s.
Proof.
  unfold PyStr.rev. now rewrite list_of_append, rev_app_distr, string_of_app.
Qed.

Lemma prefix_append (s t : string) : String.prefix s (s ++ t) = true.
Proof.
  induction s as [| c s IH]; cbn.
  - destruct t; reflexivity.
  - destruct (ascii_dec c c); [exact IH | congruence].
Qed.

Lemma endswith_append (s suffix : string) :
  PyStr.endswith suffix (s ++ suffix) = true.
Proof. unfold PyStr.endswith. rewrite rev_append. apply prefix_append. Qed.

Lemma prefix_split (s t : string) :
  String.prefix s t = true -> exists u, t = s ++ u.
Proof.
  revert t. induction s as [| c s IH]; intros t H.
  - exists t. reflexivity.
  - destruct t as [| d t]; [discriminate |]. cbn in H.
    destruct (ascii_dec c d) as [-> |]; [| discriminate].
    destruct (IH _ H) as [u ->]. exists u. reflexivity.
Qed.

(** A string that ends with ["/api"] has no slash to lose at its end. *)
Lemma rstrip_api (s : string) :
  PyStr.endswith "/api" s = true -> PyStr.rstrip_slash s = s.
Proof.
  unfold PyStr.endswith, PyStr.rstrip_slash, PyStr.rstrip_while. intros H.
  apply prefix_split in H as [u Hu].
  change (PyStr.rev "/api") with "ipa/" in Hu. rewrite Hu.
  change (PyStr.lstrip_while (Ascii.eqb "/") ("ipa/" ++ u)) with ("ipa/" ++ u).
  rewrite <- Hu. apply rev_rev.
Qed.

Lemma normalized_url_api (url : string) :
  PyStr.endswith "/api" (normalized_url url) = true.
Proof.
  unfold normalized_url.
  destruct (PyStr.endswith "/api" (PyStr.rstrip_slash url)) eqn:E;
    [exact E | apply endswith_append].
Qed.

Lemma normalized_url_fixed (url : string) :
  normalized_url (normalized_url url) = normalized_url url.
Proof.
  pose proof (normalized_url_api url) as H.
  unfold normalized_url at 1. rewrite (rstrip_api _ H), H. reflexivity.
Qed.

Lemma from_env_inr (getenv : string -> option string)
  (config : OctopusDeployConfig) :
  from_env getenv = inr config ->
  exists url key,
    getenv "OCTOPUS_URL" = Some url /\ PyStr.nonempty url = true /\
    getenv "OCTOPUS_API_KEY" = Some key /\ PyStr.nonempty key = true /\
    config = mk_config (Some (normalized_url url)) (Some key).
Proof.
  unfold from_env.
  destruct (getenv "OCTOPUS_URL") as [url |] eqn:Hurl; [| discriminate].
  destruct (getenv "OCTOPUS_API_KEY") as [key |] eqn:Hkey;
    cbn [opt_truthy]; destruct (PyStr.nonempty url) eqn:Hu;
    try discriminate.
  destruct (PyStr.nonempty key) eqn:Hk; [| discriminate].
  cbn [negb orb default_arg]. intros H. injection H as <-.
  exists url, key. repeat split; try assumption.
  unfold normalized_url.
  destruct (PyStr.endswith "/api" (PyStr.rstrip_slash url)); reflexivity.
Qed.

Lemma api_nonempty (s : string) :
  PyStr.endswith "/api" s = true -> PyStr.nonempty s = true.
Proof. destruct s; [discriminate | reflexivity]. Qed.

(** X1.  [from_env] ends the process exactly when one of the two
    variables is unset or empty; the exit status is 1, and the example it
    prints names the variables that are missing and no other. *)
Theorem from_env_exits (getenv : string -> option string) :
  (opt_truthy (getenv "OCTOPUS_URL") = false \/
   opt_truthy (getenv "OCTOPUS_API_KEY") = false ->
   exists e, from_env getenv = inl e) /\
  (forall e,
      from_env getenv = inl e ->
      exit_code e = 1%Z /\
      (opt_truthy (getenv "OCTOPUS_URL") = false \/
       opt_truthy (getenv "OCTOPUS_API_KEY") = false) /\
      (In export_url (stderr e)
       <-> opt_truthy (getenv "OCTOPUS_URL") = false) /\
      (In export_api_key (stderr e)
       <-> opt_truthy (getenv "OCTOPUS_API_KEY") = false)).
Proof.
  unfold from_env.
  destruct (opt_truthy (getenv "OCTOPUS_URL")) eqn:Hurl;
    destruct (opt_truthy (getenv "OCTOPUS_API_KEY")) eqn:Hkey;
    cbn [negb orb]; (split; [intros [H | H]; try discriminate; eauto |]);
    intros e He; try discriminate; injection He as <-; cbn [exit_code stderr];
    (split; [reflexivity |]); (split; [auto |]);
    split; split; intros H; try reflexivity; try discriminate;
    cbn [app In] in *; intuition discriminate.
Qed.

Lemma from_env_set (getenv : string -> option string) (url key : string) :
  getenv "OCTOPUS_URL" = Some url -> PyStr.nonempty url = true ->
  getenv "OCTOPUS_API_KEY" = Some key -> PyStr.nonempty key = true ->
  from_env getenv = inr (mk_config (Some (normalized_url url)) (Some key)).
Proof.
  intros Hurl Hu Hkey Hk. unfold from_env, normalized_url.
  rewrite Hurl, Hkey. cbn [opt_truthy]. rewrite Hu, Hk.
  cbn [negb orb default_arg].
  destruct (PyStr.endswith "/api" (PyStr.rstrip_slash url)); reflexivity.
Qed.

(** X2.  With both variables set, [from_env] returns a configuration
    whose key is the variable as it is and whose base URL is the variable
    without its trailing slashes, followed by ["/api"] unless that
    already ends it.  That base URL ends with ["/api"], has no slash at
    its end, and is a normal form: an environment that gives it as
    [OCTOPUS_URL] is configured the same. *)
Theorem from_env_normal_form (getenv : string -> option string)
  (url key : string) :
  getenv "OCTOPUS_URL" = Some url -> PyStr.nonempty url = true ->
  getenv "OCTOPUS_API_KEY" = Some key -> PyStr.nonempty key = true ->
  exists base,
    from_env getenv = inr (mk_config (Some base) (Some key)) /\
    base = (if PyStr.endswith "/api" (PyStr.rstrip_slash url)
            then PyStr.rstrip_slash url
            else PyStr.rstrip_slash url ++ "/api") /\
    PyStr.endswith "/api" base = true /\
    PyStr.rstrip_slash base = base /\
    from_env (with_url base getenv) = from_env getenv.
Proof.
  intros Hurl Hu Hkey Hk. exists (normalized_url url).
  pose proof (normalized_url_api url) as Hapi.
  split; [exact (from_env_set _ _ _ Hurl Hu Hkey Hk) |].
  split; [reflexivity |]. split; [exact Hapi |].
  split; [exact (rstrip_api _ Hapi) |].
  rewrite (from_env_set getenv url key Hurl Hu Hkey Hk).
  rewrite (from_env_set (with_url (normalized_url url) getenv)
             (normalized_url url) key);
    [now rewrite normalized_url_fixed | reflexivity | | exact Hkey | exact Hk].
  exact (api_nonempty _ Hapi).
Qed.

Lemma from_env_normal_form_witness :
  exists base,
    from_env demo_env = inr (mk_config (Some base) (Some "API-KEY")) /\
    base = (if PyStr.endswith "/api" (PyStr.rstrip_slash "https://octopus.example/")
            then PyStr.rstrip_slash "https://octopus.example/"
            else PyStr.rstrip_slash "https://octopus.example/" ++ "/api") /\
    PyStr.endswith "/api" base = true /\
    PyStr.rstrip_slash base = base /\
    from_env (with_url base demo_env) = from_env demo_env.
Proof.
  exact (from_env_normal_form demo_env "https://octopus.example/" "API-KEY"
           eq_refl eq_refl eq_refl eq_refl).
Defined.

(** X3.  The tools of a server whose configuration [from_env]
    returned: their construction does not raise, they keep the base URL
    of the configuration as it is, they have credentials, and every call
    of [_make_request] sends one request, to the endpoint under that base
    URL, and returns what the adapter makes of the answer. *)
Theorem configured_tools_send {sm : str_methods}
  (getenv : string -> option string)
  (config : OctopusDeployConfig) :
  from_env getenv = inr config ->
  exists self,
    BaseOctopusTools_of_config config = Ret self /\
    config_base_url config = Some (base_url self) /\
    config_api_key config = api_key self /\
    credentials_missing self = false /\
    forall (W : Type) (h : W -> request -> http_outcome * W) (w : W)
           (endpoint : string),
      run h (_make_request self endpoint None None) w
      = (Ok (response_value (fst (h w (get_request self endpoint)))),
         snd (h w (get_request self endpoint)),
         [get_request self endpoint]).
Proof.
  intros H. apply from_env_inr in H as (url & key & _ & _ & _ & Hk & ->).
  pose proof (normalized_url_api url) as Hapi.
  exists (mk_tools (normalized_url url) (Some key)).
  assert (Hcred : credentials_missing (mk_tools (normalized_url url) (Some key))
                  = false).
  { unfold credentials_missing. cbn [base_url api_key opt_truthy].
    now rewrite (api_nonempty _ Hapi), Hk. }
  split; [| split; [| split; [| split]]]; try reflexivity.
  - cbn. unfold BaseOctopusTools_init. now rewrite (rstrip_api _ Hapi).
  - exact Hcred.
  - intros W h w endpoint. unfold _make_request.
    fold (credentials_missing (mk_tools (normalized_url url) (Some key))).
    rewrite Hcred. cbn [default_arg].
    rewrite (str_upper_ascii "GET" eq_refl).
    change (String.eqb (PyStr.ascii_upper "GET") "POST") with false. cbv iota.
    fold (get_request (mk_tools (normalized_url url) (Some key)) endpoint).
    cbn [run].
    destruct (h w (get_request (mk_tools (normalized_url url) (Some key))
                     endpoint)) as [o w1].
    reflexivity.
Qed.

Lemma configured_tools_send_witness :
  exists self,
    BaseOctopusTools_of_config
      (mk_config (Some "https://octopus.example/api") (Some "API-KEY"))
    = Ret self /\
    Some "https://octopus.example/api" = Some (base_url self) /\
    Some "API-KEY" = api_key self /\
    credentials_missing self = false /\
    forall (W : Type) (h : W -> request -> http_outcome * W) (w : W)
           (endpoint : string),
      run h (_make_request self endpoint None None) w
      = (Ok (response_value (fst (h w (get_request self endpoint)))),
         snd (h w (get_request self endpoint)),
         [get_request self endpoint]).
Proof.
  exact (configured_tools_send demo_env
           (mk_config (Some "https://octopus.example/api") (Some "API-KEY"))
           eq_refl).
Defined.

Lemma from_env_exits_witness :
  exists e, from_env (fun _ => None) = inl e.
Proof.
  exact (proj1 (from_env_exits (fun _ => None)) (or_introl eq_refl)).
Defined.

(** ** The requests the tools send *)

Lemma every_request_pure {A} (P : request -> Prop) (m : io A) :
  pure m -> every_request P m.
Proof. destruct m; cbn; [auto | auto | contradiction]. Qed.

Lemma every_request_bind {A B} (P : request -> Prop) (m : io A)
  (f : A -> io B) :
  every_request P m -> (forall a, every_request P (f a)) ->
  every_request P (bind m f).
Proof.
  induction m as [a | e | rq k IH]; cbn; intros Hm Hf; auto.
  destruct Hm as [Hrq Hk]. split; auto.
Qed.

Lemma every_request_sent {W A} (P : request -> Prop)
  (h : W -> request -> http_outcome * W) (m : io A) :
  every_request P m ->
  forall w, Forall P (snd (run h m w)).
Proof.
  induction m as [a | e | rq k IH]; cbn; intros Hm w; auto.
  destruct Hm as [Hrq Hk]. destruct (h w rq) as [o w1].
  specialize (IH o (Hk o) w1).
  destruct (run h (k o) w1) as [[r w2] sent]. cbn in *. auto.
Qed.

(** *** The primitives send nothing *)

Lemma pure_get v k d : pure (py_get v k d).
Proof. destruct v; exact I. Qed.

Lemma pure_getitem v k : pure (py_getitem v k).
Proof. destruct v as [| | | | | | d]; try exact I. cbn. destruct (dict_get d k); exact I. Qed.

Lemma pure_first v : pure (py_first v).
Proof. destruct v as [| | | | [|] | [|] |]; exact I. Qed.

Lemma pure_contains needle v : pure (py_contains needle v).
Proof. destruct v; exact I. Qed.

Lemma pure_iter v : pure (py_iter v).
Proof. destruct v; exact I. Qed.

Lemma pure_len v : pure (py_len v).
Proof. destruct v; exact I. Qed.

Lemma pure_lower {sm : str_methods} v : pure (py_lower v).
Proof. destruct v; exact I. Qed.

Lemma pure_ret {A} (a : A) : pure (Ret a).
Proof. exact I. Qed.

Lemma pure_raise {A} (e : exn) : pure (@Raise A e).
Proof. exact I. Qed.

Lemma pure_set_contains s v : pure (py_set_contains s v).
Proof. unfold py_set_contains. destruct (hashable v); exact I. Qed.

Lemma pure_set_add s v : pure (py_set_add s v).
Proof. unfold py_set_add. apply pure_bind; [apply pure_set_contains | intros; exact I]. Qed.

Lemma pure_list_or_items v : pure (list_or_items v).
Proof. destruct v; exact I. Qed.

Create HintDb purity.
#[export] Hint Resolve pure_get pure_getitem pure_first pure_contains pure_iter
  pure_len pure_lower pure_ret pure_raise pure_set_contains pure_set_add
  pure_list_or_items find_release_pure : purity.

Ltac purity :=
  repeat first
    [ solve [auto with purity]
    | apply pure_bind; [| intros]
    | match goal with
      | |- pure (if ?b then _ else _) => destruct b
      | |- pure (match ?x with _ => _ end) => destruct x
      end ].

Lemma pure_next_match p xs d :
  (forall x, pure (p x)) -> pure (py_next_match p xs d).
Proof.
  intros Hp. induction xs as [| x xs IH]; cbn; [exact I |].
  apply pure_bind; [apply Hp | intros [|]; [exact I | exact IH]].
Qed.

Lemma pure_name_matches {sm : str_methods} name x : pure (name_matches name x).
Proof. unfold name_matches. purity. Qed.

Lemma pure_collect_env_ids ds : forall ids, pure (collect_env_ids ds ids).
Proof. induction ds as [| d ds IH]; intros ids; cbn; [exact I |]. purity; apply IH. Qed.

Lemma pure_filter_active envs ids :
  forall active, pure (filter_active envs ids active).
Proof.
  induction envs as [| e envs IH]; intros active; cbn; [exact I |].
  purity; apply IH.
Qed.

Lemma pure_deployments_of env_id ds : pure (deployments_of env_id ds).
Proof. induction ds as [| d ds IH]; cbn; [exact I |]. purity. Qed.

#[export] Hint Resolve pure_next_match pure_name_matches pure_collect_env_ids
  pure_filter_active pure_deployments_of : purity.

(** *** What the methods send *)

(** The two methods the tools ask for are told apart whatever
    [str.upper] does elsewhere. *)
Lemma get_is_no_post {sm : str_methods} :
  String.eqb (str_upper "GET") "POST" = false.
Proof. now rewrite (str_upper_ascii "GET" eq_refl). Qed.

Lemma post_is_post {sm : str_methods} :
  String.eqb (str_upper "POST") "POST" = true.
Proof. now rewrite (str_upper_ascii "POST" eq_refl). Qed.

Lemma make_request_reads {sm : str_methods} (self : tools)
  (endpoint : string) :
  every_request (reads self) (_make_request self endpoint None None).
Proof.
  unfold _make_request.
  destruct (negb (PyStr.nonempty (base_url self))
            || negb (opt_truthy (api_key self))); [exact I |].
  cbn [default_arg]. rewrite get_is_no_post.
  cbn. split; [exists endpoint; reflexivity | intros; exact I].
Qed.

Create HintDb reading.
#[export] Hint Resolve make_request_reads : reading.

Ltac reading :=
  repeat first
    [ solve [auto with reading]
    | apply every_request_pure; solve [purity]
    | apply every_request_bind; [| intros]
    | match goal with
      | |- every_request _ (if ?b then _ else _) => destruct b
      | |- every_request _ (match ?x with _ => _ end) => destruct x
      end ].

Lemma get_by_name_reads {sm : str_methods} self uri name :
  every_request (reads self) (_get_by_name self uri name).
Proof. unfold _get_by_name. reading. Qed.
#[export] Hint Resolve get_by_name_reads : reading.

Lemma get_space_reads {sm : str_methods} self space_name :
  every_request (reads self) (_get_space self space_name).
Proof. unfold _get_space. reading. Qed.
#[export] Hint Resolve get_space_reads : reading.

Lemma get_project_releases_reads {sm : str_methods}
  py_repr self space_id project_id :
  every_request (reads self)
                (_get_project_releases py_repr self space_id project_id).
Proof. unfold _get_project_releases. reading. Qed.
#[export] Hint Resolve get_project_releases_reads : reading.

Lemma get_active_environments_reads {sm : str_methods}
  py_repr self space_id project_id :
  every_request (reads self)
                (_get_active_environments py_repr self space_id project_id).
Proof. unfold _get_active_environments. reading. Qed.
#[export] Hint Resolve get_active_environments_reads : reading.

Lemma get_project_details_reads {sm : str_methods}
  py_repr self project_name space_name :
  every_request (reads self)
                (get_project_details py_repr self project_name space_name).
Proof. unfold get_project_details. reading. Qed.

Lemma get_latest_release_reads {sm : str_methods}
  py_repr self project_name space_name :
  every_request (reads self)
                (get_latest_release py_repr self project_name space_name).
Proof. unfold get_latest_release. reading. Qed.

Lemma get_environments_to_check_reads {sm : str_methods}
  py_repr self space_id environment_name :
  every_request (reads self)
    (_get_environments_to_check py_repr self space_id environment_name).
Proof. unfold _get_environments_to_check. reading. Qed.
#[export] Hint Resolve get_environments_to_check_reads : reading.

Lemma get_deployment_status_reads {sm : str_methods} py_repr self deployment :
  every_request (reads self) (_get_deployment_status py_repr self deployment).
Proof. unfold _get_deployment_status. reading. Qed.
#[export] Hint Resolve get_deployment_status_reads : reading.

Lemma build_statuses_reads {sm : str_methods} py_repr self deployments envs :
  forall acc,
    every_request (reads self) (build_statuses py_repr self envs deployments acc).
Proof.
  induction envs as [| env envs IH]; intros acc; cbn [build_statuses];
    [exact I |].
  reading; apply IH.
Qed.
#[export] Hint Resolve build_statuses_reads : reading.

Lemma check_deployment_status_reads {sm : str_methods}
  py_repr self project_name release_version
  environment_name space_name :
  every_request (reads self)
    (check_deployment_status py_repr self project_name release_version
                             environment_name space_name).
Proof.
  unfold check_deployment_status, _build_environment_statuses. reading.
Qed.

Lemma select_packages_reads {sm : str_methods} py_repr self space_id packages :
  forall selected,
    every_request (reads self)
                  (select_packages py_repr self space_id packages selected).
Proof.
  induction packages as [| package rest IH]; intros selected;
    cbn [select_packages]; [exact I |].
  reading; apply IH.
Qed.
#[export] Hint Resolve select_packages_reads : reading.

(** X4.  Whatever the remote answers, every request that
    [get_project_details], [get_latest_release] and
    [check_deployment_status] send is a GET under the configured base
    URL, with the configured key and no body: the three tools change
    nothing. *)
Theorem read_only_tools {sm : str_methods}
  (py_repr : json -> string) (self : tools)
  (W : Type) (h : W -> request -> http_outcome * W) (w : W)
  (project_name : string)
  (release_version environment_name space_name : option string) :
  Forall (reads self)
         (snd (run h (get_project_details py_repr self project_name space_name)
                   w)) /\
  Forall (reads self)
         (snd (run h (get_latest_release py_repr self project_name space_name)
                   w)) /\
  Forall (reads self)
         (snd (run h (check_deployment_status py_repr self project_name
                        release_version environment_name space_name) w)).
Proof.
  repeat split; apply every_request_sent.
  - apply get_project_details_reads.
  - apply get_latest_release_reads.
  - apply check_deployment_status_reads.
Qed.

(** *** Reads, then at most one write *)

Lemma rtw_pure {A} self Q (m : io A) : pure m -> reads_then_writes self Q m.
Proof. destruct m; cbn; [auto | auto | contradiction]. Qed.

Lemma rtw_reads_bind {A B} self Q (m : io A) (f : A -> io B) :
  every_request (reads self) m ->
  (forall a, reads_then_writes self Q (f a)) ->
  reads_then_writes self Q (bind m f).
Proof.
  induction m as [a | e | rq k IH]; cbn; intros Hm Hf; auto.
  destruct Hm as [Hrq Hk]. left. split; auto.
Qed.

Lemma rtw_post {sm : str_methods} {B} self (Q : request -> Prop) endpoint
  data (f : json -> io B) :
  Q (post_request self endpoint data) ->
  (forall a, pure (f a)) ->
  reads_then_writes self Q
    (bind (_make_request self endpoint (Some "POST") (Some data)) f).
Proof.
  intros HQ Hf. unfold _make_request.
  destruct (negb (PyStr.nonempty (base_url self))
            || negb (opt_truthy (api_key self))).
  - cbn. apply rtw_pure, Hf.
  - cbn [default_arg]. rewrite post_is_post.
    cbn. right. split; [exact HQ | intros o; apply Hf].
Qed.

Lemma pure_sends_nothing {W A} (h : W -> request -> http_outcome * W)
  (m : io A) (w : W) :
  pure m -> snd (run h m w) = [].
Proof. destruct m; cbn; [auto | auto | contradiction]. Qed.

Lemma rtw_sent {W A} self Q (h : W -> request -> http_outcome * W)
  (m : io A) :
  reads_then_writes self Q m ->
  forall w, exists gets posts,
    snd (run h m w) = (gets ++ posts)%list /\
    Forall (reads self) gets /\
    (posts = [] \/ exists rq, posts = [rq] /\ Q rq).
Proof.
  induction m as [a | e | rq k IH]; cbn; intros Hm w.
  - exists [], []. auto.
  - exists [], []. auto.
  - destruct (h w rq) as [o w1] eqn:Hh.
    destruct Hm as [[Hrq Hk] | [Hrq Hk]].
    + destruct (IH o (Hk o) w1) as (gets & posts & Hs & Hg & Hp).
      destruct (run h (k o) w1) as [[r w2] sent]. cbn in *. subst sent.
      exists (rq :: gets), posts. auto.
    + pose proof (pure_sends_nothing h (k o) w1 (Hk o)) as Hs.
      destruct (run h (k o) w1) as [[r w2] sent]. cbn in *. subst sent.
      exists [], [rq]. repeat split; auto. right. eauto.
Qed.

Ltac writing :=
  repeat first
    [ apply rtw_pure; solve [purity]
    | apply rtw_reads_bind; [solve [reading] | intros]
    | apply rtw_post; [| intros; solve [purity]]
    | match goal with
      | |- reads_then_writes _ _ (if ?b then _ else _) => destruct b
      | |- reads_then_writes _ _ (match ?x with _ => _ end) => destruct x
      end ].

Lemma deploy_release_rtw {sm : str_methods}
  py_repr self project_name environment_name
  release_version space_name :
  reads_then_writes self (creates_deployment py_repr self)
    (deploy_release py_repr self project_name environment_name release_version
                    space_name).
Proof.
  unfold deploy_release. writing.
  red. eauto.
Qed.

Lemma create_release_rtw {sm : str_methods}
  py_repr self project_name version channel_name
  space_name :
  reads_then_writes self (creates_release py_repr self version)
    (create_release py_repr self project_name version channel_name space_name).
Proof.
  unfold create_release. writing.
  red. eauto 10.
Qed.

(** X5.  Whatever the remote answers, the requests of
    [deploy_release] are reads followed by at most one request, the POST
    that creates the deployment, and those of [create_release] are reads
    followed by at most one request, the POST that creates the release
    with the version asked for.  Nothing is sent after the POST. *)
Theorem writing_tools_write_once {sm : str_methods}
  (py_repr : json -> string) (self : tools)
  (W : Type) (h : W -> request -> http_outcome * W) (w : W)
  (project_name environment_name version : string)
  (release_version channel_name space_name : option string) :
  (exists gets posts,
      snd (run h (deploy_release py_repr self project_name environment_name
                    release_version space_name) w)
      = (gets ++ posts)%list /\
      Forall (reads self) gets /\
      (posts = [] \/
       exists rq, posts = [rq] /\ creates_deployment py_repr self rq)) /\
  (exists gets posts,
      snd (run h (create_release py_repr self project_name version
                    channel_name space_name) w)
      = (gets ++ posts)%list /\
      Forall (reads self) gets /\
      (posts = [] \/
       exists rq, posts = [rq] /\ creates_release py_repr self version rq)).
Proof.
  split; apply rtw_sent.
  - apply deploy_release_rtw.
  - apply create_release_rtw.
Qed.

(** *** How many requests *)

Lemma at_most_pure {A} n (m : io A) : pure m -> at_most n m.
Proof. destruct m; cbn; [auto | auto | contradiction]. Qed.

Lemma at_most_le {A} (m : io A) :
  forall n n', n <= n' -> at_most n m -> at_most n' m.
Proof.
  induction m as [x | e | rq k IH]; intros n n' Hle Hm; cbn in *; auto.
  destruct n as [| n]; [contradiction |].
  destruct n' as [| n']; [lia |].
  intros o. apply (IH o n n'); [lia | apply Hm].
Qed.

Lemma at_most_bind {A B} (a b : nat) (m : io A) (f : A -> io B) :
  at_most a m -> (forall x, at_most b (f x)) -> at_most (a + b) (bind m f).
Proof.
  revert a. induction m as [x | e | rq k IH]; intros a Hm Hf; cbn.
  - apply (at_most_le _ b); [lia | apply Hf].
  - exact I.
  - destruct a as [| a]; [contradiction |]. cbn in *. intros o. apply IH; auto.
Qed.

Lemma at_most_sent {W A} (h : W -> request -> http_outcome * W) (m : io A) :
  forall n w, at_most n m -> List.length (snd (run h m w)) <= n.
Proof.
  induction m as [x | e | rq k IH]; intros n w Hm; cbn in *; try lia.
  destruct n as [| n]; [contradiction |].
  destruct (h w rq) as [o w1]. specialize (IH o n w1 (Hm o)).
  destruct (run h (k o) w1) as [[r w2] sent]. cbn in *. lia.
Qed.

Lemma make_request_once {sm : str_methods} self endpoint method data :
  at_most 1 (_make_request self endpoint method data).
Proof.
  unfold _make_request.
  destruct (negb (PyStr.nonempty (base_url self))
            || negb (opt_truthy (api_key self))); [exact I |].
  destruct (String.eqb (str_upper (default_arg "GET" method)) "POST");
    cbn; intros o; exact I.
Qed.

Create HintDb counting.
#[export] Hint Resolve make_request_once : counting.

(** One step of a budget: what is bound sends nothing, or one request, or
    is a method whose own budget is known. *)
Ltac counting :=
  repeat first
    [ apply at_most_pure; solve [purity]
    | match goal with
      | |- at_most ?n (bind _ _) =>
          first
            [ apply (at_most_bind 0 n); [apply at_most_pure; solve [purity] |]
            | match n with
              | S ?n' => apply (at_most_bind 1 n'); [solve [auto with counting] |]
              end
            | match n with
              | S (S (S ?n')) =>
                  apply (at_most_bind 3 n'); [solve [auto with counting] |]
              end ];
          intros
      | |- at_most _ (if ?b then _ else _) => destruct b
      | |- at_most _ (match ?x with _ => _ end) => destruct x
      end ].

Lemma get_by_name_once {sm : str_methods}
  self uri name : at_most 1 (_get_by_name self uri name).
Proof. unfold _get_by_name. counting. Qed.
#[export] Hint Resolve get_by_name_once : counting.

Lemma get_space_once {sm : str_methods}
  self space_name : at_most 1 (_get_space self space_name).
Proof. unfold _get_space. counting. Qed.
#[export] Hint Resolve get_space_once : counting.

Lemma get_project_releases_once {sm : str_methods}
  py_repr self space_id project_id :
  at_most 1 (_get_project_releases py_repr self space_id project_id).
Proof. unfold _get_project_releases. auto with counting. Qed.
#[export] Hint Resolve get_project_releases_once : counting.

Lemma get_active_environments_thrice {sm : str_methods}
  py_repr self space_id project_id :
  at_most 3 (_get_active_environments py_repr self space_id project_id).
Proof. unfold _get_active_environments. counting. Qed.
#[export] Hint Resolve get_active_environments_thrice : counting.

Lemma get_project_details_budget {sm : str_methods}
  py_repr self project_name space_name :
  at_most 5 (get_project_details py_repr self project_name space_name).
Proof. unfold get_project_details. counting. Qed.

Lemma get_latest_release_budget {sm : str_methods}
  py_repr self project_name space_name :
  at_most 3 (get_latest_release py_repr self project_name space_name).
Proof. unfold get_latest_release. counting. Qed.

Lemma deploy_release_budget {sm : str_methods}
  py_repr self project_name environment_name
  release_version space_name :
  at_most 5 (deploy_release py_repr self project_name environment_name
                            release_version space_name).
Proof. unfold deploy_release. counting. Qed.

(** X6.  Whatever the remote answers, [get_latest_release] sends at
    most 3 requests, [get_project_details] at most 5 and [deploy_release]
    at most 5. *)
Theorem request_budgets {sm : str_methods}
  (py_repr : json -> string) (self : tools)
  (W : Type) (h : W -> request -> http_outcome * W) (w : W)
  (project_name environment_name : string)
  (release_version space_name : option string) :
  List.length
    (snd (run h (get_latest_release py_repr self project_name space_name) w))
  <= 3 /\
  List.length
    (snd (run h (get_project_details py_repr self project_name space_name) w))
  <= 5 /\
  List.length
    (snd (run h (deploy_release py_repr self project_name environment_name
                   release_version space_name) w))
  <= 5.
Proof.
  repeat split; apply at_most_sent.
  - apply get_latest_release_budget.
  - apply get_project_details_budget.
  - apply deploy_release_budget.
Qed.

(** ** Running a method forward, along what is known of its steps *)

Ltac forward :=
  repeat first
    [ rewrite run_ret
    | progress cbn [negb orb andb bind default_arg]
    | match goal with
      | H : run ?h ?m ?w = _ |- context [run ?h (bind ?m _) ?w] =>
          rewrite run_bind, H
      | H : ?m = Ret _ |- context [bind ?m _] => rewrite H
      | H : truthy ?x = _ |- context [truthy ?x] => rewrite H
      | H : PyStr.nonempty ?x = _ |- context [PyStr.nonempty ?x] => rewrite H
      end ];
  rewrite ?app_nil_r.

(** X7.  A tool called without a required argument returns
    its validation error and does nothing else: the program is the
    returned error, so no request is sent.  [create_release] and
    [deploy_release] need both of their required arguments. *)
Theorem validation_before_requests {sm : str_methods}
  (py_repr : json -> string) (self : tools)
  (project_name environment_name version : string)
  (release_version environment channel_name space_name : option string) :
  get_project_details py_repr self "" space_name
  = Ret (_error_response "project_name is required") /\
  get_latest_release py_repr self "" space_name
  = Ret (_error_response "project_name is required") /\
  check_deployment_status py_repr self "" release_version environment space_name
  = Ret (_error_response "project_name is required") /\
  (project_name = "" \/ version = "" ->
   create_release py_repr self project_name version channel_name space_name
   = Ret (_error_response "project_name and version are required")) /\
  (project_name = "" \/ environment_name = "" ->
   deploy_release py_repr self project_name environment_name release_version
                  space_name
   = Ret (_error_response "project_name and environment_name are required")).
Proof.
  repeat split; try reflexivity.
  - intros [-> | ->]; unfold create_release; cbn [PyStr.nonempty negb orb];
      [reflexivity | now rewrite orb_true_r].
  - intros [-> | ->]; unfold deploy_release; cbn [PyStr.nonempty negb orb];
      [reflexivity | now rewrite orb_true_r].
Qed.

Lemma validation_before_requests_witness :
  create_release Demo.repr Demo.self "MyApp" "" None None
  = Ret (_error_response "project_name and version are required").
Proof.
  exact (proj1 (proj2 (proj2 (proj2
           (validation_before_requests Demo.repr Demo.self "MyApp" "production"
              "" None None None None))))
           (or_intror eq_refl)).
Defined.

Lemma failed_outcome_error (o : http_outcome) :
  failed_outcome o = true -> exists message, response_value o = error_value message.
Proof.
  destruct o as [status_code text body | msg | msg]; cbn; [| eauto | eauto].
  fold (created_or_ok status_code).
  destruct (created_or_ok status_code); [destruct body; [discriminate | eauto] |].
  intros _. destruct (status_code =? 401)%Z; [eauto |].
  destruct (status_code =? 404)%Z; eauto.
Qed.

(** X8.  Entities that cannot be listed are entities that are
    not there: without credentials [_get_by_name] answers [None] and
    sends nothing, and when the one request it sends fails, for whatever
    reason, it answers [None] as well. *)
Theorem get_by_name_masks_failures {sm : str_methods}
  (self : tools) (uri name : string)
  (W : Type) (h : W -> request -> http_outcome * W) (w : W) :
  (credentials_missing self = true ->
   run h (_get_by_name self uri name) w = (Ok JNull, w, [])) /\
  (credentials_missing self = false ->
   failed_outcome (fst (h w (get_request self uri))) = true ->
   run h (_get_by_name self uri name) w
   = (Ok JNull, snd (h w (get_request self uri)), [get_request self uri])).
Proof.
  unfold _get_by_name, _make_request. fold (credentials_missing self).
  split; intros Hcred.
  - rewrite Hcred. reflexivity.
  - rewrite Hcred. cbn [default_arg].
    rewrite (str_upper_ascii "GET" eq_refl).
    change (String.eqb (PyStr.ascii_upper "GET") "POST") with false. cbv iota.
    fold (get_request self uri). cbn [bind run].
    destruct (h w (get_request self uri)) as [o w1]. cbn [fst snd].
    intros Hfailed.
    destruct (failed_outcome_error o Hfailed) as [message ->].
    reflexivity.
Qed.

Lemma get_by_name_masks_failures_witness :
  run details_remote (_get_by_name Demo.self "nowhere" "anything") tt
  = (Ok JNull, tt, [Demo.get "nowhere"]).
Proof.
  exact (proj2 (get_by_name_masks_failures Demo.self "nowhere" "anything" unit
                  details_remote tt) eq_refl eq_refl).
Defined.

(** X9.  When the space is not found, each of the five tools
    returns [Space '<name>' not found], the name being ["Default"] when
    none was given, and sends nothing beyond the lookup of the space. *)
Theorem tools_stop_at_unknown_space {sm : str_methods}
  (py_repr : json -> string) (self : tools)
  (W : Type) (h : W -> request -> http_outcome * W)
  (project_name environment_name version : string)
  (release_version environment channel_name space_name : option string)
  (w0 w1 : W) (space : json) (t1 : list request) :
  PyStr.nonempty project_name = true ->
  PyStr.nonempty environment_name = true ->
  PyStr.nonempty version = true ->
  run h (_get_space self (Some (default_arg "Default" space_name))) w0
  = (Ok space, w1, t1) ->
  truthy space = false ->
  run h (get_project_details py_repr self project_name space_name) w0
  = (Ok (space_not_found space_name), w1, t1) /\
  run h (get_latest_release py_repr self project_name space_name) w0
  = (Ok (space_not_found space_name), w1, t1) /\
  run h (create_release py_repr self project_name version channel_name
                        space_name) w0
  = (Ok (space_not_found space_name), w1, t1) /\
  run h (deploy_release py_repr self project_name environment_name
                        release_version space_name) w0
  = (Ok (space_not_found space_name), w1, t1) /\
  run h (check_deployment_status py_repr self project_name release_version
                                 environment space_name) w0
  = (Ok (space_not_found space_name), w1, t1).
Proof.
  intros Hproject Henvironment Hversion Hspace Hfalsy.
  unfold get_project_details, get_latest_release, create_release,
    deploy_release, check_deployment_status.
  repeat split; forward; reflexivity.
Qed.

Lemma tools_stop_at_unknown_space_witness :
  run details_remote
      (get_project_details Demo.repr Demo.self "MyApp" (Some "Nope")) tt
  = (Ok (space_not_found (Some "Nope")), tt, [Demo.get "spaces/all"]) /\
  run details_remote
      (get_latest_release Demo.repr Demo.self "MyApp" (Some "Nope")) tt
  = (Ok (space_not_found (Some "Nope")), tt, [Demo.get "spaces/all"]) /\
  run details_remote
      (create_release Demo.repr Demo.self "MyApp" "3.0" None (Some "Nope")) tt
  = (Ok (space_not_found (Some "Nope")), tt, [Demo.get "spaces/all"]) /\
  run details_remote
      (deploy_release Demo.repr Demo.self "MyApp" "production" None
                      (Some "Nope")) tt
  = (Ok (space_not_found (Some "Nope")), tt, [Demo.get "spaces/all"]) /\
  run details_remote
      (check_deployment_status Demo.repr Demo.self "MyApp" None None
                               (Some "Nope")) tt
  = (Ok (space_not_found (Some "Nope")), tt, [Demo.get "spaces/all"]).
Proof.
  exact (tools_stop_at_unknown_space Demo.repr Demo.self unit details_remote
           "MyApp" "production" "3.0" None None None (Some "Nope") tt tt JNull
           [Demo.get "spaces/all"] eq_refl eq_refl eq_refl eq_refl eq_refl).
Defined.

(** X10.  When the space is found and the project is not,
    [get_latest_release], [create_release], [deploy_release] and
    [check_deployment_status] return [Project '<name>' not found in
    <space> space] and send nothing beyond the two lookups. *)
Theorem tools_stop_at_unknown_project {sm : str_methods}
  (py_repr : json -> string)
  (self : tools) (W : Type) (h : W -> request -> http_outcome * W)
  (project_name environment_name version : string)
  (release_version environment channel_name space_name : option string)
  (w0 w1 w2 : W) (space space_id project : json) (t1 t2 : list request) :
  PyStr.nonempty project_name = true ->
  PyStr.nonempty environment_name = true ->
  PyStr.nonempty version = true ->
  run h (_get_space self (Some (default_arg "Default" space_name))) w0
  = (Ok space, w1, t1) ->
  truthy space = true ->
  py_getitem space "Id" = Ret space_id ->
  run h (_get_by_name self (str py_repr space_id ++ "/projects/all")
                      project_name) w1
  = (Ok project, w2, t2) ->
  truthy project = false ->
  run h (get_latest_release py_repr self project_name space_name) w0
  = (Ok (project_not_found project_name space_name), w2, (t1 ++ t2)%list) /\
  run h (create_release py_repr self project_name version channel_name
                        space_name) w0
  = (Ok (project_not_found project_name space_name), w2, (t1 ++ t2)%list) /\
  run h (deploy_release py_repr self project_name environment_name
                        release_version space_name) w0
  = (Ok (project_not_found project_name space_name), w2, (t1 ++ t2)%list) /\
  run h (check_deployment_status py_repr self project_name release_version
                                 environment space_name) w0
  = (Ok (project_not_found project_name space_name), w2, (t1 ++ t2)%list).
Proof.
  intros Hproject Henvironment Hversion Hspace Htruthy Hid Hfound Hfalsy.
  unfold get_latest_release, create_release, deploy_release,
    check_deployment_status.
  repeat split; forward; reflexivity.
Qed.

Lemma tools_stop_at_unknown_project_witness :
  run details_remote (get_latest_release Demo.repr Demo.self "Nope" None) tt
  = (Ok (project_not_found "Nope" None), tt,
     ([Demo.get "spaces/all"] ++ [Demo.get "Spaces-1/projects/all"])%list) /\
  run details_remote
      (create_release Demo.repr Demo.self "Nope" "3.0" None None) tt
  = (Ok (project_not_found "Nope" None), tt,
     ([Demo.get "spaces/all"] ++ [Demo.get "Spaces-1/projects/all"])%list) /\
  run details_remote
      (deploy_release Demo.repr Demo.self "Nope" "production" None None) tt
  = (Ok (project_not_found "Nope" None), tt,
     ([Demo.get "spaces/all"] ++ [Demo.get "Spaces-1/projects/all"])%list) /\
  run details_remote
      (check_deployment_status Demo.repr Demo.self "Nope" None None None) tt
  = (Ok (project_not_found "Nope" None), tt,
     ([Demo.get "spaces/all"] ++ [Demo.get "Spaces-1/projects/all"])%list).
Proof.
  exact (tools_stop_at_unknown_project Demo.repr Demo.self unit details_remote
           "Nope" "production" "3.0" None None None None tt tt tt
           space_default (JStr "Spaces-1") JNull
           [Demo.get "spaces/all"] [Demo.get "Spaces-1/projects/all"]
           eq_refl eq_refl eq_refl eq_refl eq_refl eq_refl eq_refl eq_refl).
Defined.

(** ** What a name resolves to *)

Lemma name_matches_true {sm : str_methods}
  {W} (h : W -> request -> http_outcome * W)
  (name : string) (y : json) (w w' : W) (s : list request) :
  run h (name_matches name y) w = (Ok true, w', s) ->
  is_object y = true /\ named name y.
Proof.
  unfold name_matches. intros H. run_inv H.
  apply run_get in Hrun as (Hobj & -> & -> & ->).
  split; [exact Hobj |].
  destruct (field_or y "Name" (JStr "")) as [| | | | n | |] eqn:E;
    try discriminate.
  cbn in Hrun0. injection Hrun0 as <- _ _.
  exists n. split; [exact E |]. now apply String.eqb_eq.
Qed.

Lemma next_match_sound {sm : str_methods}
  {W} (h : W -> request -> http_outcome * W)
  (name : string) (xs : list json) :
  forall (x : json) (w w' : W) (s : list request),
    run h (py_next_match (name_matches name) xs JNull) w = (Ok x, w', s) ->
    truthy x = true ->
    In x xs /\ is_object x = true /\ named name x.
Proof.
  induction xs as [| y xs IH]; intros x w w' s H Hx.
  - cbn in H. injection H as <- _ _. discriminate.
  - cbn [py_next_match] in H.
    apply run_bind_ok in H as (b & w1 & s1 & s2 & Hmatch & H & _).
    destruct b.
    + rewrite run_ret in H. injection H as <- _ _.
      split; [left; reflexivity |].
      exact (name_matches_true _ _ _ _ _ _ Hmatch).
    + destruct (IH _ _ _ _ H Hx) as (Hin & Hrest).
      split; [right |]; assumption.
Qed.

(** X11.  Whatever [_get_by_name] finds was listed under that
    name: a value it returns that is not falsy is an object among the
    entries of the collection its request fetched, and the name of that
    object is the requested one up to case. *)
Theorem get_by_name_sound {sm : str_methods} (self : tools) (uri name : string)
  (W : Type) (h : W -> request -> http_outcome * W) (w w' : W)
  (x : json) (sent : list request) :
  run h (_get_by_name self uri name) w = (Ok x, w', sent) ->
  truthy x = true ->
  exists collection items entries,
    run h (_make_request self uri None None) w = (Ok collection, w', sent) /\
    list_or_items collection = Ret items /\
    py_iter items = Ret entries /\
    In x entries /\ is_object x = true /\ named name x.
Proof.
  intros H Hx. unfold _get_by_name in H.
  apply run_bind_ok in H as (c & w1 & s1 & s2 & Hfetch & H & ->).
  apply run_bind_ok in H as (failed & w2 & s3 & s4 & Hfailed & H & ->).
  apply (run_pure _ _ _ _ _ _ (pure_contains _ _)) in Hfailed
    as (Hfailed & -> & ->).
  destruct failed.
  { rewrite run_ret in H. injection H as <- _ _. discriminate. }
  apply run_bind_ok in H as (items & w3 & s5 & s6 & Hitems & H & ->).
  apply (run_pure _ _ _ _ _ _ (pure_list_or_items _)) in Hitems
    as (Hitems & -> & ->).
  apply run_bind_ok in H as (entries & w4 & s7 & s8 & Hentries & H & ->).
  apply run_iter in Hentries as (Hentries & -> & ->).
  pose proof H as Hrun.
  apply (run_pure _ _ _ _ _ _
           (pure_next_match _ _ _ (pure_name_matches name))) in Hrun
    as (_ & -> & ->).
  destruct (next_match_sound _ _ _ _ _ _ _ H Hx) as (Hin & Hobj & Hnamed).
  exists c, items, entries. cbn [app]. rewrite app_nil_r in *.
  repeat split; assumption.
Qed.

Lemma get_by_name_sound_witness :
  exists collection items entries,
    run spaces_remote (_make_request Demo.self "spaces/all" None None) tt
    = (Ok collection, tt, [Demo.get "spaces/all"]) /\
    list_or_items collection = Ret items /\
    py_iter items = Ret entries /\
    In space_default entries /\ is_object space_default = true /\
    named "default" space_default.
Proof.
  exact (get_by_name_sound Demo.self "spaces/all" "default" unit spaces_remote
           tt tt space_default [Demo.get "spaces/all"] eq_refl eq_refl).
Defined.

Lemma dict_has_get (d : list (string * json)) (k : string) :
  dict_has d k = match dict_get d k with Some _ => true | None => false end.
Proof.
  unfold dict_has, dict_get. induction d as [| [k' v] d IH]; [reflexivity |].
  cbn. destruct (String.eqb k' k); [reflexivity | exact IH].
Qed.

(** X12.  A space is found only with its identifier: [_get_space]
    returns the entry that [_get_by_name] found when the entry has an
    [Id], and raises [KeyError] when it has none, since the identifier
    goes into the log line. *)
Theorem get_space_needs_id {sm : str_methods}
  (self : tools) (space_name : option string)
  (W : Type) (h : W -> request -> http_outcome * W) (w w' : W)
  (space : json) (t : list request) :
  run h (_get_by_name self "spaces/all" (default_arg "Default" space_name)) w
  = (Ok space, w', t) ->
  truthy space = true ->
  run h (_get_space self space_name) w
  = ((if has_field space "Id" then Ok space else Err KeyError), w', t).
Proof.
  intros Hfound Htruthy.
  pose proof (get_by_name_object _ _ _ _ _ _ _ _ Hfound Htruthy) as Hobject.
  apply object_inv in Hobject as [d ->].
  unfold _get_space. rewrite run_bind, Hfound, Htruthy.
  cbn [negb py_getitem has_field]. rewrite dict_has_get.
  destruct (dict_get d "Id"); cbn; rewrite ?app_nil_r; reflexivity.
Qed.

Lemma get_space_needs_id_witness :
  run anonymous_remote (_get_space Demo.self None) tt
  = ((if has_field space_anonymous "Id" then Ok space_anonymous
      else Err KeyError), tt, [Demo.get "spaces/all"]).
Proof.
  exact (get_space_needs_id Demo.self None unit anonymous_remote tt tt
           space_anonymous [Demo.get "spaces/all"] eq_refl eq_refl).
Defined.

(** ** The tools, from the releases on *)

Section ReleasesFetched.

Context {sm : str_methods}.

Variable py_repr : json -> string.
Variable self : tools.
Variable W : Type.
Variable h : W -> request -> http_outcome * W.

Variables project_name environment_name : string.
Variables release_version environment space_name : option string.
Variables (w0 w1 w2 w3 : W) (t1 t2 t3 : list request).
Variables (space space_id project project_id releases_response : json).

Hypothesis project_named : PyStr.nonempty project_name = true.
Hypothesis environment_named : PyStr.nonempty environment_name = true.
Hypothesis space_found :
  run h (_get_space self (Some (default_arg "Default" space_name))) w0
  = (Ok space, w1, t1).
Hypothesis space_truthy : truthy space = true.
Hypothesis space_has_id : py_getitem space "Id" = Ret space_id.
Hypothesis project_found :
  run h (_get_by_name self (str py_repr space_id ++ "/projects/all")
                      project_name) w1
  = (Ok project, w2, t2).
Hypothesis project_truthy : truthy project = true.
Hypothesis project_has_id : py_getitem project "Id" = Ret project_id.
Hypothesis releases_fetched :
  run h (_get_project_releases py_repr self space_id project_id) w2
  = (Ok releases_response, w3, t3).

(** X13.  An error value in place of the project's releases is
    what [get_latest_release], [deploy_release] and
    [check_deployment_status] return, as it came, after the three reads
    that led there. *)
Theorem tools_pass_on_release_errors :
  is_object releases_response = true ->
  py_contains "error" releases_response = Ret true ->
  run h (get_latest_release py_repr self project_name space_name) w0
  = (Ok (_json_response releases_response None), w3, (t1 ++ t2 ++ t3)%list) /\
  run h (deploy_release py_repr self project_name environment_name
                        release_version space_name) w0
  = (Ok (_json_response releases_response None), w3, (t1 ++ t2 ++ t3)%list) /\
  run h (check_deployment_status py_repr self project_name release_version
                                 environment space_name) w0
  = (Ok (_json_response releases_response None), w3, (t1 ++ t2 ++ t3)%list).
Proof.
  intros Hobject Herror.
  pose proof (py_get_object releases_response "error" JNull Hobject) as Hget.
  unfold get_latest_release, deploy_release, check_deployment_status.
  repeat split; forward; rewrite <- ?app_assoc; reflexivity.
Qed.

(** X14.  A project without releases: [get_latest_release],
    [deploy_release] and [check_deployment_status] return [No releases
    found for project '<name>'], and ask for nothing more. *)
Theorem tools_stop_without_releases :
  forall releases : json,
    py_contains "error" releases_response = Ret false ->
    py_get releases_response "Items" (JList []) = Ret releases ->
    truthy releases = false ->
    run h (get_latest_release py_repr self project_name space_name) w0
    = (Ok (no_releases_found project_name), w3, (t1 ++ t2 ++ t3)%list) /\
    run h (deploy_release py_repr self project_name environment_name
                          release_version space_name) w0
    = (Ok (no_releases_found project_name), w3, (t1 ++ t2 ++ t3)%list) /\
    run h (check_deployment_status py_repr self project_name release_version
                                   environment space_name) w0
    = (Ok (no_releases_found project_name), w3, (t1 ++ t2 ++ t3)%list).
Proof.
  intros releases Hno_error Hitems Hfalsy.
  unfold get_latest_release, deploy_release, check_deployment_status.
  repeat split; forward; rewrite <- ?app_assoc; reflexivity.
Qed.

(** X15.  [get_latest_release] reports the first release of the
    listing, with the fields it has; the releases after it do not
    matter. *)
Theorem latest_release_is_first :
  forall (latest : json) (older : list json),
    py_contains "error" releases_response = Ret false ->
    py_get releases_response "Items" (JList []) = Ret (JList (latest :: older)) ->
    is_object latest = true ->
    run h (get_latest_release py_repr self project_name space_name) w0
    = (Ok (_json_response
             (JDict [("success", JBool true);
                     ("space", JDict [("id", field space "Id");
                                      ("name", field space "Name")]);
                     ("project", JDict [("id", field project "Id");
                                        ("name", field project "Name")]);
                     ("latest_release", latest_release_summary latest)])
             None),
       w3, (t1 ++ t2 ++ t3)%list).
Proof.
  intros latest older Hno_error Hitems Hlatest.
  unfold get_latest_release. forward.
  cbn [truthy is_nil negb py_first bind].
  rewrite !(py_get_object space) by exact (getitem_object _ _ _ space_has_id).
  rewrite !(py_get_object project)
    by exact (getitem_object _ _ _ project_has_id).
  rewrite !(py_get_object latest) by exact Hlatest.
  cbn [bind]. rewrite run_ret, ?app_nil_r, <- ?app_assoc. reflexivity.
Qed.

(** X16.  A version that no release of the project has:
    [deploy_release] and [check_deployment_status] name it in their
    error, after the reads that led there and nothing else.
    [check_deployment_status] looks for the version without the
    whitespace around it, and names it so. *)
Theorem tools_stop_at_unknown_version :
  forall (releases : list json) (version : string),
    py_contains "error" releases_response = Ret false ->
    py_get releases_response "Items" (JList []) = Ret (JList releases) ->
    releases <> [] ->
    forallb is_object releases = true ->
    PyStr.nonempty version = true ->
    find (has_version version) releases = None ->
    run h (deploy_release py_repr self project_name environment_name
                          (Some version) space_name) w0
    = (Ok (release_not_found version project_name), w3,
       (t1 ++ t2 ++ t3)%list) /\
    (normalize_optional (default_arg "" release_version) = Some version ->
     run h (check_deployment_status py_repr self project_name release_version
                                    environment space_name) w0
     = (Ok (release_not_found version project_name), w3,
        (t1 ++ t2 ++ t3)%list)).
Proof.
  intros releases version Hno_error Hitems Hsome Hobjects Hversion Hnone.
  assert (Htruthy : truthy (JList releases) = true)
    by (destruct releases; [congruence | reflexivity]).
  assert (Hfind : _find_release (JList releases) (Some version) = Ret JNull).
  { unfold _find_release. rewrite Htruthy, Hversion. cbn [negb py_iter bind].
    rewrite (next_match_version _ _ Hobjects), Hnone. reflexivity. }
  split.
  - unfold deploy_release. forward. cbn [py_len bind]. forward.
    cbn [truthy negb]. forward. rewrite <- ?app_assoc. reflexivity.
  - intros Hnormal. unfold check_deployment_status. forward.
    rewrite Hnormal. forward.
    cbn [truthy negb]. forward. rewrite <- ?app_assoc. reflexivity.
Qed.

(** X17.  What [get_project_details] makes of an error value
    in place of the project's releases: nothing.  The project is left
    without an active environment, and the payload is the one of a
    success. *)
Theorem project_details_hides_release_errors :
  is_object releases_response = true ->
  py_contains "error" releases_response = Ret true ->
  run h (get_project_details py_repr self project_name space_name) w0
  = (Ok (_json_response
           (project_details_payload space project
              (JStr "There is no active environment with a release for this project"))
           (Some 2)),
     w3, (t1 ++ t2 ++ t3)%list).
Proof.
  intros Hobject Herror.
  pose proof (py_get_object releases_response "error" (JStr "Unknown error")
                Hobject) as Hget.
  assert (Hactive :
            run h (_get_active_environments py_repr self space_id project_id) w2
            = (Ok (JList []), w3, t3)).
  { unfold _get_active_environments.
    unfold _get_project_releases in releases_fetched. forward. reflexivity. }
  unfold get_project_details. forward.
  rewrite !(py_get_object space) by exact (getitem_object _ _ _ space_has_id).
  rewrite !(py_get_object project)
    by exact (getitem_object _ _ _ project_has_id).
  cbn [truthy is_nil negb bind]. forward. rewrite <- ?app_assoc.
  reflexivity.
Qed.

(** X18.  An environment that is not there: with the release
    selected, [deploy_release] and [check_deployment_status] name the
    environment in their error, and the requests sent are the reads that
    led there; no deployment is created.  [check_deployment_status]
    looks for the name without the whitespace around it, and names it
    so. *)
Theorem tools_stop_at_unknown_environment :
  forall (releases : list json) (version : option string)
         (release absent : json) (name : string) (w4 : W) (t4 : list request),
    py_contains "error" releases_response = Ret false ->
    py_get releases_response "Items" (JList []) = Ret (JList releases) ->
    _find_release (JList releases) version = Ret release ->
    truthy release = true ->
    is_object release = true ->
    PyStr.nonempty name = true ->
    run h (_get_by_name self (str py_repr space_id ++ "/environments/all")
                        name) w3
    = (Ok absent, w4, t4) ->
    truthy absent = false ->
    run h (deploy_release py_repr self project_name name version space_name) w0
    = (Ok (environment_not_found name space_name), w4,
       (t1 ++ t2 ++ t3 ++ t4)%list) /\
    (normalize_optional (default_arg "" release_version) = version ->
     normalize_optional (default_arg "" environment) = Some name ->
     run h (check_deployment_status py_repr self project_name release_version
                                    environment space_name) w0
     = (Ok (environment_not_found name space_name), w4,
        (t1 ++ t2 ++ t3 ++ t4)%list)).
Proof.
  intros releases version release absent name w4 t4 Hno_error Hitems Hfind
         Htruthy Hobject Hname Hlookup Hfalsy.
  pose proof (find_release_nonempty _ _ _ Hfind Htruthy) as Hsome.
  split.
  - unfold deploy_release. forward. cbn [py_len bind]. forward.
    rewrite !(py_get_object release) by exact Hobject. cbn [bind].
    forward. rewrite <- ?app_assoc. reflexivity.
  - intros Hversion Henvironment.
    assert (Hcheck :
              run h (_get_environments_to_check py_repr self space_id
                       (Some name)) w3
              = (Ok (JList []), w4, t4)).
    { unfold _get_environments_to_check. forward. reflexivity. }
    unfold check_deployment_status. forward.
    rewrite Hversion, Henvironment. forward.
    cbn [truthy is_nil negb opt_str]. forward.
    rewrite <- ?app_assoc. reflexivity.
Qed.

End ReleasesFetched.

Lemma tools_pass_on_release_errors_witness :
  run projects_only_remote
      (get_latest_release Demo.repr Demo.self "MyApp" None) tt
  = (Ok (_json_response not_found None), tt, resolved_requests) /\
  run projects_only_remote
      (deploy_release Demo.repr Demo.self "MyApp" "production" None None) tt
  = (Ok (_json_response not_found None), tt, resolved_requests) /\
  run projects_only_remote
      (check_deployment_status Demo.repr Demo.self "MyApp" None None None) tt
  = (Ok (_json_response not_found None), tt, resolved_requests).
Proof.
  exact (tools_pass_on_release_errors Demo.repr Demo.self unit
           projects_only_remote "MyApp" "production" None None None
           tt tt tt tt [Demo.get "spaces/all"]
           [Demo.get "Spaces-1/projects/all"]
           [Demo.get "Spaces-1/projects/Projects-1/releases"]
           space_default (JStr "Spaces-1") Demo.project_myapp
           (JStr "Projects-1") not_found
           eq_refl eq_refl eq_refl eq_refl eq_refl eq_refl eq_refl eq_refl
           eq_refl eq_refl eq_refl).
Defined.

Lemma tools_stop_without_releases_witness :
  run no_releases_remote
      (get_latest_release Demo.repr Demo.self "MyApp" None) tt
  = (Ok (no_releases_found "MyApp"), tt, resolved_requests) /\
  run no_releases_remote
      (deploy_release Demo.repr Demo.self "MyApp" "production" None None) tt
  = (Ok (no_releases_found "MyApp"), tt, resolved_requests) /\
  run no_releases_remote
      (check_deployment_status Demo.repr Demo.self "MyApp" None None None) tt
  = (Ok (no_releases_found "MyApp"), tt, resolved_requests).
Proof.
  exact (tools_stop_without_releases Demo.repr Demo.self unit
           no_releases_remote "MyApp" "production" None None None
           tt tt tt tt [Demo.get "spaces/all"]
           [Demo.get "Spaces-1/projects/all"]
           [Demo.get "Spaces-1/projects/Projects-1/releases"]
           space_default (JStr "Spaces-1") Demo.project_myapp
           (JStr "Projects-1") (JDict [("Items", JList [])])
           eq_refl eq_refl eq_refl eq_refl eq_refl eq_refl eq_refl eq_refl
           eq_refl (JList []) eq_refl eq_refl eq_refl).
Defined.

Lemma latest_release_is_first_witness :
  run two_releases_remote
      (get_latest_release Demo.repr Demo.self "MyApp" None) tt
  = (Ok (_json_response
           (JDict [("success", JBool true);
                   ("space", JDict [("id", field space_default "Id");
                                    ("name", field space_default "Name")]);
                   ("project", JDict [("id", field Demo.project_myapp "Id");
                                      ("name", field Demo.project_myapp "Name")]);
                   ("latest_release", latest_release_summary release_2_0)])
           None),
     tt, resolved_requests).
Proof.
  exact (latest_release_is_first Demo.repr Demo.self unit two_releases_remote
           "MyApp" None tt tt tt tt [Demo.get "spaces/all"]
           [Demo.get "Spaces-1/projects/all"]
           [Demo.get "Spaces-1/projects/Projects-1/releases"]
           space_default (JStr "Spaces-1") Demo.project_myapp
           (JStr "Projects-1") releases_2_1
           eq_refl eq_refl eq_refl eq_refl eq_refl eq_refl eq_refl eq_refl
           release_2_0 [release_1_0] eq_refl eq_refl eq_refl).
Defined.

Lemma tools_stop_at_unknown_version_witness :
  run two_releases_remote
      (deploy_release Demo.repr Demo.self "MyApp" "production" (Some "9.9")
                      None) tt
  = (Ok (release_not_found "9.9" "MyApp"), tt, resolved_requests) /\
  (normalize_optional (default_arg "" (Some " 9.9 ")) = Some "9.9" ->
   run two_releases_remote
       (check_deployment_status Demo.repr Demo.self "MyApp" (Some " 9.9 ")
                                None None) tt
   = (Ok (release_not_found "9.9" "MyApp"), tt, resolved_requests)).
Proof.
  exact (tools_stop_at_unknown_version Demo.repr Demo.self unit
           two_releases_remote "MyApp" "production" (Some " 9.9 ") None None
           tt tt tt tt [Demo.get "spaces/all"]
           [Demo.get "Spaces-1/projects/all"]
           [Demo.get "Spaces-1/projects/Projects-1/releases"]
           space_default (JStr "Spaces-1") Demo.project_myapp
           (JStr "Projects-1") releases_2_1
           eq_refl eq_refl eq_refl eq_refl eq_refl eq_refl eq_refl eq_refl
           eq_refl
           [release_2_0; release_1_0] "9.9" eq_refl eq_refl
           (fun H => @nil_cons json release_2_0 [release_1_0] (eq_sym H))
           eq_refl eq_refl eq_refl).
Defined.

Lemma project_details_hides_release_errors_witness :
  run projects_only_remote
      (get_project_details Demo.repr Demo.self "MyApp" None) tt
  = (Ok (_json_response
           (project_details_payload space_default Demo.project_myapp
              (JStr "There is no active environment with a release for this project"))
           (Some 2)),
     tt, resolved_requests).
Proof.
  exact (project_details_hides_release_errors Demo.repr Demo.self unit
           projects_only_remote "MyApp" None
           tt tt tt tt [Demo.get "spaces/all"]
           [Demo.get "Spaces-1/projects/all"]
           [Demo.get "Spaces-1/projects/Projects-1/releases"]
           space_default (JStr "Spaces-1") Demo.project_myapp
           (JStr "Projects-1") not_found
           eq_refl eq_refl eq_refl eq_refl eq_refl eq_refl eq_refl eq_refl
           eq_refl eq_refl).
Defined.

Lemma tools_stop_at_unknown_environment_witness :
  run two_releases_remote
      (deploy_release Demo.repr Demo.self "MyApp" "qa" None None) tt
  = (Ok (environment_not_found "qa" None), tt,
     ([Demo.get "spaces/all"] ++ [Demo.get "Spaces-1/projects/all"]
      ++ [Demo.get "Spaces-1/projects/Projects-1/releases"]
      ++ [Demo.get "Spaces-1/environments/all"])%list) /\
  (normalize_optional (default_arg "" None) = None ->
   normalize_optional (default_arg "" (Some " qa ")) = Some "qa" ->
   run two_releases_remote
       (check_deployment_status Demo.repr Demo.self "MyApp" None (Some " qa ")
                                None) tt
   = (Ok (environment_not_found "qa" None), tt,
      ([Demo.get "spaces/all"] ++ [Demo.get "Spaces-1/projects/all"]
       ++ [Demo.get "Spaces-1/projects/Projects-1/releases"]
       ++ [Demo.get "Spaces-1/environments/all"])%list)).
Proof.
  exact (tools_stop_at_unknown_environment Demo.repr Demo.self unit
           two_releases_remote "MyApp" None (Some " qa ") None
           tt tt tt tt [Demo.get "spaces/all"]
           [Demo.get "Spaces-1/projects/all"]
           [Demo.get "Spaces-1/projects/Projects-1/releases"]
           space_default (JStr "Spaces-1") Demo.project_myapp
           (JStr "Projects-1") releases_2_1
           eq_refl eq_refl eq_refl eq_refl eq_refl eq_refl eq_refl eq_refl
           [release_2_0; release_1_0] None release_2_0 JNull "qa" tt
           [Demo.get "Spaces-1/environments/all"]
           eq_refl eq_refl eq_refl eq_refl eq_refl eq_refl eq_refl eq_refl).
Defined.

(** ** [create_release], step by step *)

Section ReleaseCreation.

Context {sm : str_methods}.

Variable py_repr : json -> string.
Variable self : tools.
Variable W : Type.
Variable h : W -> request -> http_outcome * W.

Variables project_name version : string.
Variables channel_name space_name : option string.
Variables (w0 w1 w2 w3 : W) (t1 t2 t3 : list request).
Variables (space space_id project project_id channel : json).

Hypothesis project_named : PyStr.nonempty project_name = true.
Hypothesis version_given : PyStr.nonempty version = true.
Hypothesis space_found :
  run h (_get_space self (Some (default_arg "Default" space_name))) w0
  = (Ok space, w1, t1).
Hypothesis space_truthy : truthy space = true.
Hypothesis space_has_id : py_getitem space "Id" = Ret space_id.
Hypothesis project_found :
  run h (_get_by_name self (str py_repr space_id ++ "/projects/all")
                      project_name) w1
  = (Ok project, w2, t2).
Hypothesis project_truthy : truthy project = true.
Hypothesis project_has_id : py_getitem project "Id" = Ret project_id.
Hypothesis channel_sought :
  run h (_get_by_name self
           (str py_repr space_id ++ "/projects/" ++ str py_repr project_id
            ++ "/channels") (default_arg "Default" channel_name)) w2
  = (Ok channel, w3, t3).

(** X19.  A channel the project does not have:
    [create_release] names it in its error, ["Default"] when none was
    given, and asks for no template. *)
Theorem create_release_unknown_channel :
  truthy channel = false ->
  run h (create_release py_repr self project_name version channel_name
                        space_name) w0
  = (Ok (channel_not_found channel_name project_name), w3,
     (t1 ++ t2 ++ t3)%list).
Proof.
  intros Hfalsy. unfold create_release. forward.
  rewrite <- ?app_assoc. reflexivity.
Qed.

Section ChannelFound.

Variables (channel_id template_response : json) (w4 : W) (t4 : list request).

Hypothesis channel_truthy : truthy channel = true.
Hypothesis channel_has_id : py_getitem channel "Id" = Ret channel_id.
Hypothesis template_fetched :
  run h (_make_request self
           (str py_repr space_id ++ "/deploymentprocesses/deploymentprocess-"
            ++ str py_repr project_id ++ "/template?channel="
            ++ str py_repr channel_id) None None) w3
  = (Ok template_response, w4, t4).

(** X20.  A template that cannot be fetched: [create_release]
    returns the error value as it came; no feed is asked and no release
    is created. *)
Theorem create_release_template_error :
  py_contains "error" template_response = Ret true ->
  run h (create_release py_repr self project_name version channel_name
                        space_name) w0
  = (Ok (_json_response template_response None), w4,
     (t1 ++ t2 ++ t3 ++ t4)%list).
Proof.
  intros Herror. unfold create_release. forward.
  rewrite <- ?app_assoc. reflexivity.
Qed.

Section PackagesSelected.

Variables (packages_json : json) (packages selected : list json).
Variables (w5 : W) (t5 : list request).

Hypothesis template_no_error :
  py_contains "error" template_response = Ret false.
Hypothesis template_packages :
  py_get template_response "Packages" (JList []) = Ret packages_json.
Hypothesis packages_iterated : py_iter packages_json = Ret packages.
Hypothesis packages_selected :
  run h (select_packages py_repr self space_id packages []) w4
  = (Ok (inr selected), w5, t5).

Ltac to_creation Hpost :=
  let Hcred := fresh "Hcred" in
  pose proof (get_space_credentials _ _ _ _ _ _ _ space_found space_truthy)
    as Hcred;
  unfold create_release; forward;
  rewrite <- (getitem_field _ _ _ channel_has_id);
  fold (release_data channel project_id version selected);
  rewrite run_bind, (run_post h self _ _ w5 Hcred);
  fold (release_creation py_repr self space_id channel project_id version
                         selected);
  rewrite Hpost; cbn [fst snd];
  rewrite !(py_get_object space) by exact (getitem_object _ _ _ space_has_id);
  rewrite !(py_get_object project)
    by exact (getitem_object _ _ _ project_has_id);
  rewrite !(py_get_object channel)
    by exact (getitem_object _ _ _ channel_has_id).

(** X21.  A release the remote does not create:
    [create_release] returns the error value of the creation request,
    which is no success. *)
Theorem create_release_reports_refusal :
  forall (o : http_outcome) (w6 : W),
    h w5 (release_creation py_repr self space_id channel project_id version
                           selected) = (o, w6) ->
    failed_outcome o = true ->
    run h (create_release py_repr self project_name version channel_name
                          space_name) w0
    = (Ok (_json_response (response_value o) None), w6,
       (t1 ++ t2 ++ t3 ++ t4 ++ t5
        ++ [release_creation py_repr self space_id channel project_id version
                             selected])%list) /\
    is_success (_json_response (response_value o) None) = false.
Proof.
  intros o w6 Hpost Hfailed. split.
  - to_creation Hpost.
    destruct (failed_outcome_error o Hfailed) as [message ->].
    cbn [error_value py_contains dict_has existsb String.eqb Ascii.eqb
         Bool.eqb fst orb bind].
    rewrite run_ret, ?app_nil_r, <- ?app_assoc. reflexivity.
  - destruct (failed_outcome_error o Hfailed) as [message ->]. reflexivity.
Qed.

(** X22.  A release the remote creates: [create_release] reports
    it with the fields the remote gave it, under the space, project and
    channel it was created for. *)
Theorem create_release_created :
  forall (status_code : Z) (text : string) (created : json) (w6 : W),
    h w5 (release_creation py_repr self space_id channel project_id version
                           selected)
    = (Responded status_code text (Decoded created), w6) ->
    created_or_ok status_code = true ->
    is_object created = true ->
    py_contains "error" created = Ret false ->
    run h (create_release py_repr self project_name version channel_name
                          space_name) w0
    = (Ok (_json_response
             (create_release_payload project_name version space project
                                     channel created)
             None),
       w6,
       (t1 ++ t2 ++ t3 ++ t4 ++ t5
        ++ [release_creation py_repr self space_id channel project_id version
                             selected])%list).
Proof.
  intros status_code text created w6 Hpost Hstatus Hobject Hno_error.
  to_creation Hpost.
  cbn [response_value]. fold (created_or_ok status_code). rewrite Hstatus.
  rewrite Hno_error. cbn [bind].
  rewrite !(py_get_object created) by exact Hobject.
  cbn [bind]. rewrite run_ret, ?app_nil_r, <- ?app_assoc. reflexivity.
Qed.

End PackagesSelected.

End ChannelFound.

End ReleaseCreation.

Lemma create_release_unknown_channel_witness :
  run packages_remote
      (create_release Demo.repr Demo.self "MyApp" "3.0" (Some "Beta") None) tt
  = (Ok (channel_not_found (Some "Beta") "MyApp"), tt,
     ([Demo.get "spaces/all"] ++ [Demo.get "Spaces-1/projects/all"]
      ++ [Demo.get "Spaces-1/projects/Projects-1/channels"])%list).
Proof.
  exact (create_release_unknown_channel Demo.repr Demo.self unit
           packages_remote "MyApp" "3.0" (Some "Beta") None tt tt tt tt
           [Demo.get "spaces/all"] [Demo.get "Spaces-1/projects/all"]
           [Demo.get "Spaces-1/projects/Projects-1/channels"]
           space_default (JStr "Spaces-1") Demo.project_myapp
           (JStr "Projects-1") JNull
           eq_refl eq_refl eq_refl eq_refl eq_refl eq_refl eq_refl eq_refl
           eq_refl eq_refl).
Defined.

Lemma create_release_template_error_witness :
  run no_template_remote
      (create_release Demo.repr Demo.self "MyApp" "3.0" None None) tt
  = (Ok (_json_response not_found None), tt,
     ([Demo.get "spaces/all"] ++ [Demo.get "Spaces-1/projects/all"]
      ++ [Demo.get "Spaces-1/projects/Projects-1/channels"]
      ++ [Demo.get template_endpoint])%list).
Proof.
  exact (create_release_template_error Demo.repr Demo.self unit
           no_template_remote "MyApp" "3.0" None None tt tt tt tt
           [Demo.get "spaces/all"] [Demo.get "Spaces-1/projects/all"]
           [Demo.get "Spaces-1/projects/Projects-1/channels"]
           space_default (JStr "Spaces-1") Demo.project_myapp
           (JStr "Projects-1") channel_default
           eq_refl eq_refl eq_refl eq_refl eq_refl eq_refl eq_refl eq_refl
           eq_refl
           (JStr "Channels-1") not_found tt [Demo.get template_endpoint]
           eq_refl eq_refl eq_refl eq_refl).
Defined.

Lemma create_release_reports_refusal_witness :
  run no_creation_remote
      (create_release Demo.repr Demo.self "MyApp" "3.0" None None) tt
  = (Ok (_json_response
           (response_value (Responded 404 "" (DecodeError ""))) None),
     tt, creation_requests) /\
  is_success (_json_response
                (response_value (Responded 404 "" (DecodeError ""))) None)
  = false.
Proof.
  exact (create_release_reports_refusal Demo.repr Demo.self unit
           no_creation_remote "MyApp" "3.0" None None tt tt tt tt
           [Demo.get "spaces/all"] [Demo.get "Spaces-1/projects/all"]
           [Demo.get "Spaces-1/projects/Projects-1/channels"]
           space_default (JStr "Spaces-1") Demo.project_myapp
           (JStr "Projects-1") channel_default
           eq_refl eq_refl eq_refl eq_refl eq_refl eq_refl eq_refl eq_refl
           eq_refl
           (JStr "Channels-1") template_no_packages tt
           [Demo.get template_endpoint] eq_refl eq_refl eq_refl
           (JList []) [] [] tt [] eq_refl eq_refl eq_refl eq_refl
           (Responded 404 "" (DecodeError "")) tt eq_refl eq_refl).
Defined.

Lemma create_release_created_witness :
  run creation_remote
      (create_release Demo.repr Demo.self "MyApp" "3.0" None None) tt
  = (Ok (_json_response
           (create_release_payload "MyApp" "3.0" space_default
              Demo.project_myapp channel_default release_9)
           None),
     tt, creation_requests).
Proof.
  exact (create_release_created Demo.repr Demo.self unit
           creation_remote "MyApp" "3.0" None None tt tt tt tt
           [Demo.get "spaces/all"] [Demo.get "Spaces-1/projects/all"]
           [Demo.get "Spaces-1/projects/Projects-1/channels"]
           space_default (JStr "Spaces-1") Demo.project_myapp
           (JStr "Projects-1") channel_default
           eq_refl eq_refl eq_refl eq_refl eq_refl eq_refl eq_refl eq_refl
           eq_refl
           (JStr "Channels-1") template_no_packages tt
           [Demo.get template_endpoint] eq_refl eq_refl eq_refl
           (JList []) [] [] tt [] eq_refl eq_refl eq_refl eq_refl
           201%Z "" release_9 tt eq_refl eq_refl eq_refl eq_refl).
Defined.

(** ** [_get_deployment_status] *)

Section DeploymentStatus.

Context {sm : str_methods}.

Variable py_repr : json -> string.
Variable self : tools.
Variable deployment : json.

Hypothesis deployment_object : is_object deployment = true.

(** X23.  A deployment without a task is described from its
    own fields, and nothing is requested. *)
Theorem deployment_status_without_task :
  truthy (field deployment "TaskId") = false ->
  _get_deployment_status py_repr self deployment
  = Ret (JDict (base_status deployment)).
Proof.
  intros Hfalsy. unfold _get_deployment_status.
  rewrite !(py_get_object deployment) by exact deployment_object.
  cbn [bind]. fold (field deployment "TaskId"). rewrite Hfalsy. reflexivity.
Qed.

Variable W : Type.
Variable h : W -> request -> http_outcome * W.
Variables (task : json) (w w' : W) (t : list request).

Hypothesis task_known : truthy (field deployment "TaskId") = true.
Hypothesis task_fetched :
  run h (_make_request self
           ("tasks/" ++ str py_repr (field deployment "TaskId")) None None) w
  = (Ok task, w', t).

(** X24.  A task that cannot be fetched changes nothing:
    the status is the one of a deployment without a task, and the error
    is not reported. *)
Theorem deployment_status_task_unavailable :
  py_contains "error" task = Ret true ->
  run h (_get_deployment_status py_repr self deployment) w
  = (Ok (JDict (base_status deployment)), w', t).
Proof.
  intros Herror. unfold _get_deployment_status.
  rewrite !(py_get_object deployment) by exact deployment_object.
  cbn [bind]. fold (field deployment "TaskId"). rewrite task_known.
  forward. reflexivity.
Qed.

(** X25.  A task that is fetched gives the status its state,
    completion and times, in the places the status had for them; the
    start of the task replaces the creation time of the deployment even
    when the task has none.  [error_message] comes last, and only for a
    task with warnings or errors. *)
Theorem deployment_status_from_task :
  is_object task = true ->
  py_contains "error" task = Ret false ->
  run h (_get_deployment_status py_repr self deployment) w
  = (Ok (JDict
           (task_status deployment task
            ++ (if truthy (field_or task "HasWarningsOrErrors" (JBool false))
                then [("error_message",
                       field_or task "ErrorMessage" (JStr ""))]
                else []))),
     w', t).
Proof.
  intros Hobject Hno_error. unfold _get_deployment_status.
  rewrite !(py_get_object deployment) by exact deployment_object.
  cbn [bind]. fold (field deployment "TaskId"). rewrite task_known.
  forward. rewrite !(py_get_object task) by exact Hobject. cbn [bind].
  destruct (truthy (field_or task "HasWarningsOrErrors" (JBool false)));
    cbn [bind]; rewrite run_ret, ?app_nil_r; reflexivity.
Qed.

End DeploymentStatus.

Lemma deployment_status_without_task_witness :
  _get_deployment_status Demo.repr Demo.self deployment_untasked
  = Ret (JDict (base_status deployment_untasked)).
Proof.
  exact (deployment_status_without_task Demo.repr Demo.self
           deployment_untasked eq_refl eq_refl).
Defined.

Lemma deployment_status_task_unavailable_witness :
  run details_remote
      (_get_deployment_status Demo.repr Demo.self deployment_production) tt
  = (Ok (JDict (base_status deployment_production)), tt,
     [Demo.get "tasks/ServerTasks-7"]).
Proof.
  exact (deployment_status_task_unavailable Demo.repr Demo.self
           deployment_production eq_refl unit details_remote not_found tt tt
           [Demo.get "tasks/ServerTasks-7"] eq_refl eq_refl eq_refl).
Defined.

Lemma deployment_status_from_task_witness :
  run status_remote
      (_get_deployment_status Demo.repr Demo.self deployment_production) tt
  = (Ok (JDict
           (task_status deployment_production task_7
            ++ (if truthy (field_or task_7 "HasWarningsOrErrors" (JBool false))
                then [("error_message",
                       field_or task_7 "ErrorMessage" (JStr ""))]
                else []))%list),
     tt, [Demo.get "tasks/ServerTasks-7"]).
Proof.
  exact (deployment_status_from_task Demo.repr Demo.self
           deployment_production eq_refl unit status_remote task_7 tt tt
           [Demo.get "tasks/ServerTasks-7"] eq_refl eq_refl eq_refl eq_refl).
Defined.

(** ** [_get_active_environments] *)

Lemma py_eq_id (a b : json) :
  id_like a = true -> id_like b = true -> (py_eq a b = true <-> a = b).
Proof.
  destruct a, b; cbn; try discriminate; intros _ _;
    try (split; [discriminate | discriminate]); try tauto.
  rewrite String.eqb_eq. split; congruence.
Qed.

Lemma id_like_hashable (v : json) : id_like v = true -> hashable v = true.
Proof. destruct v; cbn; congruence. Qed.

Lemma existsb_snoc {A} (p : A -> bool) (xs : list A) (x : A) :
  existsb p (xs ++ [x])%list = existsb p xs || p x.
Proof. rewrite existsb_app. cbn. now rewrite orb_false_r. Qed.

(** The set the first loop of [_get_active_environments] builds: the
    identifiers, not empty, that the deployments target. *)
Lemma collect_env_ids_spec (ds : list json) :
  forallb (fun d => is_object d && id_like (field d "EnvironmentId")) ds = true ->
  forall ids,
    exists ids',
      collect_env_ids ds ids = Ret ids' /\
      forall v,
        id_like v = true ->
        (existsb (py_eq v) ids' = true <->
         existsb (py_eq v) ids = true \/
         (truthy v = true /\
          existsb (fun d => py_eq (field d "EnvironmentId") v) ds = true)).
Proof.
  induction ds as [| d ds IH]; intros Hds ids.
  - exists ids. split; [reflexivity |]. intros v _. cbn. intuition discriminate.
  - cbn [forallb] in Hds. apply andb_prop in Hds as [Hd Hds].
    apply andb_prop in Hd as [Hobject Hid].
    cbn [collect_env_ids]. rewrite (py_get_object d) by exact Hobject.
    cbn [bind]. fold (field d "EnvironmentId").
    set (e := field d "EnvironmentId") in *.
    destruct (truthy e) eqn:He.
    + unfold py_set_add, py_set_contains.
      rewrite (id_like_hashable _ Hid). cbn [bind].
      destruct (IH Hds (if existsb (py_eq e) ids then ids else (ids ++ [e])%list))
        as (ids' & Hrun & Hspec).
      exists ids'. split; [exact Hrun |].
      intros v Hv. rewrite (Hspec v Hv). cbn [existsb]. fold e.
      rewrite orb_true_iff.
      pose proof (py_eq_id e v Hid Hv) as Hev.
      pose proof (py_eq_id v e Hv Hid) as Hve.
      destruct (existsb (py_eq e) ids) eqn:Hin.
      * split; [tauto |]. intros [H | [Hv' [H | H]]]; try tauto.
        apply Hev in H. subst v. tauto.
      * rewrite existsb_snoc, orb_true_iff. split.
        -- intros [[H | H] | H]; try tauto.
           apply Hve in H. subst v. right. split; [exact He |]. left.
           now apply Hev.
        -- intros [H | [Hv' [H | H]]]; try tauto.
           apply Hev in H. subst v. left. right. now apply Hve.
    + destruct (IH Hds ids) as (ids' & Hrun & Hspec).
      exists ids'. split; [exact Hrun |].
      intros v Hv. rewrite (Hspec v Hv). cbn [existsb]. fold e.
      rewrite orb_true_iff.
      pose proof (py_eq_id e v Hid Hv) as Hev.
      split; [tauto |]. intros [H | [Hv' [H | H]]]; try tauto.
      apply Hev in H. subst v. congruence.
Qed.

(** The second loop keeps, in their order, the environments whose
    identifier is in the set. *)
Lemma filter_active_spec (ids : list json) (envs : list json) :
  forallb (fun e => is_object e && id_like (field e "Id")) envs = true ->
  forall active,
    filter_active envs ids active
    = Ret (active
           ++ map environment_summary
                (filter (fun env => existsb (py_eq (field env "Id")) ids)
                        envs))%list.
Proof.
  induction envs as [| env envs IH]; intros Henvs active.
  - cbn. now rewrite app_nil_r.
  - cbn [forallb] in Henvs. apply andb_prop in Henvs as [Henv Henvs].
    apply andb_prop in Henv as [Hobject Hid].
    cbn [filter_active filter]. rewrite !(py_get_object env) by exact Hobject.
    cbn [bind]. fold (field env "Id"). unfold py_set_contains.
    rewrite (id_like_hashable _ Hid). cbn [bind].
    destruct (existsb (py_eq (field env "Id")) ids).
    + cbn [bind map]. rewrite (IH Henvs), <- app_assoc. reflexivity.
    + apply IH, Henvs.
Qed.

Lemma filter_same {A} (p q : A -> bool) (xs : list A) :
  (forall x, In x xs -> p x = q x) -> filter p xs = filter q xs.
Proof.
  induction xs as [| x xs IH]; intros H; [reflexivity |].
  cbn. rewrite (H x (or_introl eq_refl)), IH; [reflexivity |].
  intros y Hy. apply H. now right.
Qed.

(** X26.  The environments [_get_active_environments] returns
    when its three reads succeed: those of the space, in the order of the
    listing, that a deployment of the first release of the project
    targets.  Only the first release counts, and an identifier that is
    empty or missing targets nothing. *)
Theorem active_environments_of_latest_release {sm : str_methods}
  (py_repr : json -> string)
  (self : tools) (W : Type) (h : W -> request -> http_outcome * W)
  (space_id project_id : json) (w0 w1 w2 w3 : W) (t1 t2 t3 : list request)
  (releases_response latest latest_id deployments_response : json)
  (environments_response : json) (older ds envs : list json) :
  run h (_make_request self
           (str py_repr space_id ++ "/projects/" ++ str py_repr project_id
            ++ "/releases") None None) w0
  = (Ok releases_response, w1, t1) ->
  py_contains "error" releases_response = Ret false ->
  py_get releases_response "Items" (JList []) = Ret (JList (latest :: older)) ->
  py_getitem latest "Id" = Ret latest_id ->
  run h (_make_request self
           (str py_repr space_id ++ "/releases/" ++ str py_repr latest_id
            ++ "/deployments") None None) w1
  = (Ok deployments_response, w2, t2) ->
  py_contains "error" deployments_response = Ret false ->
  py_get deployments_response "Items" (JList []) = Ret (JList ds) ->
  ds <> [] ->
  forallb (fun d => is_object d && id_like (field d "EnvironmentId")) ds = true ->
  run h (_make_request self (str py_repr space_id ++ "/environments/all")
                       None None) w2
  = (Ok environments_response, w3, t3) ->
  collection_items environments_response = Some envs ->
  forallb (fun e => is_object e && id_like (field e "Id")) envs = true ->
  run h (_get_active_environments py_repr self space_id project_id) w0
  = (Ok (JList (map environment_summary (filter (deployed_to ds) envs))),
     w3, (t1 ++ t2 ++ t3)%list).
Proof.
  intros Hreleases Hno_error Hitems Hid Hdeployments Hno_error' Hitems' Hsome
         Hds Henvironments Hcollection Henvs.
  assert (Hobjects : forallb is_object envs = true).
  { clear - Henvs. induction envs as [| e es IH]; [reflexivity |].
    cbn [forallb] in *. apply andb_prop in Henvs as [He Hes].
    apply andb_prop in He as [He _]. now rewrite He, IH. }
  destruct (collect_env_ids_spec ds Hds []) as (ids & Hcollect & Hspec).
  unfold _get_active_environments. forward.
  cbn [truthy is_nil negb py_first bind]. forward.
  assert (Htruthy : truthy (JList ds) = true)
    by (destruct ds; [congruence | reflexivity]).
  forward. cbn [py_iter bind]. forward.
  rewrite (no_error_in_collection _ _ Hcollection Hobjects). cbn [bind].
  rewrite (items_of_collection _ _ Hcollection). cbn [py_iter bind].
  rewrite (filter_active_spec ids envs Henvs). cbn [bind app].
  forward. rewrite <- ?app_assoc.
  rewrite (filter_same _ (deployed_to ds) envs); [reflexivity |].
  intros env Hin. apply eq_iff_eq_true.
  assert (Hlike : id_like (field env "Id") = true).
  { rewrite forallb_forall in Henvs. specialize (Henvs env Hin).
    now apply andb_prop in Henvs as [_ H]. }
  rewrite (Hspec _ Hlike). unfold deployed_to, has_deployment.
  rewrite andb_true_iff. cbn [existsb]. intuition discriminate.
Qed.

Lemma active_environments_of_latest_release_witness :
  run status_remote
      (_get_active_environments Demo.repr Demo.self (JStr "Spaces-1")
                                (JStr "Projects-1")) tt
  = (Ok (JList (map environment_summary
                    (filter (deployed_to [deployment_production])
                            [Demo.env_production; Demo.env_staging]))),
     tt,
     ([Demo.get "Spaces-1/projects/Projects-1/releases"]
      ++ [Demo.get "Spaces-1/releases/Releases-1/deployments"]
      ++ [Demo.get "Spaces-1/environments/all"])%list).
Proof.
  exact (active_environments_of_latest_release Demo.repr Demo.self unit
           status_remote (JStr "Spaces-1") (JStr "Projects-1") tt tt tt tt
           [Demo.get "Spaces-1/projects/Projects-1/releases"]
           [Demo.get "Spaces-1/releases/Releases-1/deployments"]
           [Demo.get "Spaces-1/environments/all"]
           releases_1_0 release_1_0 (JStr "Releases-1")
           (JDict [("Items", JList [deployment_production])])
           (JList [Demo.env_production; Demo.env_staging])
           [] [deployment_production] [Demo.env_production; Demo.env_staging]
           eq_refl eq_refl eq_refl eq_refl eq_refl eq_refl eq_refl
           (fun H => @nil_cons json deployment_production [] (eq_sym H))
           eq_refl eq_refl eq_refl eq_refl).
Defined.
